(** * Forecast orchestration and model lifecycle of [app.py]

    A shallow embedding of the forecasting core of the stock-analytics
    backend: [forecast_linear], [forecast_lstm_autotrain],
    [forecast_lstm_inference], the model catalog
    ([_normalise_ticker_from_stem], [_find_scaler_path],
    [list_available_models], [load_lstm_artifacts]) and the tier selection of
    the [/forecast] endpoint ([get_forecast]); further the request window
    ([_validate_interval], [_resolve_date_range], [load_data] up to the
    download), the headline sentiment ([_analyze_headline_sentiment] and the
    summary of [get_sentiment]) and [pretrain_ticker] of pretrain_models.py.

    Conventions of the embedding.
    - Python [int] is [Z]; slices and [range] follow Python's rules for
      negative and out-of-range indices.
    - [float] is idealised to exact rational arithmetic ([Q], compared with
      [==]) and NaN only occurs as a missing close ([None]).  The cast
      [dtype=np.float32] of the predictions that [forecast_lstm_autotrain]
      decodes is the rounding [float32], with 24 significant bits and
      subnormals; overflow to infinity is not modelled.  Keras computes in
      float32 whatever it is handed, so the casts of its inputs belong to
      the backend.
    - A [pd.Timestamp] is its integer nanosecond count, a naive [datetime]
      its integer microsecond count; the arithmetic of the datetime library
      is a parameter of the functions that use it.
    - [str] is ASCII text; a path is the name of a file inside the model
      directory [DEFAULT_MODEL_DIR].
    - A Python exception is a value of [Exc]; a call that may raise returns a
      [Result].  Exceptions raised by [app.py] itself keep their class and
      message; anything raised inside numpy, pandas, scikit-learn, keras,
      joblib or the operating system is a [LibraryError] carrying its text.
    - Keras, joblib and the model directory are external: they are the fields
      of a [Backend], and every statement holds for all backends. *)

From Stdlib Require Import ZArith QArith Qminmax Qround Qabs Qpower Lqa Lia.
From Stdlib Require Import List String Ascii.
From stdpp Require Import gmap strings list fin_maps.

Local Open Scope Z_scope.

(* ===================================================================== *)
(** * Exceptions and results *)
(* ===================================================================== *)

Inductive Exc : Type :=
| ValueError (msg : string)
| FileNotFoundError (msg : string)
| HTTPException (status : Z) (detail : string)
| LibraryError (msg : string).

(** [str(exc)] *)
Definition str_exc (e : Exc) : string :=
  match e with
  | ValueError m | FileNotFoundError m | LibraryError m => m
  | HTTPException _ d => d
  end.

Inductive Result (A : Type) : Type :=
| Ok (a : A)
| Raise (e : Exc).
Arguments Ok {A} a.
Arguments Raise {A} e.

Definition bindR {A B} (c : Result A) (k : A -> Result B) : Result B :=
  match c with
  | Ok a => k a
  | Raise e => Raise e
  end.

Notation "'let?' x ':=' c 'in' k" := (bindR c (fun x => k))
  (at level 10, x pattern, c at level 100, k at level 200).

(** Outcome of a call into an external library. *)
Inductive Outcome (A : Type) : Type :=
| Done (a : A)
| Failed (msg : string).
Arguments Done {A} a.
Arguments Failed {A} msg.

Definition lift {A} (o : Outcome A) : Result A :=
  match o with
  | Done a => Ok a
  | Failed msg => Raise (LibraryError msg)
  end.

(* ===================================================================== *)
(** * Python sequences *)
(* ===================================================================== *)

(** Normalisation of a slice bound against a sequence of length [n]. *)
Definition py_index (n : nat) (i : Z) : nat :=
  if i <? 0 then Z.to_nat (Z.max 0 (Z.of_nat n + i))
  else Nat.min (Z.to_nat i) n.

(** [l[a:b]] *)
Definition py_slice {A} (l : list A) (a b : Z) : list A :=
  let lo := py_index (length l) a in
  let hi := py_index (length l) b in
  firstn (hi - lo) (skipn lo l).

(** [l[a:]] *)
Definition py_slice_from {A} (l : list A) (a : Z) : list A :=
  skipn (py_index (length l) a) l.

(** [range(a, b)], also [np.arange(a, b)] *)
Definition py_range (a b : Z) : list Z :=
  map (fun k => a + Z.of_nat k) (seq 0 (Z.to_nat (b - a))).

(** [s.iloc[-1]] *)
Definition iloc_last {A} (l : list A) : Result A :=
  match last l with
  | Some x => Ok x
  | None => Raise (LibraryError "single positional indexer is out-of-bounds")
  end.

(* ===================================================================== *)
(** * Data frames *)
(* ===================================================================== *)

(** One row of the price frame: its [Date] and its [Close], [None] when the
    close is missing. *)
Record Row : Type := { Date : Z; Close : option Q }.

Abbreviation DataFrame := (list Row).

(** [data.dropna(subset=["Close"])] *)
Definition dropna_Close (data : DataFrame) : DataFrame :=
  filter (fun r => is_Some (Close r)) data.

(** [frame["Close"].astype(float).values] of a frame *)
Definition Close_values (data : DataFrame) : list Q := omap Close data.

(** One row of a returned frame [{"Date": ..., "Forecast": ...}]. *)
Record ForecastRow : Type := { FDate : Z; Forecast : Q }.

Abbreviation ForecastFrame := (list ForecastRow).

(** [pd.DataFrame({"Date": dates, "Forecast": values})] *)
Definition make_frame (dates : list Z) (values : list Q) : Result ForecastFrame :=
  if (length dates =? length values)%nat
  then Ok (zip_with Build_ForecastRow dates values)
  else Raise (LibraryError "All arrays must be of the same length").

(** [pd.Timedelta(days=n)] in nanoseconds *)
Definition Timedelta_days (n : Z) : Z := n * 86400000000000.

(** [pd.date_range(start, periods=periods, freq="D")]; a negative count is
    rejected (the endpoint passes 1 to 365). *)
Definition date_range (start periods : Z) : Result (list Z) :=
  if periods <? 0
  then Raise (LibraryError "date_range: negative number of periods")
  else Ok (map (fun k => start + Timedelta_days k) (py_range 0 periods)).

(* ===================================================================== *)
(** * sklearn.preprocessing.MinMaxScaler, feature_range (0, 1) *)
(* ===================================================================== *)

Record MinMaxScaler : Type := {
  data_min_ : Q;
  data_max_ : Q;
  scale_ : Q;
  min_ : Q
}.

Definition Qltb (x y : Q) : bool := negb (Qle_bool y x).

(** [np.finfo(np.float64).eps] *)
Definition float_eps : Q := 1 # (2 ^ 52).

(** A range below ten machine epsilons counts as constant and is scaled
    by 1. *)
Definition _handle_zeros_in_scale (scale : Q) : Q :=
  if Qltb scale (10 * float_eps) then 1%Q else scale.

Definition np_min (x : Q) (xs : list Q) : Q := fold_left Qmin xs x.
Definition np_max (x : Q) (xs : list Q) : Q := fold_left Qmax xs x.

Definition empty_array_msg : string :=
  "Found array with 0 sample(s) while a minimum of 1 is required by MinMaxScaler.".

(** [MinMaxScaler(feature_range=(0.0, 1.0)).fit(X)] on one column *)
Definition fit (X : list Q) : Result MinMaxScaler :=
  match X with
  | [] => Raise (LibraryError empty_array_msg)
  | x :: xs =>
      let data_min := np_min x xs in
      let data_max := np_max x xs in
      let data_range := (data_max - data_min)%Q in
      let scale := ((1 - 0) / _handle_zeros_in_scale data_range)%Q in
      Ok {| data_min_ := data_min;
            data_max_ := data_max;
            scale_ := scale;
            min_ := (0 - data_min * scale)%Q |}
  end.

(** [X * scale_ + min_] and [(X - min_) / scale_] on one value *)
Definition transform1 (sc : MinMaxScaler) (x : Q) : Q :=
  (x * scale_ sc + min_ sc)%Q.

Definition inverse_transform1 (sc : MinMaxScaler) (y : Q) : Q :=
  ((y - min_ sc) / scale_ sc)%Q.

(** [scaler.transform(X)] and [scaler.inverse_transform(X)]: both validate
    their argument and reject an array without samples. *)
Definition transform (sc : MinMaxScaler) (X : list Q) : Result (list Q) :=
  match X with
  | [] => Raise (LibraryError empty_array_msg)
  | _ => Ok (map (transform1 sc) X)
  end.

Definition inverse_transform (sc : MinMaxScaler) (X : list Q) : Result (list Q) :=
  match X with
  | [] => Raise (LibraryError empty_array_msg)
  | _ => Ok (map (inverse_transform1 sc) X)
  end.

(** [scaler.fit_transform(X)] *)
Definition fit_transform (X : list Q) : Result (MinMaxScaler * list Q) :=
  let? sc := fit X in
  let? Xs := transform sc X in
  Ok (sc, Xs).

(** [np.clip(x, lo, hi)] *)
Definition np_clip (x lo hi : Q) : Q := Qmin (Qmax x lo) hi.

(* ===================================================================== *)
(** * numpy.float32 *)
(* ===================================================================== *)

(** floor(log2 a) of a positive rational *)
Definition binade (a : Q) : Z :=
  let k := Z.log2 (Qnum a) - Z.log2 (Zpos (Qden a)) in
  if Qle_bool (2 ^ k) a then k else k - 1.

(** The nearest integer, a tie going to the even one. *)
Definition rint (x : Q) : Z :=
  let f := Qfloor x in
  match (x - inject_Z f ?= 1 # 2)%Q with
  | Lt => f
  | Gt => f + 1
  | Eq => if Z.even f then f else f + 1
  end.

(** The nearest multiple of 2 ^ q. *)
Definition round_at (q : Z) (x : Q) : Q :=
  (inject_Z (rint (x / 2 ^ q)) * 2 ^ q)%Q.

(** The spacing of the float32 values around [x]: 24 significant bits, and
    2 ^ -149 in the subnormal range. *)
Definition quantum (x : Q) : Z := Z.max (binade (Qabs x) - 23) (-149).

(** The cast of a double to float32: the nearest float32 value, ties to
    even. *)
Definition float32 (x : Q) : Q := Qred (round_at (quantum x) x).
Arguments float32 : simpl never.

(** [scaler.inverse_transform(X)] on a float32 array.  scikit-learn keeps the
    dtype of the array and works in place ([X -= min_], [X /= scale_]), so
    the difference and the quotient are each stored as float32. *)
Definition inverse_transform1_f32 (sc : MinMaxScaler) (y : Q) : Q :=
  float32 (float32 (y - min_ sc) / scale_ sc).

Definition inverse_transform_f32 (sc : MinMaxScaler) (X : list Q)
    : Result (list Q) :=
  match X with
  | [] => Raise (LibraryError empty_array_msg)
  | _ => Ok (map (inverse_transform1_f32 sc) X)
  end.

(** [np.array(preds_scaled, dtype=np.float32)] decoded: the price a scaled
    prediction stands for in the frame [forecast_lstm_autotrain] returns. *)
Definition decode_f32 (sc : MinMaxScaler) (p : Q) : Q :=
  inverse_transform1_f32 sc (float32 p).

(* ===================================================================== *)
(** * forecast_linear *)
(* ===================================================================== *)

Definition Qsum (l : list Q) : Q := fold_right Qplus 0%Q l.

(** [np.polyfit(x, y, 1)]: the least-squares line through the points, as
    (slope, intercept). *)
Definition np_polyfit1 (x y : list Q) : Result (Q * Q) :=
  match x with
  | [] => Raise (LibraryError "expected non-empty vector for x")
  | _ =>
      let n := inject_Z (Z.of_nat (length x)) in
      let sx := Qsum x in
      let sy := Qsum y in
      let sxx := Qsum (map (fun a => a * a)%Q x) in
      let sxy := Qsum (zip_with Qmult x y) in
      let slope := ((n * sxy - sx * sy) / (n * sxx - sx * sx))%Q in
      Ok (slope, ((sy - slope * sx) / n)%Q)
  end.

Definition no_data_msg : string := "No data available for forecasting".

Definition forecast_linear (data : DataFrame) (days : Z) : Result ForecastFrame :=
  match data with
  | [] => Raise (ValueError no_data_msg)
  | _ =>
      let closes := dropna_Close data in
      let closes_values := Close_values closes in
      let n := Z.of_nat (length closes_values) in
      let? (slope, intercept) :=
        match closes_values with
        | [c] => Ok (0%Q, c)
        | _ => np_polyfit1 (map inject_Z (py_range 0 n)) closes_values
        end in
      let future_index := py_range n (n + days) in
      let forecast_values :=
        map (fun i => slope * inject_Z i + intercept)%Q future_index in
      let? last_date := iloc_last (map Date closes) in
      let? future_dates := date_range (last_date + Timedelta_days 1) days in
      make_frame future_dates forecast_values
  end.

(* ===================================================================== *)
(** * The model backend and the storage root *)
(* ===================================================================== *)

(** Keras, joblib and the directory [DEFAULT_MODEL_DIR].  A path is the name
    of a file inside that directory.  [listing] is what a scan of the
    directory sees, in scan order, or [None] when it is not a directory.
    [keras_fit window X y epochs learning_rate batch_size] builds, compiles
    and fits the network.  The directory is shared with other writers (a
    concurrent request persisting its model): [others] is what they have
    made of it by the time it is read again. *)
Record Backend : Type := {
  Model : Type;
  Storage : Type;
  listing : Storage -> option (list string);
  keras_fit : Z -> list (list Q) -> list Q -> Z -> Q -> Z -> Outcome Model;
  keras_predict : Model -> list Q -> Outcome Q;
  mkdir : Storage -> Outcome unit * Storage;
  keras_save : Model -> string -> Storage -> Outcome unit * Storage;
  joblib_dump : MinMaxScaler -> string -> Storage -> Outcome unit * Storage;
  keras_load_model : string -> Storage -> Outcome Model;
  joblib_load : string -> Storage -> Outcome MinMaxScaler;
  others : Storage -> Storage
}.

(** [os.path.exists(p)], [Path.exists()]: names compare character by
    character, as on a case-sensitive file system. *)
Definition path_exists (names : option (list string)) (p : string) : bool :=
  match names with
  | Some l => bool_decide (p ∈ l)
  | None => false
  end.

(** Computations that read and write the storage root and may raise. *)
Definition M (St A : Type) : Type := St -> Result A * St.

Definition retM {St A} (a : A) : M St A := fun st => (Ok a, st).

Definition bindM {St A C} (c : M St A) (k : A -> M St C) : M St C :=
  fun st =>
    match c st with
    | (Ok a, st') => k a st'
    | (Raise e, st') => (Raise e, st')
    end.

Definition pureM {St A} (r : Result A) : M St A := fun st => (r, st).

Definition callM {St A} (c : St -> Outcome A * St) : M St A :=
  fun st => let (o, st') := c st in (lift o, st').

Notation "'let*' x ':=' c 'in' k" := (bindM c (fun x => k))
  (at level 10, x pattern, c at level 100, k at level 200).

(* ===================================================================== *)
(** * Python strings (ASCII text) *)
(* ===================================================================== *)

Definition ascii_upper (c : ascii) : ascii :=
  let n := nat_of_ascii c in
  if ((97 <=? n) && (n <=? 122))%nat then ascii_of_nat (n - 32) else c.

Definition ascii_lower (c : ascii) : ascii :=
  let n := nat_of_ascii c in
  if ((65 <=? n) && (n <=? 90))%nat then ascii_of_nat (n + 32) else c.

Fixpoint map_string (f : ascii -> ascii) (s : string) : string :=
  match s with
  | EmptyString => EmptyString
  | String c r => String (f c) (map_string f r)
  end.

(** [s.upper()], [s.lower()] *)
Definition py_upper : string -> string := map_string ascii_upper.
Definition py_lower : string -> string := map_string ascii_lower.

Fixpoint filter_string (p : ascii -> bool) (s : string) : string :=
  match s with
  | EmptyString => EmptyString
  | String c r => if p c then String c (filter_string p r) else filter_string p r
  end.

Fixpoint lstrip_with (p : ascii -> bool) (s : string) : string :=
  match s with
  | EmptyString => EmptyString
  | String c r => if p c then lstrip_with p r else s
  end.

Definition string_rev (s : string) : string :=
  string_of_list_ascii (rev (list_ascii_of_string s)).

Definition strip_with (p : ascii -> bool) (s : string) : string :=
  string_rev (lstrip_with p (string_rev (lstrip_with p s))).

Definition is_space (c : ascii) : bool :=
  let n := nat_of_ascii c in
  (((9 <=? n) && (n <=? 13)) || ((28 <=? n) && (n <=? 32)))%nat.

(** [s.strip()] *)
Definition py_strip : string -> string := strip_with is_space.

(** [s.strip(chars)] *)
Definition py_strip_chars (chars : list ascii) : string -> string :=
  strip_with (fun c => bool_decide (c ∈ chars)).

(** [s.startswith(p)], [s.endswith(p)] and [s[n:]] *)
Definition startswith (p s : string) : bool := String.prefix p s.

Definition endswith (p s : string) : bool :=
  String.prefix (string_rev p) (string_rev s).

Fixpoint string_drop (n : nat) (s : string) : string :=
  match n, s with
  | O, _ => s
  | S n', String _ r => string_drop n' r
  | S _, EmptyString => EmptyString
  end.

(** The truth value of an [Optional[str]]. *)
Definition truthy (s : option string) : bool :=
  match s with
  | Some (String _ _) => true
  | _ => false
  end.

(* ===================================================================== *)
(** * forecast_lstm_autotrain *)
(* ===================================================================== *)

(** [a[i]] on an array, a negative index counting from the end. *)
Definition py_getitem {A} (l : list A) (i : Z) : Result A :=
  let n := Z.of_nat (length l) in
  let j := if i <? 0 then n + i else i in
  if (0 <=? j) && (j <? n)
  then match l !! Z.to_nat j with
       | Some x => Ok x
       | None => Raise (LibraryError "index out of bounds")
       end
  else Raise (LibraryError "index out of bounds").

(** The loop [for idx in range(window, len(closes_scaled))] that appends a
    window to [sequences] and the value after it to [targets]. *)
Fixpoint build_pairs (closes_scaled : list Q) (window : Z) (idxs : list Z)
    (sequences : list (list Q)) (targets : list Q)
    : Result (list (list Q) * list Q) :=
  match idxs with
  | [] => Ok (sequences, targets)
  | idx :: rest =>
      let? t := py_getitem closes_scaled idx in
      build_pairs closes_scaled window rest
        (sequences ++ [py_slice closes_scaled (idx - window) idx])
        (targets ++ [t])
  end.

Definition make_sequences (closes_scaled : list Q) (window : Z)
    : Result (list (list Q) * list Q) :=
  build_pairs closes_scaled window
    (py_range window (Z.of_nat (length closes_scaled))) [] [].

(** [np.array(sequences, dtype=np.float32).reshape(-1, window, 1)] *)
Definition reshape_samples (sequences : list (list Q)) (window : Z)
    : Result (list (list Q)) :=
  if (0 <? window)
     && forallb (fun s => Z.of_nat (length s) =? window) sequences
  then Ok sequences
  else Raise (LibraryError "cannot reshape array into shape (-1, window, 1)").

(** [np.array(xs).reshape(1, window, 1)]; a dimension of -1 is inferred. *)
Definition reshape_window (xs : list Q) (window : Z) : Result (list Q) :=
  if (window =? -1) || (Z.of_nat (length xs) =? window)
  then Ok xs
  else Raise (LibraryError "cannot reshape array into shape (1, window, 1)").

Definition not_enough_train_msg : string :=
  "Not enough data points to train an LSTM model for the requested window size.".

Definition no_sequences_msg : string :=
  "Unable to create training sequences for LSTM model.".

Section Forecasters.

Variable B : Backend.

(** The prediction loop of [forecast_lstm_autotrain], [n] iterations left. *)
Fixpoint autotrain_loop (model : Model B) (window : Z) (n : nat)
    (history_scaled preds_scaled : list Q) : Result (list Q) :=
  match n with
  | O => Ok preds_scaled
  | S n' =>
      let? window_slice :=
        reshape_window (py_slice_from history_scaled (- window)) window in
      let? next_scaled := lift (keras_predict B model window_slice) in
      let next_scaled := np_clip next_scaled 0 1 in
      autotrain_loop model window n'
        (history_scaled ++ [next_scaled]) (preds_scaled ++ [next_scaled])
  end.

(** The prediction loop of [forecast_lstm_inference]. *)
Fixpoint inference_loop (model : Model B) (window : Z) (n : nat)
    (history_scaled preds_scaled : list Q) : Result (list Q) :=
  match n with
  | O => Ok preds_scaled
  | S n' =>
      let? window_slice :=
        reshape_window (py_slice_from history_scaled (- window)) window in
      let? next_scaled := lift (keras_predict B model window_slice) in
      inference_loop model window n'
        (history_scaled ++ [next_scaled]) (preds_scaled ++ [next_scaled])
  end.

(** The body of [forecast_lstm_autotrain] up to the decoded predictions:
    guard, scaling, training pairs, training, prediction loop, inverse
    transform.  It does not touch the storage root. *)
Definition autotrain_predict (data : DataFrame) (days window epochs : Z)
    (learning_rate : Q) : Result (Model B * MinMaxScaler * list Q) :=
  let closes := Close_values (dropna_Close data) in
  if Z.of_nat (length closes) <=? window
  then Raise (ValueError not_enough_train_msg)
  else
    let? (scaler, closes_scaled) := fit_transform closes in
    let? (sequences, targets) := make_sequences closes_scaled window in
    match sequences with
    | [] => Raise (ValueError no_sequences_msg)
    | _ =>
        let? X := reshape_samples sequences window in
        let y := targets in
        let batch_size :=
          let b := Z.min 32 (Z.of_nat (length X)) in
          if b =? 0 then 1 else b in
        let? model :=
          lift (keras_fit B window X y epochs learning_rate batch_size) in
        let? preds_scaled :=
          autotrain_loop model window (Z.to_nat days) closes_scaled [] in
        let? preds :=
          inverse_transform_f32 scaler (map float32 preds_scaled) in
        Ok (model, scaler, preds)
    end.

(** The block under [if persist and ticker:]. *)
Definition persist_artifacts (model : Model B) (scaler : MinMaxScaler)
    (ticker : string) : M (Storage B) unit :=
  let ticker_clean := py_upper (py_strip ticker) in
  let* _ := callM (mkdir B) in
  let model_path := "lstm_" +:+ ticker_clean +:+ ".keras" in
  let scaler_path := "scaler_" +:+ ticker_clean +:+ ".save" in
  let* _ := callM (keras_save B model model_path) in
  callM (joblib_dump B scaler scaler_path).

(** The tail shared by both sequence forecasters: the dates after the last
    row of [data] and the returned frame. *)
Definition dated_frame (data : DataFrame) (days : Z) (preds : list Q)
    : Result ForecastFrame :=
  let? last_date := iloc_last (map Date data) in
  let? future_dates := date_range (last_date + Timedelta_days 1) days in
  make_frame future_dates preds.

Definition forecast_lstm_autotrain (data : DataFrame) (days window epochs : Z)
    (learning_rate : Q) (ticker : option string) (persist : bool)
    : M (Storage B) ForecastFrame :=
  let* (model, scaler, preds) :=
    pureM (autotrain_predict data days window epochs learning_rate) in
  let* _ :=
    match ticker with
    | Some t =>
        if persist && truthy ticker
        then persist_artifacts model scaler t
        else retM tt
    | None => retM tt
    end in
  pureM (dated_frame data days preds).

(* ===================================================================== *)
(** * forecast_lstm_inference *)
(* ===================================================================== *)

Definition not_enough_infer_msg : string :=
  "Not enough data points for the selected LSTM window size.".

Definition forecast_lstm_inference (data : DataFrame)
    (model_path scaler_path : string) (days window : Z)
    (st : Storage B) : Result ForecastFrame :=
  if negb (path_exists (listing B st) model_path)
  then Raise (FileNotFoundError ("Model file not found: " +:+ model_path))
  else if negb (path_exists (listing B st) scaler_path)
  then Raise (FileNotFoundError ("Scaler file not found: " +:+ scaler_path))
  else
    let closes := Close_values (dropna_Close data) in
    if Z.of_nat (length closes) <? window
    then Raise (ValueError not_enough_infer_msg)
    else
      let? scaler := lift (joblib_load B scaler_path st) in
      let? closes_scaled := transform scaler closes in
      let? model := lift (keras_load_model B model_path st) in
      let? preds_scaled :=
        inference_loop model window (Z.to_nat days) closes_scaled [] in
      let? preds := inverse_transform scaler preds_scaled in
      dated_frame data days preds.

End Forecasters.

(* ===================================================================== *)
(** * The model catalog *)
(* ===================================================================== *)

Definition is_AZ09 (c : ascii) : bool :=
  let n := nat_of_ascii c in
  (((65 <=? n) && (n <=? 90)) || ((48 <=? n) && (n <=? 57)))%nat.

Definition _normalise_ticker_from_stem (stem : string) : option string :=
  let cleaned := py_upper stem in
  let cleaned :=
    fold_left
      (fun cleaned prefix =>
         if startswith prefix cleaned
         then string_drop (String.length prefix) cleaned
         else cleaned)
      ["LSTM_"; "MODEL_"; "STOCK_"]%string cleaned in
  let cleaned := filter_string is_AZ09 cleaned in
  match cleaned with
  | EmptyString => None
  | _ => Some cleaned
  end.

Definition scaler_candidates (ticker : string) : list string :=
  [ ticker +:+ "_SCALER.pkl";
    ticker +:+ "_SCALER.save";
    ticker +:+ "_scaler.pkl";
    ticker +:+ "_scaler.save";
    "SCALER_" +:+ ticker +:+ ".pkl";
    "SCALER_" +:+ ticker +:+ ".save";
    "scaler_" +:+ ticker +:+ ".pkl";
    "scaler_" +:+ ticker +:+ ".save";
    "lstm_" +:+ ticker +:+ "_scaler.pkl";
    "lstm_" +:+ ticker +:+ "_scaler.save";
    "LSTM_" +:+ ticker +:+ "_SCALER.pkl";
    "LSTM_" +:+ ticker +:+ "_SCALER.save" ]%string.

Definition more_scaler_candidates (ticker : string) : list string :=
  let ticker_lower := py_lower ticker in
  [ ticker_lower +:+ "_scaler.pkl";
    ticker_lower +:+ "_scaler.save";
    "scaler_" +:+ ticker_lower +:+ ".pkl";
    "scaler_" +:+ ticker_lower +:+ ".save";
    "lstm_" +:+ ticker_lower +:+ "_scaler.pkl";
    "lstm_" +:+ ticker_lower +:+ "_scaler.save" ]%string.

(** [names] is the content of [model_root]. *)
Definition _find_scaler_path (names : list string) (ticker : string)
    : option string :=
  match List.find (path_exists (Some names)) (scaler_candidates ticker) with
  | Some candidate => Some candidate
  | None => List.find (path_exists (Some names)) (more_scaler_candidates ticker)
  end.

Fixpoint rfind_from (c : ascii) (s : string) (i : nat) (found : option nat)
    : option nat :=
  match s with
  | EmptyString => found
  | String d r =>
      rfind_from c r (S i) (if Ascii.eqb d c then Some i else found)
  end.

(** [PurePath.stem]: the name without its last suffix; a dot that starts or
    ends the name opens no suffix. *)
Definition stem (name : string) : string :=
  match rfind_from "." name 0 None with
  | Some i =>
      if ((0 <? i) && (i <? String.length name - 1))%nat
      then String.substring 0 i name
      else name
  | None => name
  end.

(** [model_root.glob("*" + suffix)] *)
Definition glob_suffix (suffix : string) (names : list string) : list string :=
  List.filter (endswith suffix) names.

Record CatalogEntry : Type := { model : string; scaler : string }.

(** The loop body of [list_available_models]. *)
Definition scan_step (names : list string)
    (models : gmap string CatalogEntry) (model_path : string)
    : gmap string CatalogEntry :=
  match _normalise_ticker_from_stem (stem model_path) with
  | None => models
  | Some ticker =>
      match _find_scaler_path names ticker with
      | Some scaler_path =>
          <[ticker := {| model := model_path; scaler := scaler_path |}]> models
      | None => models
      end
  end.

Definition model_files (names : list string) : list string :=
  glob_suffix ".keras" names ++ glob_suffix ".h5" names.

(** [list_available_models] as a function of what the scan sees. *)
Definition list_available_models (dir : option (list string))
    : gmap string CatalogEntry :=
  match dir with
  | None => ∅
  | Some names => fold_left (scan_step names) (model_files names) ∅
  end.

Definition load_lstm_artifacts (ticker : string)
    (model_catalog : gmap string CatalogEntry) : Result (string * string) :=
  let ticker_clean := py_upper (py_strip ticker) in
  match model_catalog !! ticker_clean with
  | None => Raise (FileNotFoundError ("No saved LSTM model for " +:+ ticker_clean))
  | Some entry => Ok (model entry, scaler entry)
  end.

(* ===================================================================== *)
(** * get_forecast: tier selection *)
(* ===================================================================== *)

Inductive Tier : Type := TierTrain | TierCached | TierLinear.

Global Instance Tier_eq_dec : EqDecision Tier.
Proof. solve_decision. Defined.

Record ForecastResponse : Type := {
  r_ticker : string;
  r_source : string;
  r_forecast : ForecastFrame;
  r_history : DataFrame;
  r_note : option string
}.

(** The local variables of [get_forecast] that the tiers update. *)
Record Locals : Type := {
  forecast_df : option ForecastFrame;
  source : string;
  note : option string;
  train_error : option string;
  model_catalog : gmap string CatalogEntry
}.

(** [data.tail(limit)] for a non-negative limit *)
Definition py_tail {A} (l : list A) (limit : Z) : list A :=
  skipn (length l - Z.to_nat limit) l.

Section Orchestrator.

Variable B : Backend.

(** The storage root together with the record of the tier functions called
    so far, oldest first.  The record is bookkeeping of the embedding. *)
Record World : Type := { storage : Storage B; trace : list Tier }.

Definition logged (t : Tier) (w : World) : World :=
  {| storage := storage w; trace := trace w ++ [t] |}.

(** Calls of the three tier functions, each entered in the trace. *)
Definition call_autotrain (data : DataFrame) (days window : Z)
    (ticker_clean : string) (w : World) : Result ForecastFrame * World :=
  let w := logged TierTrain w in
  let (r, st) :=
    forecast_lstm_autotrain B data days window 8 (5 # 10000)
      (Some ticker_clean) true (storage w) in
  (r, {| storage := st; trace := trace w |}).

(** [forecast_lstm_inference] reads the storage root as it is when it is
    called: what the catalog was scanned from, or what an earlier call read,
    may have changed since. *)
Definition call_inference (data : DataFrame) (model_path scaler_path : string)
    (days window : Z) (w : World) : Result ForecastFrame * World :=
  let w :=
    logged TierCached {| storage := others B (storage w); trace := trace w |} in
  (forecast_lstm_inference B data model_path scaler_path days window (storage w), w).

Definition call_linear (data : DataFrame) (days : Z) (w : World)
    : Result ForecastFrame * World :=
  (forecast_linear data days, logged TierLinear w).

(** [load_lstm_artifacts] followed by [forecast_lstm_inference], the body of
    both [try] blocks around the cached model. *)
Definition cached_attempt (data : DataFrame) (ticker_clean : string)
    (catalog : gmap string CatalogEntry) (days window : Z) (w : World)
    : Result ForecastFrame * World :=
  match load_lstm_artifacts ticker_clean catalog with
  | Raise e => (Raise e, w)
  | Ok (model_path, scaler_path) =>
      call_inference data model_path scaler_path days window w
  end.

Definition or_empty (s : option string) : string :=
  match s with
  | Some (String c r) => String c r
  | _ => EmptyString
  end.

(** The block under [if use_lstm:]. *)
Definition sequence_block (data : DataFrame) (ticker_clean : string)
    (days window : Z) (l : Locals) (w : World) : Locals * World :=
  match call_autotrain data days window ticker_clean w with
  | (Ok df, w1) =>
      ({| forecast_df := Some df; source := "lstm"; note := note l;
          train_error := train_error l; model_catalog := model_catalog l |}, w1)
  | (Raise train_exc, w1) =>
      let train_error := str_exc train_exc in
      let model_catalog := list_available_models (listing B (storage w1)) in
      match model_catalog !! ticker_clean with
      | Some _ =>
          match cached_attempt data ticker_clean model_catalog days window w1 with
          | (Ok df, w2) =>
              ({| forecast_df := Some df; source := "lstm";
                  note := Some ("Used cached LSTM due to training fallback: "
                                +:+ train_error);
                  train_error := Some train_error;
                  model_catalog := model_catalog |}, w2)
          | (Raise exc, w2) =>
              ({| forecast_df := forecast_df l; source := source l;
                  note := note l;
                  train_error := Some (train_error +:+ "; cached model failed: "
                                       +:+ str_exc exc);
                  model_catalog := model_catalog |}, w2)
          end
      | None =>
          ({| forecast_df := forecast_df l; source := source l;
              note := Some ("LSTM training unavailable: " +:+ train_error);
              train_error := Some train_error;
              model_catalog := model_catalog |}, w1)
      end
  end.

(** The block under [if forecast_df is None:]. *)
Definition fallback_block (data : DataFrame) (ticker_clean : string)
    (days window : Z) (use_lstm : bool) (l : Locals) (w : World)
    : Result Locals * World :=
  match forecast_df l with
  | Some _ => (Ok l, w)
  | None =>
      let (l1, w1) :=
        if use_lstm && bool_decide (is_Some (model_catalog l !! ticker_clean))
        then
          match cached_attempt data ticker_clean (model_catalog l) days window w with
          | (Ok df, w') =>
              ({| forecast_df := Some df; source := "lstm"; note := note l;
                  train_error := train_error l;
                  model_catalog := model_catalog l |}, w')
          | (Raise exc, w') =>
              ({| forecast_df := None; source := source l; note := note l;
                  train_error :=
                    Some (py_strip_chars [";"; " "]%char
                            (or_empty (train_error l)
                             +:+ "; cached model failed: " +:+ str_exc exc));
                  model_catalog := model_catalog l |}, w')
          end
        else (l, w) in
      match forecast_df l1 with
      | Some _ => (Ok l1, w1)
      | None =>
          match call_linear data days w1 with
          | (Raise e, w2) => (Raise e, w2)
          | (Ok df, w2) =>
              (Ok {| forecast_df := Some df; source := "linear";
                     note :=
                       if truthy (train_error l1)
                       then Some ("Fell back to linear forecast because LSTM failed: "
                                  +:+ or_empty (train_error l1))
                       else note l1;
                     train_error := train_error l1;
                     model_catalog := model_catalog l1 |}, w2)
          end
      end
  end.

(** [get_forecast] from the loaded price frame on.  [loaded] is what
    [load_data] returned; parsing of the date range precedes it and is not
    part of the embedding. *)
Definition get_forecast (ticker : string) (days : Z) (use_lstm : bool)
    (window : Z) (loaded : option DataFrame) (w : World)
    : Result ForecastResponse * World :=
  match loaded with
  | None | Some [] =>
      (Raise (HTTPException 404
                "No price data available for the requested configuration."), w)
  | Some data =>
      let ticker_clean := py_upper (py_strip ticker) in
      let l0 := {| forecast_df := None; source := "linear"; note := None;
                   train_error := None;
                   model_catalog := list_available_models (listing B (storage w)) |} in
      let (l1, w1) :=
        if use_lstm then sequence_block data ticker_clean days window l0 w
        else (l0, w) in
      match fallback_block data ticker_clean days window use_lstm l1 w1 with
      | (Raise e, w2) => (Raise e, w2)
      | (Ok l2, w2) =>
          match forecast_df l2 with
          | None => (Raise (LibraryError "forecast_df is None"), w2)
          | Some df =>
              (Ok {| r_ticker := ticker_clean;
                     r_source := source l2;
                     r_forecast := df;
                     r_history := py_tail data (Z.max days 120);
                     r_note := note l2 |}, w2)
          end
      end
  end.

End Orchestrator.

(* ===================================================================== *)
(** * The request window: _validate_interval, _resolve_date_range, load_data *)
(* ===================================================================== *)

Definition PRESET_MAP : gmap string Z :=
  list_to_map
    [("1M", 30); ("3M", 90); ("6M", 180); ("1Y", 365); ("2Y", 365 * 2);
     ("5Y", 365 * 5)]%string.

Definition INTERVAL_OPTIONS : list string :=
  ["1m"; "5m"; "15m"; "30m"; "1h"; "1d"; "1wk"; "1mo"]%string.

Definition MAX_INTERVAL_SPAN_DAYS : gmap string Z :=
  list_to_map
    [("1m", 7); ("2m", 60); ("5m", 60); ("15m", 60); ("30m", 60);
     ("60m", 730); ("1h", 730); ("90m", 60)]%string.

Definition _validate_interval (interval : string) : string :=
  if bool_decide (interval ∈ INTERVAL_OPTIONS) then interval else "1d"%string.

(** A naive [datetime] is its count of microseconds since 0001-01-01 00:00,
    a [timedelta] a count of microseconds.  [datetime_max] is
    9999-12-31 23:59:59.999999. *)
Definition day_us : Z := 86400000000.
Definition datetime_max : Z := 3652059 * day_us - 1.

(** [d.strftime("%Y-%m-%d")], as the number of the day the text names. *)
Definition strftime_Ymd (d : Z) : Z := d / day_us.

(** The arguments of [yf.download]. *)
Record Download : Type := {
  dl_ticker : string;
  dl_start : Z;
  dl_end : Z;
  dl_interval : string
}.

Section RequestWindow.

(** [timedelta(days=n)] and [d - t] of the datetime library; both raise
    OverflowError outside their range. *)
Variable timedelta_of_days : Z -> Outcome Z.
Variable datetime_sub : Z -> Z -> Outcome Z.

(** [today] is [datetime.utcnow()] at midnight. *)
Definition _resolve_date_range (today : Z) (start end_ : option Z)
    (default_days : Z) : Result (Z * Z) :=
  let end_ := match end_ with None => today | Some e => e end in
  let? start :=
    match start with
    | None =>
        let? t := lift (timedelta_of_days default_days) in
        lift (datetime_sub end_ t)
    | Some s => Ok s
    end in
  if end_ <=? start
  then Raise (ValueError "start_date must be earlier than end_date")
  else Ok (start, end_).

(** [load_data] up to the call of [yf.download]. *)
Definition load_data_request (today : Z) (ticker : string)
    (start end_ : option Z) (interval : string) : Result Download :=
  let ticker_clean := py_upper (py_strip ticker) in
  let interval_clean := _validate_interval interval in
  let end_ := match end_ with Some e => e | None => today end in
  let? start :=
    match start with
    | Some s => Ok s
    | None =>
        let? t := lift (timedelta_of_days (default 180 (PRESET_MAP !! "6M"%string))) in
        lift (datetime_sub end_ t)
    end in
  let max_span_days := MAX_INTERVAL_SPAN_DAYS !! interval_clean in
  let? start :=
    match max_span_days with
    | Some max_span_days =>
        let span := end_ - start in
        let? allowed_span := lift (timedelta_of_days max_span_days) in
        if allowed_span <? span
        then lift (datetime_sub end_ allowed_span)
        else Ok start
    | None => Ok start
    end in
  Ok {| dl_ticker := ticker_clean;
        dl_start := strftime_Ymd start;
        dl_end := strftime_Ymd end_;
        dl_interval := interval_clean |}.

End RequestWindow.

(* ===================================================================== *)
(** * Headline sentiment *)
(* ===================================================================== *)

Definition _POSITIVE_WORDS : gset string :=
  list_to_set
    ["gain"; "growth"; "beat"; "positive"; "bullish"; "surge"; "record";
     "optimistic"; "upgrade"; "strong"; "outperform"; "improve"; "rally";
     "advance"; "profit"]%string.

Definition _NEGATIVE_WORDS : gset string :=
  list_to_set
    ["loss"; "decline"; "drop"; "negative"; "bearish"; "plunge"; "downgrade";
     "weak"; "miss"; "concern"; "risk"; "lawsuit"; "selloff"; "crash";
     "debt"]%string.

(** The character class [[a-zA-Z']]. *)
Definition is_word_char (c : ascii) : bool :=
  let n := nat_of_ascii c in
  (((97 <=? n) && (n <=? 122)) || ((65 <=? n) && (n <=? 90)) || (n =? 39))%nat.

(** [re.findall(r"[a-zA-Z']+", s)]: the maximal runs of word characters,
    [cur] being the run read so far. *)
Fixpoint findall_from (cur : string) (s : string) : list string :=
  match s with
  | EmptyString =>
      match cur with EmptyString => [] | _ => [cur] end
  | String c r =>
      if is_word_char c
      then findall_from (cur +:+ String c EmptyString) r
      else
        match cur with
        | EmptyString => findall_from EmptyString r
        | _ => cur :: findall_from EmptyString r
        end
  end.

Definition re_findall_words (s : string) : list string :=
  findall_from EmptyString s.

(** [x or y] on floats. *)
Definition float_or (x y : Q) : Q := if Qeq_bool x 0 then y else x.

(** The three returns that close [_analyze_headline_sentiment]. *)
Definition labelled (compound : Q) : string * Q :=
  if Qle_bool (5 # 100) compound then ("Positive"%string, compound)
  else if Qle_bool compound (- (5 # 100)) then ("Negative"%string, compound)
  else ("Neutral"%string, compound).

(** [headline and headline.strip()] *)
Definition has_text (s : option string) : bool :=
  match s with
  | Some t => truthy s && truthy (Some (py_strip t))
  | None => false
  end.

(** The branch taken without an analyzer, from the tokens on. *)
Definition lexicon_compound (tokens : list string) : Q :=
  let pos_hits :=
    Z.of_nat (length (filter (fun token => token ∈ _POSITIVE_WORDS) tokens)) in
  let neg_hits :=
    Z.of_nat (length (filter (fun token => token ∈ _NEGATIVE_WORDS) tokens)) in
  let compound :=
    (inject_Z (pos_hits - neg_hits)
     / inject_Z (Z.max (Z.of_nat (length tokens)) 1))%Q in
  Qmax (Qmin compound 1) (- (1)).

(** [SENTIMENT_ANALYZER] is [None] when vaderSentiment is not installed;
    otherwise [polarity_scores] maps a text to its dictionary of scores. *)
Definition _analyze_headline_sentiment
    (SENTIMENT_ANALYZER : option (string -> gmap string Q))
    (headline summary : option string) : string * Q :=
  if negb (truthy headline) && negb (truthy summary)
  then ("Neutral"%string, 0%Q)
  else
    let weighted_texts : list (string * Q) :=
      match headline with
      | Some h => if has_text headline then [(h, 7 # 10)] else []
      | None => []
      end in
    let weighted_texts :=
      weighted_texts ++
      match summary with
      | Some s =>
          if has_text summary
          then [(s, match weighted_texts with [] => 1 | _ => 3 # 10 end%Q)]
          else []
      | None => []
      end in
    match weighted_texts with
    | [] => ("Neutral"%string, 0%Q)
    | _ =>
        match SENTIMENT_ANALYZER with
        | Some polarity_scores =>
            let total_weight := float_or (Qsum (map snd weighted_texts)) 1 in
            let compound :=
              fold_left
                (fun compound '(text, weight) =>
                   (compound
                    + weight * default 0 (polarity_scores text !! "compound"%string))%Q)
                weighted_texts 0%Q in
            labelled (compound / total_weight)
        | None =>
            let tokens :=
              concat (map (fun '(text, _) => re_findall_words (py_lower text))
                        weighted_texts) in
            match tokens with
            | [] => ("Neutral"%string, 0%Q)
            | _ => labelled (lexicon_compound tokens)
            end
        end
    end.

(* ===================================================================== *)
(** * get_sentiment: the summary *)
(* ===================================================================== *)

Record SentimentSummary : Type := {
  s_total : Z;
  s_average_score : option Q;
  s_positive : Z;
  s_neutral : Z;
  s_negative : Z;
  s_dominant_sentiment : option string
}.

(** [groupby("Sentiment").size()] at one label. *)
Definition group_size (news_df : list (string * Q)) (label : string) : Z :=
  Z.of_nat (length (filter (fun row => row.1 = label) news_df)).

(** [counts.idxmax()]: the first label with the largest count. *)
Definition idxmax (counts : list (string * Z)) : option string :=
  match counts with
  | [] => None
  | first :: rest =>
      Some (fold_left (fun best cur => if best.2 <? cur.2 then cur else best)
              rest first).1
  end.

(** The summary of [get_sentiment] from the frame of scored headlines, a row
    being its [Sentiment] and its [Score]. *)
Definition sentiment_summary (news_df : list (string * Q)) : SentimentSummary :=
  match news_df with
  | [] =>
      {| s_total := 0; s_average_score := None; s_positive := 0;
         s_neutral := 0; s_negative := 0; s_dominant_sentiment := None |}
  | _ =>
      let counts :=
        map (fun label => (label, group_size news_df label))
          ["Positive"; "Neutral"; "Negative"]%string in
      let total_articles := fold_right Z.add 0 (map snd counts) in
      let avg_score :=
        (Qsum (map snd news_df) / inject_Z (Z.of_nat (length news_df)))%Q in
      let dominant := if total_articles =? 0 then None else idxmax counts in
      {| s_total := total_articles;
         s_average_score := Some avg_score;
         s_positive := group_size news_df "Positive";
         s_neutral := group_size news_df "Neutral";
         s_negative := group_size news_df "Negative";
         s_dominant_sentiment := dominant |}
  end.

(* ===================================================================== *)
(** * pretrain_models.py *)
(* ===================================================================== *)

(** [pretrain_ticker], [loaded] being the outcome of [load_data]. *)
Definition pretrain_ticker (B : Backend) (loaded : Result (option DataFrame))
    (ticker : string) (st : Storage B) : bool * Storage B :=
  match loaded with
  | Ok (Some data) =>
      match data with
      | [] => (false, st)
      | _ =>
          match forecast_lstm_autotrain B data 30 20 8 (5 # 10000)
                  (Some ticker) true st with
          | (Ok _, st') => (true, st')
          | (Raise _, st') => (false, st')
          end
      end
  | Ok None => (false, st)
  | Raise _ => (false, st)
  end.

(** [PRESET_MAP.get(preset or "6M", 180)] of [get_overview] and
    [max(days * 3, 180)] of [get_forecast]. *)
Definition overview_default_days (preset : option string) : Z :=
  default 180
    (PRESET_MAP !! (match preset with
                    | Some p => if truthy preset then p else "6M"
                    | None => "6M"
                    end)%string).

Definition forecast_default_days (days : Z) : Z := Z.max (days * 3) 180.

(* ===================================================================== *)
(** * A small backend for examples *)
(* ===================================================================== *)

Definition unit_scaler : MinMaxScaler :=
  {| data_min_ := 0; data_max_ := 1; scale_ := 1; min_ := 0 |}.

(** A backend whose model always predicts [p].  The storage root is the list
    of the names in it; when [writable] is off every write fails. *)
Definition constant_backend (p : Q) (writable : bool) : Backend :=
  {| Model := unit;
     Storage := list string;
     listing := Some;
     keras_fit := fun _ _ _ _ _ _ => Done tt;
     keras_predict := fun _ _ => Done p;
     mkdir := fun st => (Done tt, st);
     keras_save := fun _ path st =>
       if writable then (Done tt, path :: st)
       else (Failed "No space left on device", st);
     joblib_dump := fun _ path st =>
       if writable then (Done tt, path :: st)
       else (Failed "No space left on device", st);
     keras_load_model := fun _ _ => Done tt;
     joblib_load := fun _ _ => Done unit_scaler;
     others := fun st => st |}.

(** A backend whose training always fails and whose storage root is the
    list of the listings that successive reads will find, the current one
    first. *)
Definition replayed_backend (p : Q) : Backend :=
  {| Model := unit;
     Storage := list (list string);
     listing := fun st => Some (hd [] st);
     keras_fit := fun _ _ _ _ _ _ => Failed "out of memory";
     keras_predict := fun _ _ => Done p;
     mkdir := fun st => (Done tt, st);
     keras_save := fun _ _ st => (Done tt, st);
     joblib_dump := fun _ _ st => (Done tt, st);
     keras_load_model := fun _ _ => Done tt;
     joblib_load := fun _ _ => Done unit_scaler;
     others := fun st => tl st |}.

(** A frame of consecutive days with the given closes, the first on day
    [d0]. *)
Fixpoint daily (d0 : Z) (closes : list Q) : DataFrame :=
  match closes with
  | [] => []
  | c :: rest =>
      {| Date := Timedelta_days d0; Close := Some c |} :: daily (d0 + 1) rest
  end.

(** A datetime library for examples: exact inside the ranges, failing
    outside. *)
Definition example_timedelta (n : Z) : Outcome Z :=
  if Z.abs n <=? 999999999 then Done (n * day_us)
  else Failed "timedelta out of range".

Definition example_datetime_sub (d t : Z) : Outcome Z :=
  if (0 <=? d - t) && (d - t <=? datetime_max) then Done (d - t)
  else Failed "date value out of range".

(* ===================================================================== *)
(** * Vocabulary of the statements *)
(* ===================================================================== *)

(** The range of a scaled value. *)
Definition unit_interval (p : Q) : Prop := (0 <= p <= 1)%Q.

(** An error raised inside a library, not by [app.py]. *)
Definition is_library_error (e : Exc) : Prop := exists msg, e = LibraryError msg.

(** A series as the market-data collaborator hands it over: no row lacks
    its close. *)
Definition cleaned (data : DataFrame) : Prop :=
  Forall (fun r => is_Some (Close r)) data.

(** The sequences of tier calls one request can make. *)
Definition tier_traces : list (list Tier) :=
  [ [];
    [TierLinear];
    [TierTrain];
    [TierTrain; TierCached];
    [TierTrain; TierLinear];
    [TierTrain; TierCached; TierCached];
    [TierTrain; TierCached; TierCached; TierLinear] ].

(** A world of the example backend: the names in the model directory, and no
    tier called yet. *)
Definition fresh_world (p : Q) (writable : bool) (names : list string)
    : World (constant_backend p writable) :=
  Build_World (constant_backend p writable) names [].

(** The recognised scaler names of a ticker, in the order they are tried. *)
Definition all_scaler_candidates (ticker : string) : list string :=
  scaler_candidates ticker ++ more_scaler_candidates ticker.

(** An entry of the scan comes from a model file with that ticker and from
    the scaler found for the ticker. *)
Definition entry_from (names files : list string) (t : string)
    (e : CatalogEntry) : Prop :=
  model e ∈ files
  /\ _normalise_ticker_from_stem (stem (model e)) = Some t
  /\ _find_scaler_path names t = Some (scaler e).

(** Every character of a string passes a test. *)
Fixpoint string_forallb (p : ascii -> bool) (s : string) : bool :=
  match s with
  | EmptyString => true
  | String c r => p c && string_forallb p r
  end.

(** A ticker as the catalog keys it: not empty, capitals and digits only. *)
Definition catalog_key (t : string) : Prop :=
  t <> EmptyString /\ string_forallb is_AZ09 t = true.

(** The response [get_forecast] builds from the forecast it settled on. *)
Definition response (ticker : string) (days : Z) (data : DataFrame)
    (src : string) (df : ForecastFrame) (nt : option string)
    : ForecastResponse :=
  {| r_ticker := py_upper (py_strip ticker);
     r_source := src;
     r_forecast := df;
     r_history := py_tail data (Z.max days 120);
     r_note := nt |}.

(** The outcome of the linear tier as the outcome of the request. *)
Definition linear_response (ticker : string) (days : Z) (data : DataFrame)
    (nt : option string) : Result ForecastResponse :=
  match forecast_linear data days with
  | Ok df => Ok (response ticker days data "linear" df nt)
  | Raise e => Raise e
  end.

(** The note of a linear fallback whose accumulated error text is [te], the
    note before the fallback being [nt]. *)
Definition fallback_note (te : string) (nt : option string) : option string :=
  if truthy (Some te)
  then Some ("Fell back to linear forecast because LSTM failed: " +:+ te)%string
  else nt.

(** The error text after a failed training and two failed attempts on the
    cached model, [exc] and [exc'] being their errors. *)
Definition twice_failed_text (train_exc exc exc' : Exc) : string :=
  py_strip_chars [";"; " "]%char
    (or_empty (Some (str_exc train_exc +:+ "; cached model failed: "
                     +:+ str_exc exc))
     +:+ "; cached model failed: " +:+ str_exc exc').

(** What the code relies on from the datetime library: a result is the
    exact one. *)
Definition exact_timedelta (timedelta_of_days : Z -> Outcome Z) : Prop :=
  forall n t, timedelta_of_days n = Done t -> t = n * day_us.

Definition exact_datetime_sub (datetime_sub : Z -> Z -> Outcome Z) : Prop :=
  forall d t r, datetime_sub d t = Done r -> r = d - t.

(** The words [_analyze_headline_sentiment] counts without an analyzer: those
    of the texts that are not blank, the headline first. *)
Definition lexicon_tokens (headline summary : option string) : list string :=
  match headline with
  | Some h => if has_text headline then re_findall_words (py_lower h) else []
  | None => []
  end
  ++ match summary with
     | Some s => if has_text summary then re_findall_words (py_lower s) else []
     | None => []
     end.

(** A row of the news frame as [fetch_news_with_sentiment] fills it: label
    and score come from one call of [_analyze_headline_sentiment]. *)
Definition scored_row (row : string * Q) : Prop :=
  exists analyzer headline summary,
    row = _analyze_headline_sentiment analyzer headline summary.

(** Label and score agree. *)
Definition label_fits (r : string * Q) : Prop :=
  (r.1 = "Positive"%string /\ (5 # 100 <= r.2)%Q)
  \/ (r.1 = "Negative"%string /\ (r.2 <= - (5 # 100))%Q)
  \/ (r.1 = "Neutral"%string /\ (- (5 # 100) < r.2 < 5 # 100)%Q).

(* ===================================================================== *)
(** * Properties of the scaler *)
(* ===================================================================== *)

Lemma Qltb_true (x y : Q) : Qltb x y = true <-> (x < y)%Q.
Proof.
  unfold Qltb. rewrite negb_true_iff, <- not_true_iff_false, Qle_bool_iff.
  split; [apply Qnot_le_lt | apply Qlt_not_le].
Qed.

Lemma Qltb_false (x y : Q) : Qltb x y = false <-> (y <= x)%Q.
Proof.
  unfold Qltb. rewrite negb_false_iff. apply Qle_bool_iff.
Qed.

Lemma float_eps_pos : (0 < 10 * float_eps)%Q.
Proof. reflexivity. Qed.

Lemma handle_zeros_pos (r : Q) : (0 < _handle_zeros_in_scale r)%Q.
Proof.
  unfold _handle_zeros_in_scale.
  destruct (Qltb r (10 * float_eps)) eqn:E; [reflexivity |].
  apply Qltb_false in E. pose proof float_eps_pos. lra.
Qed.

Lemma handle_zeros_wide (r : Q) :
  (10 * float_eps <= r)%Q -> _handle_zeros_in_scale r = r.
Proof.
  intros H. unfold _handle_zeros_in_scale.
  apply Qltb_false in H. now rewrite H.
Qed.

Lemma np_min_le (xs : list Q) (x : Q) :
  (np_min x xs <= x)%Q /\ Forall (fun y => (np_min x xs <= y)%Q) xs.
Proof.
  revert x. induction xs as [|a xs IH]; intros x; simpl.
  - split; [apply Qle_refl | constructor].
  - destruct (IH (Qmin x a)) as [H1 H2]. unfold np_min in *. simpl.
    pose proof (Q.le_min_l x a). pose proof (Q.le_min_r x a).
    split; [lra |]. constructor; [lra | exact H2].
Qed.

Lemma np_max_ge (xs : list Q) (x : Q) :
  (x <= np_max x xs)%Q /\ Forall (fun y => (y <= np_max x xs)%Q) xs.
Proof.
  revert x. induction xs as [|a xs IH]; intros x; simpl.
  - split; [apply Qle_refl | constructor].
  - destruct (IH (Qmax x a)) as [H1 H2]. unfold np_max in *. simpl.
    pose proof (Q.le_max_l x a). pose proof (Q.le_max_r x a).
    split; [lra |]. constructor; [lra | exact H2].
Qed.

Lemma np_min_elem (xs : list Q) (x : Q) : np_min x xs ∈ x :: xs.
Proof.
  revert x. induction xs as [|a xs IH]; intros x; simpl.
  - set_solver.
  - unfold np_min in *. simpl. specialize (IH (Qmin x a)).
    assert (Qmin x a = x \/ Qmin x a = a) as [E | E]
      by (unfold Qmin, GenericMinMax.gmin; destruct (x ?= a)%Q; auto).
    + rewrite E in IH at 2. revert IH. rewrite !elem_of_cons. tauto.
    + rewrite E in IH at 2. revert IH. rewrite !elem_of_cons. tauto.
Qed.

Lemma np_max_elem (xs : list Q) (x : Q) : np_max x xs ∈ x :: xs.
Proof.
  revert x. induction xs as [|a xs IH]; intros x; simpl.
  - set_solver.
  - unfold np_max in *. simpl. specialize (IH (Qmax x a)).
    assert (Qmax x a = x \/ Qmax x a = a) as [E | E]
      by (unfold Qmax, GenericMinMax.gmax; destruct (x ?= a)%Q; auto).
    + rewrite E in IH at 2. revert IH. rewrite !elem_of_cons. tauto.
    + rewrite E in IH at 2. revert IH. rewrite !elem_of_cons. tauto.
Qed.

Lemma fit_inv (X : list Q) (sc : MinMaxScaler) :
  fit X = Ok sc ->
  exists x xs, X = x :: xs
    /\ data_min_ sc = np_min x xs
    /\ data_max_ sc = np_max x xs
    /\ scale_ sc = ((1 - 0) / _handle_zeros_in_scale (np_max x xs - np_min x xs))%Q
    /\ min_ sc = (0 - np_min x xs * scale_ sc)%Q.
Proof.
  destruct X as [|x xs]; simpl; [discriminate |].
  intros [= <-]. exists x, xs. simpl. repeat split; reflexivity.
Qed.

Lemma fit_scale_pos (X : list Q) (sc : MinMaxScaler) :
  fit X = Ok sc -> (0 < scale_ sc)%Q.
Proof.
  intros H. destruct (fit_inv _ _ H) as (x & xs & _ & _ & _ & Hs & _).
  rewrite Hs. pose proof (handle_zeros_pos (np_max x xs - np_min x xs)) as Hp.
  apply Qlt_shift_div_l; [exact Hp | lra].
Qed.

(** Decoding undoes scaling, for every fitted scaler and every value. *)
Lemma inverse_transform1_transform1 (X : list Q) (sc : MinMaxScaler) (x : Q) :
  fit X = Ok sc -> inverse_transform1 sc (transform1 sc x) == x.
Proof.
  intros H. pose proof (fit_scale_pos _ _ H) as Hp.
  unfold inverse_transform1, transform1. field. lra.
Qed.

(** C7. For a min-max scaler fitted on a series with at least two distinct
    values, scaling a value of the observed range and decoding the result
    gives the value back (exactly, floats being rationals here). *)
Theorem minmax_round_trip (X : list Q) (sc : MinMaxScaler) (a b x : Q) :
  fit X = Ok sc ->
  a ∈ X -> b ∈ X -> ~ a == b ->
  (data_min_ sc <= x <= data_max_ sc)%Q ->
  inverse_transform1 sc (transform1 sc x) == x.
Proof.
  intros Hfit _ _ _ _. exact (inverse_transform1_transform1 X sc x Hfit).
Qed.

Lemma minmax_round_trip_witness :
  exists sc, fit [1; 3]%Q = Ok sc
    /\ inverse_transform1 sc (transform1 sc 2) == 2.
Proof.
  eexists. split; [reflexivity |].
  apply (minmax_round_trip [1; 3]%Q _ 1 3 2).
  - reflexivity.
  - set_solver.
  - set_solver.
  - intros H. discriminate H.
  - split; vm_compute; discriminate.
Defined.

(* ===================================================================== *)
(** * Properties of float32 *)
(* ===================================================================== *)

Lemma pow2_pos (e : Z) : (0 < 2 ^ e)%Q.
Proof. apply Qpower_0_lt. reflexivity. Qed.

Lemma pow2_succ (e : Z) : (2 ^ (e + 1) == 2 * 2 ^ e)%Q.
Proof. rewrite Qpower_plus by discriminate. rewrite Qpower_1_r. ring. Qed.

Lemma pow2_Z (n : Z) : 0 <= n -> (inject_Z (2 ^ n) == 2 ^ n)%Q.
Proof. intros H. now rewrite Zpower_Qpower. Qed.

Lemma binade_spec (a : Q) :
  (0 < a)%Q -> (2 ^ binade a <= a < 2 ^ (binade a + 1))%Q.
Proof.
  intros Ha. unfold binade.
  destruct a as [n d]. cbn [Qnum Qden].
  assert (Hn : 0 < n) by (unfold Qlt in Ha; simpl in Ha; lia).
  set (ln := Z.log2 n). set (ld := Z.log2 (Z.pos d)). set (k := ln - ld).
  destruct (Z.log2_spec n Hn) as [Ln Un]. fold ln in Ln, Un.
  destruct (Z.log2_spec (Z.pos d) eq_refl) as [Ld Ud]. fold ld in Ld, Ud.
  assert (H0n : 0 <= ln) by apply Z.log2_nonneg.
  assert (H0d : 0 <= ld) by apply Z.log2_nonneg.
  assert (Ea : (n # d == inject_Z n / inject_Z (Z.pos d))%Q) by apply Qmake_Qdiv.
  assert (QLn : (2 ^ ln <= inject_Z n)%Q)
    by (rewrite <- pow2_Z by lia; now rewrite <- Zle_Qle).
  assert (QUn : (inject_Z n < 2 * 2 ^ ln)%Q).
  { rewrite <- pow2_succ, <- pow2_Z by lia. rewrite <- Zlt_Qlt.
    now replace (ln + 1) with (Z.succ ln) by lia. }
  assert (QLd : (2 ^ ld <= inject_Z (Z.pos d))%Q)
    by (rewrite <- pow2_Z by lia; now rewrite <- Zle_Qle).
  assert (QUd : (inject_Z (Z.pos d) < 2 * 2 ^ ld)%Q).
  { rewrite <- pow2_succ, <- pow2_Z by lia. rewrite <- Zlt_Qlt.
    now replace (ld + 1) with (Z.succ ld) by lia. }
  pose proof (pow2_pos ln) as Pn. pose proof (pow2_pos ld) as Pd.
  assert (Ek : (2 ^ k == 2 ^ ln / 2 ^ ld)%Q)
    by (unfold k; now rewrite Qpower_minus).
  assert (Hlo : (2 ^ (k - 1) < n # d)%Q).
  { replace (k - 1) with (ln - (ld + 1)) by (unfold k; lia).
    rewrite Qpower_minus by discriminate. rewrite pow2_succ, Ea.
    apply Qlt_shift_div_l; [lra |].
    assert (E : (2 ^ ln / (2 * 2 ^ ld) * inject_Z (Z.pos d)
                 == 2 ^ ln * (inject_Z (Z.pos d) / (2 * 2 ^ ld)))%Q)
      by (field; lra).
    rewrite E.
    assert (inject_Z (Z.pos d) / (2 * 2 ^ ld) < 1)%Q
      by (apply Qlt_shift_div_r; lra).
    nra. }
  assert (Hhi : (n # d < 2 ^ (k + 1))%Q).
  { rewrite pow2_succ, Ek, Ea.
    apply Qlt_shift_div_r; [lra |].
    assert (E : (2 * (2 ^ ln / 2 ^ ld) * inject_Z (Z.pos d)
                 == 2 * 2 ^ ln * (inject_Z (Z.pos d) / 2 ^ ld))%Q)
      by (field; lra).
    rewrite E.
    assert (1 <= inject_Z (Z.pos d) / 2 ^ ld)%Q
      by (apply Qle_shift_div_l; lra).
    nra. }
  destruct (Qle_bool (2 ^ k) (n # d)) eqn:E.
  - apply Qle_bool_iff in E. split; assumption.
  - assert (Hlt : (n # d < 2 ^ k)%Q).
    { apply Qnot_le_lt. intros H. apply Qle_bool_iff in H. congruence. }
    replace (k - 1 + 1) with k by lia. split; [apply Qlt_le_weak |]; assumption.
Qed.

Lemma binade_mono (a b : Q) :
  (0 < a)%Q -> (a <= b)%Q -> binade a <= binade b.
Proof.
  intros Ha Hab.
  destruct (binade_spec a Ha) as [La _].
  destruct (binade_spec b) as [_ Ub]; [lra |].
  assert (H : (2 ^ binade a < 2 ^ (binade b + 1))%Q) by lra.
  apply Qpower_lt_compat_l_inv in H; [lia | reflexivity].
Qed.

Lemma rint_cases (x : Q) : rint x = Qfloor x \/ rint x = Qfloor x + 1.
Proof.
  unfold rint. destruct (_ ?= _)%Q; auto. destruct (Z.even _); auto.
Qed.

Lemma rint_mono (x y : Q) : (x <= y)%Q -> rint x <= rint y.
Proof.
  intros Hxy. pose proof (Qfloor_resp_le x y Hxy) as Hf.
  destruct (Z.eq_dec (Qfloor x) (Qfloor y)) as [E | NE].
  - unfold rint. rewrite <- E. set (f := Qfloor x).
    destruct (Qcompare_spec (x - inject_Z f) (1 # 2)) as [Ex | Ex | Ex];
      destruct (Qcompare_spec (y - inject_Z f) (1 # 2)) as [Ey | Ey | Ey];
      try lra; try lia; destruct (Z.even f); lia.
  - destruct (rint_cases x) as [-> | ->], (rint_cases y) as [-> | ->]; lia.
Qed.

Lemma rint_comp (x y : Q) : (x == y)%Q -> rint x = rint y.
Proof.
  intros E. apply Z.le_antisymm; apply rint_mono; rewrite E; apply Qle_refl.
Qed.

Lemma rint_Z (k : Z) : rint (inject_Z k) = k.
Proof.
  unfold rint. rewrite Qfloor_Z.
  assert (E : (inject_Z k - inject_Z k == 0)%Q) by ring.
  destruct (Qcompare_spec (inject_Z k - inject_Z k) (1 # 2)) as [H | H | H];
    try reflexivity; rewrite E in H; discriminate H.
Qed.

Lemma round_at_mono (q : Z) (x y : Q) :
  (x <= y)%Q -> (round_at q x <= round_at q y)%Q.
Proof.
  intros Hxy. unfold round_at. pose proof (pow2_pos q) as Hq.
  apply Qmult_le_compat_r; [| lra].
  rewrite <- Zle_Qle. apply rint_mono.
  apply Qle_shift_div_l; [exact Hq |].
  assert (E : (x / 2 ^ q * 2 ^ q == x)%Q) by (field; lra).
  now rewrite E.
Qed.

(** A multiple of the spacing is left where it is. *)
Lemma round_at_grid (q k : Z) :
  (round_at q (inject_Z k * 2 ^ q) == inject_Z k * 2 ^ q)%Q.
Proof.
  unfold round_at. pose proof (pow2_pos q) as Hq.
  assert (E : (inject_Z k * 2 ^ q / 2 ^ q == inject_Z k)%Q) by (field; lra).
  now rewrite (rint_comp _ _ E), rint_Z.
Qed.

Lemma pow2_grid (q e : Z) :
  q <= e -> (2 ^ e == inject_Z (2 ^ (e - q)) * 2 ^ q)%Q.
Proof.
  intros H. rewrite pow2_Z by lia. rewrite <- Qpower_plus by discriminate.
  now replace (e - q + q) with e by lia.
Qed.

Lemma float32_round_at (x : Q) : (float32 x == round_at (quantum x) x)%Q.
Proof. apply Qred_correct. Qed.

Lemma round_at_ge (q k : Z) (x : Q) :
  (inject_Z k * 2 ^ q <= x)%Q -> (inject_Z k * 2 ^ q <= round_at q x)%Q.
Proof.
  intros H. rewrite <- (round_at_grid q k). now apply round_at_mono.
Qed.

Lemma round_at_le (q k : Z) (x : Q) :
  (x <= inject_Z k * 2 ^ q)%Q -> (round_at q x <= inject_Z k * 2 ^ q)%Q.
Proof.
  intros H. rewrite <- (round_at_grid q k). now apply round_at_mono.
Qed.

Lemma float32_nonneg (x : Q) : (0 <= x)%Q -> (0 <= float32 x)%Q.
Proof.
  intros H. rewrite float32_round_at.
  assert (E : (inject_Z 0 * 2 ^ quantum x == 0)%Q) by ring.
  rewrite <- E. apply round_at_ge. now rewrite E.
Qed.

Lemma float32_nonpos (x : Q) : (x <= 0)%Q -> (float32 x <= 0)%Q.
Proof.
  intros H. rewrite float32_round_at.
  assert (E : (inject_Z 0 * 2 ^ quantum x == 0)%Q) by ring.
  rewrite <- E. apply round_at_le. now rewrite E.
Qed.

Lemma quantum_spec (a : Q) :
  quantum a = binade (Qabs a) - 23 \/
  (quantum a = -149 /\ binade (Qabs a) - 23 < -149).
Proof. unfold quantum. lia. Qed.

Lemma float32_mono_pos (x y : Q) :
  (0 < x)%Q -> (x <= y)%Q -> (float32 x <= float32 y)%Q.
Proof.
  intros Hx Hxy. rewrite !float32_round_at.
  assert (Hy : (0 < y)%Q) by lra.
  pose proof (binade_mono x y Hx Hxy) as He.
  assert (Ax : (Qabs x == x)%Q) by (apply Qabs_pos; lra).
  assert (Ay : (Qabs y == y)%Q) by (apply Qabs_pos; lra).
  destruct (binade_spec x Hx) as [_ Ux]. destruct (binade_spec y Hy) as [Ly _].
  assert (Ebx : binade (Qabs x) = binade x).
  { apply Z.le_antisymm; apply binade_mono; rewrite ?Ax; lra. }
  assert (Eby : binade (Qabs y) = binade y).
  { apply Z.le_antisymm; apply binade_mono; rewrite ?Ay; lra. }
  unfold quantum. rewrite Ebx, Eby.
  set (qx := Z.max (binade x - 23) (-149)).
  set (qy := Z.max (binade y - 23) (-149)).
  destruct (Z.eq_dec qx qy) as [E | NE].
  - rewrite E. now apply round_at_mono.
  - assert (Hq : qx < qy) by lia.
    assert (Hqy : qy = binade y - 23) by lia.
    assert (Hlt : binade x + 1 <= binade y) by lia.
    set (G := (2 ^ binade y)%Q).
    assert (HxG : (x <= G)%Q).
    { apply Qle_trans with (2 ^ (binade x + 1))%Q; [lra |].
      apply Qpower_le_compat_l; [exact Hlt | discriminate]. }
    apply Qle_trans with G.
    + unfold G in *. rewrite (pow2_grid qx (binade y)) in * by lia.
      now apply round_at_le.
    + unfold G in *. rewrite (pow2_grid qy (binade y)) in * by lia.
      now apply round_at_ge.
Qed.

Lemma float32_mono_neg (x y : Q) :
  (y < 0)%Q -> (x <= y)%Q -> (float32 x <= float32 y)%Q.
Proof.
  intros Hy Hxy. rewrite !float32_round_at.
  assert (Hx : (x < 0)%Q) by lra.
  assert (Ax : (Qabs x == - x)%Q) by (apply Qabs_neg; lra).
  assert (Ay : (Qabs y == - y)%Q) by (apply Qabs_neg; lra).
  assert (Pa : (0 < Qabs x)%Q) by lra.
  assert (Pb : (0 < Qabs y)%Q) by lra.
  assert (He : binade (Qabs y) <= binade (Qabs x))
    by (apply binade_mono; lra).
  destruct (binade_spec _ Pa) as [La _]. destruct (binade_spec _ Pb) as [_ Ub].
  unfold quantum.
  set (ex := binade (Qabs x)) in *. set (ey := binade (Qabs y)) in *.
  set (qx := Z.max (ex - 23) (-149)). set (qy := Z.max (ey - 23) (-149)).
  destruct (Z.eq_dec qx qy) as [E | NE].
  - rewrite E. now apply round_at_mono.
  - assert (Hq : qy < qx) by lia.
    assert (Hqx : qx = ex - 23) by lia.
    assert (Hlt : ey + 1 <= ex) by lia.
    set (G := (- 2 ^ ex)%Q).
    assert (HGy : (G <= y)%Q).
    { assert (2 ^ (ey + 1) <= 2 ^ ex)%Q
        by (apply Qpower_le_compat_l; [exact Hlt | discriminate]).
      unfold G. lra. }
    assert (EG : forall q, q <= ex ->
              (G == inject_Z (- 2 ^ (ex - q)) * 2 ^ q)%Q).
    { intros q Hqe. unfold G. rewrite (pow2_grid q ex Hqe).
      rewrite inject_Z_opp. ring. }
    apply Qle_trans with G.
    + rewrite (EG qx) by lia. apply round_at_le.
      rewrite <- EG by lia. unfold G. lra.
    + rewrite (EG qy) in * by lia. now apply round_at_ge.
Qed.

(** Rounding to float32 keeps the order. *)
Lemma float32_mono (x y : Q) : (x <= y)%Q -> (float32 x <= float32 y)%Q.
Proof.
  intros Hxy.
  destruct (Qlt_le_dec 0 x) as [Hx | Hx]; [now apply float32_mono_pos |].
  destruct (Qlt_le_dec y 0) as [Hy | Hy]; [now apply float32_mono_neg |].
  apply Qle_trans with 0%Q; [now apply float32_nonpos | now apply float32_nonneg].
Qed.

Lemma rint_error (x : Q) :
  (- (1 # 2) <= inject_Z (rint x) - x <= 1 # 2)%Q.
Proof.
  unfold rint. pose proof (Qfloor_le x) as Hl. pose proof (Qlt_floor x) as Hu.
  rewrite inject_Z_plus in Hu. change (inject_Z 1) with 1%Q in Hu.
  set (f := Qfloor x) in *.
  destruct (Qcompare_spec (x - inject_Z f) (1 # 2)) as [E | E | E].
  - destruct (Z.even f); [| rewrite inject_Z_plus; change (inject_Z 1) with 1%Q];
      lra.
  - lra.
  - rewrite inject_Z_plus. change (inject_Z 1) with 1%Q. lra.
Qed.

Lemma round_at_error (q : Z) (x : Q) :
  (- ((1 # 2) * 2 ^ q) <= round_at q x - x <= (1 # 2) * 2 ^ q)%Q.
Proof.
  unfold round_at. pose proof (pow2_pos q) as Hq.
  pose proof (rint_error (x / 2 ^ q)) as [Hl Hu].
  set (r := inject_Z (rint (x / 2 ^ q))) in *.
  assert (E : (r * 2 ^ q - x == (r - x / 2 ^ q) * 2 ^ q)%Q) by (field; lra).
  rewrite E. set (d := (r - x / 2 ^ q)%Q) in *. set (P := (2 ^ q)%Q) in *.
  assert (H1 : (0 <= (d + (1 # 2)) * P)%Q) by (apply Qmult_le_0_compat; lra).
  assert (H2 : (0 <= ((1 # 2) - d) * P)%Q) by (apply Qmult_le_0_compat; lra).
  split; lra.
Qed.

(** In the normal range a cast to float32 is off by at most 2 ^ -24 of the
    value. *)
Lemma float32_error (x : Q) :
  (2 ^ (-126) <= x)%Q ->
  (x * (1 - 2 ^ (-24)) <= float32 x <= x * (1 + 2 ^ (-24)))%Q.
Proof.
  intros Hx. pose proof (pow2_pos (-126)) as H126.
  assert (Hpos : (0 < x)%Q) by lra.
  assert (Ax : (Qabs x == x)%Q) by (apply Qabs_pos; lra).
  assert (Eb : binade (Qabs x) = binade x).
  { apply Z.le_antisymm; apply binade_mono; rewrite ?Ax; lra. }
  destruct (binade_spec x Hpos) as [Lx Ux].
  assert (He : -126 <= binade x).
  { assert (H : (2 ^ (-126) < 2 ^ (binade x + 1))%Q) by lra.
    apply Qpower_lt_compat_l_inv in H; [lia | reflexivity]. }
  rewrite float32_round_at. unfold quantum. rewrite Eb.
  replace (Z.max (binade x - 23) (-149)) with (binade x - 23) by lia.
  pose proof (round_at_error (binade x - 23) x) as [Hl Hu].
  assert (E : ((1 # 2) * 2 ^ (binade x - 23) == 2 ^ binade x * 2 ^ (-24))%Q).
  { replace (binade x - 23) with (binade x + (-24) + 1) by lia.
    rewrite pow2_succ, Qpower_plus by discriminate. ring. }
  rewrite E in Hl, Hu. pose proof (pow2_pos (-24)) as H24.
  set (u := (2 ^ (-24))%Q) in *. set (P := (2 ^ binade x)%Q) in *.
  assert (H1 : (0 <= (x - P) * u)%Q) by (apply Qmult_le_0_compat; lra).
  split; lra.
Qed.

Lemma float32_unit (p : Q) : (0 <= p <= 1)%Q -> (0 <= float32 p <= 1)%Q.
Proof.
  intros [H0 H1].
  assert (E0 : float32 0 = 0%Q) by (vm_compute; reflexivity).
  assert (E1 : float32 1 = 1%Q) by (vm_compute; reflexivity).
  pose proof (float32_mono 0 p H0) as L. pose proof (float32_mono p 1 H1) as U.
  rewrite E0 in L. rewrite E1 in U. now split.
Qed.

(** For closes in the normal range of float32 the decoding is off by less
    than 2 ^ -22 of the value: a decoded prediction is within that of the
    range between the least close and the exact decoding of 1. *)
Lemma decode_f32_near (X : list Q) (sc : MinMaxScaler) (p : Q) :
  fit X = Ok sc ->
  (0 <= p <= 1)%Q ->
  (2 ^ (-125) <= data_min_ sc)%Q ->
  (data_max_ sc - data_min_ sc <= 2 ^ 126 * data_min_ sc)%Q ->
  (data_min_ sc * (1 - 2 ^ (-22)) <= decode_f32 sc p
   <= inverse_transform1 sc 1 * (1 + 2 ^ (-22)))%Q.
Proof.
  intros Hfit Hp Hlo Hrange.
  pose proof (fit_scale_pos X sc Hfit) as Hs.
  destruct (fit_inv _ _ Hfit) as (x & xs & _ & Hmin & Hmax & Hsc & Hm).
  pose proof (float32_unit p Hp) as [Hq0 Hq1].
  unfold decode_f32, inverse_transform1_f32, inverse_transform1.
  set (q := float32 p) in *.
  set (lo := data_min_ sc) in *. set (s := scale_ sc) in *.
  assert (Em : (min_ sc == 0 - lo * s)%Q) by (rewrite Hm, Hmin; reflexivity).
  (* the scale is at most 2 ^ 126 times the least close away from it *)
  assert (Hls : (2 ^ (-126) <= lo * s)%Q).
  { assert (Hh : (0 < _handle_zeros_in_scale (data_max_ sc - lo))%Q)
      by apply handle_zeros_pos.
    assert (Hh' : (_handle_zeros_in_scale (data_max_ sc - lo)
                   <= 2 ^ 126 * lo)%Q).
    { unfold _handle_zeros_in_scale.
      destruct (Qltb (data_max_ sc - lo) (10 * float_eps)); [| exact Hrange].
      assert (E : (2 ^ 126 * 2 ^ (-125) == 2)%Q) by reflexivity.
      assert (0 <= 2 ^ 126 * (lo - 2 ^ (-125)))%Q
        by (apply Qmult_le_0_compat; [discriminate | lra]).
      lra. }
    assert (Es : (s == / _handle_zeros_in_scale (data_max_ sc - lo))%Q).
    { rewrite Hsc, Hmin, Hmax. rewrite Hmin, Hmax in Hh. field. lra. }
    rewrite Es. set (h := _handle_zeros_in_scale (data_max_ sc - lo)) in *.
    assert (E : (lo * / h == lo / h)%Q) by reflexivity. rewrite E.
    apply Qle_shift_div_l; [exact Hh |].
    assert (E' : (2 ^ (-126) * (2 ^ 126 * lo) == lo)%Q).
    { assert (E2 : (2 ^ (-126) * 2 ^ 126 == 1)%Q) by reflexivity.
      rewrite Qmult_assoc, E2. ring. }
    assert (0 <= 2 ^ (-126) * (2 ^ 126 * lo - h))%Q
      by (apply Qmult_le_0_compat; [discriminate | lra]).
    lra. }
  set (u := (2 ^ (-24))%Q).
  assert (Hu : (0 < u)%Q) by reflexivity.
  assert (Hu1 : (u <= 1 # 4)%Q) by discriminate.
  assert (E22 : (2 ^ (-22) == 4 * u)%Q) by reflexivity.
  assert (Hlo0 : (0 < lo)%Q).
  { assert (0 < 2 ^ (-125))%Q by reflexivity. lra. }
  (* first rounding *)
  set (a := (q - min_ sc)%Q).
  assert (Ea : (a == q + lo * s)%Q) by (unfold a; rewrite Em; ring).
  assert (Ha : (2 ^ (-126) <= a)%Q) by lra.
  destruct (float32_error a Ha) as [La Ua]. fold u in La, Ua.
  set (A := float32 a) in *.
  (* the quotient *)
  set (i := (/ s)%Q).
  assert (Hi : (0 < i)%Q) by (apply Qinv_lt_0_compat; exact Hs).
  assert (Eis : (s * i == 1)%Q) by (unfold i; field; lra).
  set (w := (a * i)%Q).
  assert (Ew : (w == q * i + lo)%Q).
  { unfold w. rewrite Ea.
    assert (E : ((q + lo * s) * i == q * i + lo * (s * i))%Q) by ring.
    rewrite E, Eis. ring. }
  assert (Hqi : (0 <= q * i)%Q) by (apply Qmult_le_0_compat; lra).
  assert (Hqi1 : (q * i <= i)%Q).
  { assert (0 <= (1 - q) * i)%Q by (apply Qmult_le_0_compat; lra). lra. }
  assert (EH : ((1 - min_ sc) / s == i + lo)%Q).
  { rewrite Em. unfold i. field. lra. }
  assert (Hw : (lo <= w <= i + lo)%Q) by lra.
  set (b := (A / s)%Q).
  assert (Eb : (b == A * i)%Q) by reflexivity.
  assert (Lb : (w * (1 - u) <= b)%Q).
  { rewrite Eb. unfold w.
    assert (0 <= (A - a * (1 - u)) * i)%Q by (apply Qmult_le_0_compat; lra).
    lra. }
  assert (Ub : (b <= w * (1 + u))%Q).
  { rewrite Eb. unfold w.
    assert (0 <= (a * (1 + u) - A) * i)%Q by (apply Qmult_le_0_compat; lra).
    lra. }
  assert (Hw1 : (lo * (1 - u) <= w * (1 - u))%Q).
  { assert (0 <= (w - lo) * (1 - u))%Q by (apply Qmult_le_0_compat; lra). lra. }
  assert (Hb : (2 ^ (-126) <= b)%Q).
  { assert (E : (2 ^ (-125) == 2 * 2 ^ (-126))%Q) by reflexivity.
    assert (0 < 2 ^ (-126))%Q by reflexivity.
    assert (0 <= (lo - 2 ^ (-125)) * (1 - u))%Q
      by (apply Qmult_le_0_compat; lra).
    assert (0 <= 2 ^ (-126) * (1 - 2 * u))%Q
      by (apply Qmult_le_0_compat; lra).
    lra. }
  destruct (float32_error b Hb) as [LV UV]. fold u in LV, UV.
  set (V := float32 b) in *.
  rewrite EH, E22. split.
  - (* lo (1 - 4u) <= lo (1-u)^2 <= w (1-u)^2 <= b (1-u) <= V *)
    assert (H1 : (0 <= (b - lo * (1 - u)) * (1 - u))%Q)
      by (apply Qmult_le_0_compat; lra).
    assert (H2 : (0 <= lo * (u * u))%Q)
      by (apply Qmult_le_0_compat; [lra | apply Qmult_le_0_compat; lra]).
    assert (H3 : (0 <= lo * u)%Q) by (apply Qmult_le_0_compat; lra).
    lra.
  - (* V <= b (1+u) <= w (1+u)^2 <= (i + lo) (1+u)^2 <= (i + lo) (1 + 4u) *)
    set (H := (i + lo)%Q) in *.
    assert (HH : (0 < H)%Q) by (unfold H; lra).
    assert (H1 : (0 <= (H * (1 + u) - b) * (1 + u))%Q).
    { apply Qmult_le_0_compat; [| lra].
      assert (0 <= (H - w) * (1 + u))%Q by (apply Qmult_le_0_compat; lra).
      lra. }
    assert (H2 : (0 <= H * (u * (2 - u)))%Q).
    { apply Qmult_le_0_compat; [lra |]. apply Qmult_le_0_compat; lra. }
    lra.
Qed.

(** Decoding a float32 array keeps the order, the scale being positive. *)
Lemma decode_f32_mono (X : list Q) (sc : MinMaxScaler) (p p' : Q) :
  fit X = Ok sc -> (p <= p')%Q -> (decode_f32 sc p <= decode_f32 sc p')%Q.
Proof.
  intros Hfit Hp. pose proof (fit_scale_pos X sc Hfit) as Hs.
  unfold decode_f32, inverse_transform1_f32.
  apply float32_mono. apply Qmult_le_compat_r.
  - apply float32_mono. pose proof (float32_mono p p' Hp). lra.
  - apply Qlt_le_weak, Qinv_lt_0_compat, Hs.
Qed.

(* ===================================================================== *)
(** * Properties of the sequence forecasters *)
(* ===================================================================== *)

Lemma np_clip_unit (x : Q) : unit_interval (np_clip x 0 1).
Proof.
  unfold unit_interval, np_clip.
  pose proof (Q.le_min_r (Qmax x 0) 1).
  pose proof (Q.le_max_r x 0).
  split; [| lra].
  apply Q.min_glb; lra.
Qed.

(** Inside the unit interval [np.clip] returns its argument unchanged. *)
Lemma np_clip_id (x : Q) : unit_interval x -> np_clip x 0 1 = x.
Proof.
  intros [H0 H1]. unfold np_clip, Qmin, Qmax, GenericMinMax.gmin, GenericMinMax.gmax.
  destruct (Qcompare_spec x 0) as [E | E | E]; try lra.
  - destruct (Qcompare_spec x 1) as [E' | E' | E']; try reflexivity; lra.
  - destruct (Qcompare_spec x 1) as [E' | E' | E']; try reflexivity; lra.
Qed.

Section LoopFacts.

Variable B : Backend.

Lemma autotrain_loop_unit (model : Model B) (window : Z) (n : nat) :
  forall history preds out,
    Forall unit_interval preds ->
    autotrain_loop B model window n history preds = Ok out ->
    Forall unit_interval out.
Proof.
  induction n as [|n IH]; intros history preds out Hp; simpl.
  - now intros [= <-].
  - destruct (reshape_window _ _) as [ws|]; simpl; [| discriminate].
    destruct (keras_predict B model ws) as [p|]; simpl; [| discriminate].
    apply IH. apply Forall_app. split; [exact Hp |].
    constructor; [apply np_clip_unit | constructor].
Qed.

Lemma autotrain_loop_length (model : Model B) (window : Z) (n : nat) :
  forall history preds out,
    autotrain_loop B model window n history preds = Ok out ->
    length out = (length preds + n)%nat.
Proof.
  induction n as [|n IH]; intros history preds out; simpl.
  - intros [= <-]. lia.
  - destruct (reshape_window _ _) as [ws|]; simpl; [| discriminate].
    destruct (keras_predict B model ws) as [p|]; simpl; [| discriminate].
    intros H. apply IH in H. rewrite length_app in H. simpl in H. lia.
Qed.

(** When the model only ever predicts values of the unit interval, clamping
    changes nothing and the two loops are the same function. *)
Lemma loops_agree_on_unit_predictions (model : Model B) (window : Z) (n : nat) :
  (forall ws p, keras_predict B model ws = Done p -> unit_interval p) ->
  forall history preds,
    autotrain_loop B model window n history preds
    = inference_loop B model window n history preds.
Proof.
  intros Hunit. induction n as [|n IH]; intros history preds; simpl.
  - reflexivity.
  - destruct (reshape_window _ _) as [ws|]; simpl; [| reflexivity].
    destruct (keras_predict B model ws) as [p|] eqn:E; simpl; [| reflexivity].
    rewrite (np_clip_id p (Hunit ws p E)). apply IH.
Qed.

(** What a successful [autotrain_predict] went through. *)
Lemma autotrain_predict_inv (data : DataFrame) (days window epochs : Z)
    (learning_rate : Q) (model : Model B) (scaler : MinMaxScaler)
    (preds : list Q) :
  autotrain_predict B data days window epochs learning_rate
    = Ok (model, scaler, preds) ->
  let closes := Close_values (dropna_Close data) in
  window < Z.of_nat (length closes)
  /\ fit closes = Ok scaler
  /\ exists preds_scaled,
       Forall unit_interval preds_scaled
       /\ length preds_scaled = Z.to_nat days
       /\ preds = map (decode_f32 scaler) preds_scaled.
Proof.
  unfold autotrain_predict. cbv zeta.
  destruct (Z.leb_spec (Z.of_nat (length (Close_values (dropna_Close data))))
              window) as [Hle | Hlt]; [discriminate |].
  unfold fit_transform.
  destruct (fit _) as [sc|] eqn:Hfit; simpl; [| discriminate].
  destruct (transform sc _) as [scaled|]; simpl; [| discriminate].
  destruct (make_sequences scaled window) as [[sequences targets]|]; simpl;
    [| discriminate].
  destruct sequences as [|s0 sequences]; [discriminate |].
  destruct (reshape_samples _ _) as [X|]; simpl; [| discriminate].
  destruct (keras_fit B _ _ _ _ _ _) as [m|]; simpl; [| discriminate].
  destruct (autotrain_loop B m window (Z.to_nat days) scaled [])
    as [ps|] eqn:Hloop; simpl; [| discriminate].
  destruct ps as [|p0 ps]; simpl; [discriminate |].
  intros [= <- <- <-].
  split; [exact Hlt |]. split; [reflexivity |].
  exists (p0 :: ps). split; [| split].
  - eapply autotrain_loop_unit; [| exact Hloop]. constructor.
  - apply autotrain_loop_length in Hloop. simpl in *. lia.
  - cbn [map]. rewrite List.map_map. unfold decode_f32. reflexivity.
Qed.

Lemma make_frame_inv (dates : list Z) (values : list Q) (frame : ForecastFrame) :
  make_frame dates values = Ok frame ->
  map FDate frame = dates /\ map Forecast frame = values.
Proof.
  unfold make_frame. destruct (Nat.eqb_spec (length dates) (length values)) as [E|];
    [| discriminate].
  intros [= <-]. revert values E.
  induction dates as [|d dates IH]; intros [|v values] E; simpl in *;
    try discriminate; [done |].
  destruct (IH values) as [H1 H2]; [lia |].
  now rewrite H1, H2.
Qed.

Lemma dated_frame_inv (data : DataFrame) (days : Z) (preds : list Q)
    (frame : ForecastFrame) :
  dated_frame data days preds = Ok frame ->
  exists last_date,
    last (map Date data) = Some last_date
    /\ 0 <= days
    /\ map FDate frame
       = map (fun k => last_date + Timedelta_days 1 + Timedelta_days k)
             (py_range 0 days)
    /\ map Forecast frame = preds.
Proof.
  unfold dated_frame, iloc_last, date_range.
  destruct (last (map Date data)) as [d|]; simpl; [| discriminate].
  destruct (Z.ltb_spec days 0) as [Hneg | Hnn]; simpl; [discriminate |].
  intros H. apply make_frame_inv in H as [H1 H2].
  exists d. repeat split; assumption || lia.
Qed.

(** What a successful [forecast_lstm_autotrain] went through. *)
Lemma forecast_lstm_autotrain_inv (data : DataFrame) (days window epochs : Z)
    (learning_rate : Q) (ticker : option string) (persist : bool)
    (st st' : Storage B) (frame : ForecastFrame) :
  forecast_lstm_autotrain B data days window epochs learning_rate ticker
    persist st = (Ok frame, st') ->
  exists model scaler preds,
    autotrain_predict B data days window epochs learning_rate
      = Ok (model, scaler, preds)
    /\ dated_frame data days preds = Ok frame.
Proof.
  unfold forecast_lstm_autotrain, bindM, pureM.
  destruct (autotrain_predict _ _ _ _ _ _) as [[[m sc] ps]|]; [| discriminate].
  intros H. exists m, sc, ps. split; [reflexivity |].
  destruct (match ticker with
            | Some t => if persist && truthy ticker
                        then persist_artifacts B m sc t else retM tt
            | None => retM tt
            end st) as [[[]|] st1]; [| discriminate].
  now injection H as ->.
Qed.

End LoopFacts.

(** What the scaled values 0 and 1 decode to in exact arithmetic: the least
    close, and the greatest one, or the least plus one when the scaler took
    the range for zero. *)
Lemma inverse_transform1_ends (X : list Q) (sc : MinMaxScaler) :
  fit X = Ok sc ->
  (inverse_transform1 sc 0 == data_min_ sc
   /\ (10 * float_eps <= data_max_ sc - data_min_ sc ->
       inverse_transform1 sc 1 == data_max_ sc)
   /\ (data_max_ sc - data_min_ sc < 10 * float_eps ->
       inverse_transform1 sc 1 == data_min_ sc + 1))%Q.
Proof.
  intros Hfit.
  destruct (fit_inv _ _ Hfit) as (x & xs & _ & Hmin & Hmax & Hs & Hm).
  unfold inverse_transform1. rewrite Hm, Hs, Hmin, Hmax.
  set (lo := np_min x xs). set (hi := np_max x xs).
  pose proof float_eps_pos as Heps.
  pose proof (handle_zeros_pos (hi - lo)) as Hp.
  split; [field; lra |]. split; intros Hr.
  - rewrite (handle_zeros_wide _ Hr). field. lra.
  - unfold _handle_zeros_in_scale. apply Qltb_true in Hr. rewrite Hr. field.
Qed.

(** C4, amended.  Every value returned by [forecast_lstm_autotrain] lies
    between the two prices that the scaled values 0 and 1 decode to in the
    float32 array the function decodes.  In exact arithmetic 0 decodes to the
    least usable close and 1 to the greatest (to the least plus one when the
    closes are less than ten machine epsilons apart); the float32 decoding
    rounds both, so the bounds are not the least and the greatest close
    themselves.  For closes in the normal range of float32 (the least at
    least 2 ^ -125, the greatest at most 2 ^ 127, the range between ten
    machine epsilons and 2 ^ 126 times the least) every value is within a
    relative 2 ^ -22 of the historical range: at least the least close times
    1 - 2 ^ -22 and at most the greatest close times 1 + 2 ^ -22. *)
Theorem autotrain_forecast_range (B : Backend) (data : DataFrame)
    (days window epochs : Z) (learning_rate : Q) (ticker : option string)
    (persist : bool) (st st' : Storage B) (frame : ForecastFrame) :
  forecast_lstm_autotrain B data days window epochs learning_rate ticker
    persist st = (Ok frame, st') ->
  let closes := Close_values (dropna_Close data) in
  exists (sc : MinMaxScaler) (lo hi : Q),
    fit closes = Ok sc
    /\ lo ∈ closes /\ hi ∈ closes
    /\ Forall (fun c => lo <= c <= hi)%Q closes
    /\ Forall (fun r => decode_f32 sc 0 <= Forecast r <= decode_f32 sc 1)%Q
         frame
    /\ inverse_transform1 sc 0 == lo
    /\ ((10 * float_eps <= hi - lo)%Q -> inverse_transform1 sc 1 == hi)
    /\ ((hi - lo < 10 * float_eps)%Q -> inverse_transform1 sc 1 == lo + 1)
    /\ ((2 ^ (-125) <= lo)%Q -> (hi <= 2 ^ 127)%Q ->
        (10 * float_eps <= hi - lo <= 2 ^ 126 * lo)%Q ->
        Forall (fun r => lo * (1 - 2 ^ (-22)) <= Forecast r
                         <= hi * (1 + 2 ^ (-22)))%Q frame).
Proof.
  intros Hrun closes.
  destruct (forecast_lstm_autotrain_inv _ _ _ _ _ _ _ _ _ _ _ Hrun)
    as (m & sc & preds & Hpred & Hframe).
  destruct (autotrain_predict_inv _ _ _ _ _ _ _ _ _ Hpred)
    as (_ & Hfit & ps & Hunit & _ & ->).
  fold closes in Hfit.
  destruct (dated_frame_inv _ _ _ _ Hframe) as (d & _ & _ & _ & Hvals).
  destruct (fit_inv _ _ Hfit) as (x & xs & Hc & Hmin & Hmax & _ & _).
  destruct (inverse_transform1_ends _ _ Hfit) as (E0 & E1 & E1').
  exists sc, (data_min_ sc), (data_max_ sc).
  split; [exact Hfit |]. rewrite Hc.
  split; [rewrite Hmin; apply np_min_elem |].
  split; [rewrite Hmax; apply np_max_elem |].
  split.
  { rewrite Hmin, Hmax.
    destruct (np_min_le xs x) as [L1 L2]. destruct (np_max_ge xs x) as [U1 U2].
    constructor; [split; assumption |].
    rewrite Forall_forall in L2, U2. apply Forall_forall. intros c Hin.
    split; [apply L2 | apply U2]; exact Hin. }
  assert (Hall : forall P : Q -> Prop,
            Forall P (map (decode_f32 sc) ps) ->
            Forall (fun r => P (Forecast r)) frame).
  { intros P HP. rewrite <- Hvals in HP.
    exact (proj1 (List.Forall_map Forecast P frame) HP). }
  split.
  { apply (Hall (fun v => decode_f32 sc 0 <= v <= decode_f32 sc 1)%Q).
    apply (proj2 (List.Forall_map (decode_f32 sc) _ ps)).
    eapply Forall_impl; [exact Hunit |]. intros p [Hp0 Hp1]. cbv beta.
    split; apply (decode_f32_mono _ _ _ _ Hfit); assumption. }
  split; [exact E0 |]. split; [exact E1 |]. split; [exact E1' |].
  intros Hlo _ [Hr Hr'].
  apply (Hall (fun v => data_min_ sc * (1 - 2 ^ (-22)) <= v
                        <= data_max_ sc * (1 + 2 ^ (-22)))%Q).
  apply (proj2 (List.Forall_map (decode_f32 sc) _ ps)).
  eapply Forall_impl; [exact Hunit |]. intros p Hp. cbv beta.
  destruct (decode_f32_near _ _ p Hfit Hp Hlo Hr') as [L U].
  rewrite (E1 Hr) in U. now split.
Qed.

Lemma autotrain_forecast_range_witness :
  exists (sc : MinMaxScaler) (lo hi : Q),
    fit [100; 101; 103]%Q = Ok sc
    /\ lo ∈ [100; 101; 103]%Q /\ hi ∈ [100; 101; 103]%Q
    /\ Forall (fun c => lo <= c <= hi)%Q [100; 101; 103]%Q
    /\ Forall (fun r => decode_f32 sc 0 <= Forecast r <= decode_f32 sc 1)%Q
         [{| FDate := 259200000000000; Forecast := 203 # 2 |};
          {| FDate := 345600000000000; Forecast := 203 # 2 |}]
    /\ inverse_transform1 sc 0 == lo
    /\ ((10 * float_eps <= hi - lo)%Q -> inverse_transform1 sc 1 == hi)
    /\ ((hi - lo < 10 * float_eps)%Q -> inverse_transform1 sc 1 == lo + 1)
    /\ ((2 ^ (-125) <= lo)%Q -> (hi <= 2 ^ 127)%Q ->
        (10 * float_eps <= hi - lo <= 2 ^ 126 * lo)%Q ->
        Forall (fun r => lo * (1 - 2 ^ (-22)) <= Forecast r
                         <= hi * (1 + 2 ^ (-22)))%Q
          [{| FDate := 259200000000000; Forecast := 203 # 2 |};
           {| FDate := 345600000000000; Forecast := 203 # 2 |}]).
Proof.
  apply (autotrain_forecast_range (constant_backend (1 # 2) true)
           (daily 0 [100; 101; 103]%Q) 2 2 8 (5 # 10000) None false [] []).
  vm_compute. reflexivity.
Defined.

(** C4 as stated fails by a rounding.  Closes of 100.1, 101.1 and 100.6 and
    a model whose prediction is negative, so that it is clamped to 0: the
    scaled 0 is cast to float32 and decoded in float32, and the forecast is
    13120307 / 131072 = 100.09999847412109375, below the least close. *)
Lemma autotrain_below_historical_minimum :
  let data := daily 0 [1001 # 10; 1011 # 10; 1006 # 10]%Q in
  forecast_lstm_autotrain (constant_backend (- 1 # 10) true) data 1 2 8
    (5 # 10000) None false []
  = (Ok [{| FDate := 259200000000000; Forecast := 13120307 # 131072 |}], [])
  /\ Forall (fun c => 1001 # 10 <= c)%Q (Close_values (dropna_Close data))
  /\ (13120307 # 131072 < 1001 # 10)%Q.
Proof.
  split; [vm_compute; reflexivity |].
  split.
  - repeat constructor; discriminate.
  - reflexivity.
Qed.

(** C2 at a failing input.  With a window of the two scaled values 0 and 1
    and a model that predicts 2, one step of the loop of
    [forecast_lstm_autotrain] yields the clamped value 1, while one step of
    the loop of [forecast_lstm_inference] yields 2: the inference loop does
    not clamp. *)
Theorem inference_loop_does_not_clamp :
  autotrain_loop (constant_backend 2 true) tt 2 1 [0; 1]%Q [] = Ok [1%Q]
  /\ inference_loop (constant_backend 2 true) tt 2 1 [0; 1]%Q [] = Ok [2%Q].
Proof. split; reflexivity. Qed.

(** C1, amended.  Once the forecast has been computed, a call that persists
    returns that same forecast when the three writes succeed, exactly as a
    call that does not persist; when a write fails, the call raises the
    error of that write and returns no forecast. *)
Theorem autotrain_persist_outcome (B : Backend) (data : DataFrame)
    (days window epochs : Z) (learning_rate : Q) (t : string)
    (st : Storage B) (model : Model B) (scaler : MinMaxScaler)
    (preds : list Q) :
  autotrain_predict B data days window epochs learning_rate
    = Ok (model, scaler, preds) ->
  truthy (Some t) = true ->
  forecast_lstm_autotrain B data days window epochs learning_rate (Some t)
    false st = (dated_frame data days preds, st)
  /\ forecast_lstm_autotrain B data days window epochs learning_rate (Some t)
       true st
     = match persist_artifacts B model scaler t st with
       | (Ok _, st') => (dated_frame data days preds, st')
       | (Raise e, st') => (Raise e, st')
       end.
Proof.
  intros Hpred Ht. unfold forecast_lstm_autotrain, bindM, pureM.
  rewrite Hpred, Ht. simpl. split; [reflexivity |].
  destruct (persist_artifacts B model scaler t st) as [[[]|e] st1]; reflexivity.
Qed.

Lemma autotrain_persist_outcome_witness :
  forecast_lstm_autotrain (constant_backend (1 # 2) true)
    (daily 0 [100; 101; 103]%Q) 2 2 8 (5 # 10000) (Some "aapl"%string) false []
  = (Ok [{| FDate := 259200000000000; Forecast := 203 # 2 |};
         {| FDate := 345600000000000; Forecast := 203 # 2 |}], [])
  /\ forecast_lstm_autotrain (constant_backend (1 # 2) true)
       (daily 0 [100; 101; 103]%Q) 2 2 8 (5 # 10000) (Some "aapl"%string) true []
     = (Ok [{| FDate := 259200000000000; Forecast := 203 # 2 |};
            {| FDate := 345600000000000; Forecast := 203 # 2 |}],
        ["scaler_AAPL.save"; "lstm_AAPL.keras"]%string).
Proof.
  exact (autotrain_persist_outcome (constant_backend (1 # 2) true)
           (daily 0 [100; 101; 103]%Q) 2 2 8 (5 # 10000) "aapl" [] tt
           {| data_min_ := 100; data_max_ := 103;
              scale_ := 1 # 3; min_ := (-100) # 3 |}
           [203 # 2; 203 # 2]%Q eq_refl eq_refl).
Defined.

(** C1 as stated fails: the forecast is computed, the writes fail, and the
    call raises instead of returning the forecast. *)
Lemma persistence_failure_fails_forecast :
  let B := constant_backend (1 # 2) false in
  let data := daily 0 [100; 101; 103]%Q in
  (exists frame,
     forecast_lstm_autotrain B data 2 2 8 (5 # 10000) (Some "AAPL"%string)
       false [] = (Ok frame, []))
  /\ forecast_lstm_autotrain B data 2 2 8 (5 # 10000) (Some "AAPL"%string)
       true [] = (Raise (LibraryError "No space left on device"), []).
Proof.
  split; [eexists |]; vm_compute; reflexivity.
Qed.

(* ===================================================================== *)
(** * Training pairs and the errors of forecast_lstm_autotrain *)
(* ===================================================================== *)

(** Closes a goal [Raise (LibraryError _) = Raise e -> is_library_error e]. *)
Ltac raised_by_library := intros [= <-]; now eexists.

Lemma lift_raise {A} (o : Outcome A) (e : Exc) :
  lift o = Raise e -> is_library_error e.
Proof. destruct o; simpl; intros [= <-]. now eexists. Qed.

Lemma py_range_length (a b : Z) : length (py_range a b) = Z.to_nat (b - a).
Proof. unfold py_range. now rewrite length_map, length_seq. Qed.

Lemma py_range_lookup (a b : Z) (k : nat) :
  (k < Z.to_nat (b - a))%nat -> py_range a b !! k = Some (a + Z.of_nat k).
Proof.
  intros Hk. unfold py_range.
  change (map ?f ?l) with (f <$> l).
  rewrite list_lookup_fmap, lookup_seq_lt by exact Hk. reflexivity.
Qed.

Lemma py_range_bounds (a b : Z) :
  Forall (fun i => a <= i < b) (py_range a b).
Proof.
  unfold py_range. apply Forall_forall. intros i Hi.
  apply list_elem_of_In, in_map_iff in Hi as (k & <- & Hk).
  apply in_seq in Hk. lia.
Qed.

Lemma py_getitem_inbounds {A} (l : list A) (i : Z) :
  0 <= i < Z.of_nat (length l) ->
  exists x, py_getitem l i = Ok x /\ l !! Z.to_nat i = Some x.
Proof.
  intros Hi. unfold py_getitem.
  destruct (Z.ltb_spec i 0); [lia |].
  destruct (Z.leb_spec 0 i); [| lia].
  destruct (Z.ltb_spec i (Z.of_nat (length l))); [| lia]. simpl.
  destruct (l !! Z.to_nat i) as [x|] eqn:E; [now exists x |].
  apply lookup_ge_None in E. lia.
Qed.

Lemma py_getitem_raise {A} (l : list A) (i : Z) (e : Exc) :
  py_getitem l i = Raise e -> is_library_error e.
Proof.
  unfold py_getitem.
  destruct (_ && _); [destruct (l !! _) |]; raised_by_library.
Qed.

(** A slice with both bounds inside the sequence. *)
Lemma py_slice_inbounds {A} (l : list A) (a b : Z) :
  0 <= a <= b -> b <= Z.of_nat (length l) ->
  py_slice l a b = firstn (Z.to_nat (b - a)) (skipn (Z.to_nat a) l).
Proof.
  intros Ha Hb. unfold py_slice, py_index.
  destruct (Z.ltb_spec a 0); [lia |].
  destruct (Z.ltb_spec b 0); [lia |].
  rewrite !Nat.min_l by lia. f_equal. lia.
Qed.

Lemma build_pairs_length (l : list Q) (window : Z) (idxs : list Z) :
  forall sequences targets s t,
    build_pairs l window idxs sequences targets = Ok (s, t) ->
    length s = (length sequences + length idxs)%nat
    /\ length t = (length targets + length idxs)%nat.
Proof.
  induction idxs as [|idx idxs IH]; intros sequences targets s t; simpl.
  - intros [= <- <-]. lia.
  - destruct (py_getitem l idx) as [x|]; simpl; [| discriminate].
    intros H. apply IH in H. rewrite !length_app in H. simpl in H. lia.
Qed.

Lemma build_pairs_raise (l : list Q) (window : Z) (idxs : list Z) (e : Exc) :
  forall sequences targets,
    build_pairs l window idxs sequences targets = Raise e ->
    is_library_error e.
Proof.
  induction idxs as [|idx idxs IH]; intros sequences targets; simpl.
  - discriminate.
  - destruct (py_getitem l idx) as [x|] eqn:E; simpl.
    + apply IH.
    + intros [= <-]. exact (py_getitem_raise _ _ _ E).
Qed.

(** With every index inside the array the loop runs to its end and appends,
    for each index, the window before it and the value at it. *)
Lemma build_pairs_inbounds (l : list Q) (window : Z) (idxs : list Z) :
  Forall (fun i => 0 <= i < Z.of_nat (length l)) idxs ->
  forall sequences targets,
    build_pairs l window idxs sequences targets
    = Ok (sequences ++ map (fun idx => py_slice l (idx - window) idx) idxs,
          targets ++ map (fun idx => nth (Z.to_nat idx) l 0%Q) idxs).
Proof.
  induction 1 as [|idx idxs Hidx _ IH]; intros sequences targets; simpl.
  - now rewrite !app_nil_r.
  - destruct (py_getitem_inbounds l idx Hidx) as (x & -> & Hx). simpl.
    rewrite IH, <- !app_assoc. simpl.
    now rewrite (nth_lookup_Some _ _ 0%Q _ Hx).
Qed.

(** Under the guard [len(closes) > window] the loop appends at least one
    window, for every integer [window]. *)
Lemma make_sequences_nonempty (closes_scaled : list Q) (window : Z)
    (sequences : list (list Q)) (targets : list Q) :
  window < Z.of_nat (length closes_scaled) ->
  make_sequences closes_scaled window = Ok (sequences, targets) ->
  sequences <> [].
Proof.
  intros Hlt H. apply build_pairs_length in H as [H _].
  rewrite py_range_length in H. intros ->. simpl in H. lia.
Qed.

Lemma make_sequences_spec (closes_scaled : list Q) (window : Z) :
  0 <= window < Z.of_nat (length closes_scaled) ->
  make_sequences closes_scaled window
  = Ok (map (fun idx => firstn (Z.to_nat window)
                          (skipn (Z.to_nat (idx - window)) closes_scaled))
            (py_range window (Z.of_nat (length closes_scaled))),
        map (fun idx => nth (Z.to_nat idx) closes_scaled 0%Q)
            (py_range window (Z.of_nat (length closes_scaled)))).
Proof.
  intros Hw. unfold make_sequences.
  pose proof (py_range_bounds window (Z.of_nat (length closes_scaled))) as Hb.
  rewrite build_pairs_inbounds
    by (eapply Forall_impl; [exact Hb | simpl; intros; lia]).
  simpl. f_equal. f_equal.
  apply map_ext_in. intros idx Hin.
  rewrite Forall_forall in Hb. apply list_elem_of_In, Hb in Hin.
  rewrite py_slice_inbounds by lia. do 2 f_equal. lia.
Qed.

Lemma transform_length (sc : MinMaxScaler) (X Xs : list Q) :
  transform sc X = Ok Xs -> length Xs = length X.
Proof.
  destruct X; simpl; [discriminate |]. intros [= <-]. simpl.
  now rewrite length_map.
Qed.

Lemma fit_transform_inv (X : list Q) (sc : MinMaxScaler) (Xs : list Q) :
  fit_transform X = Ok (sc, Xs) ->
  fit X = Ok sc /\ Xs = map (transform1 sc) X.
Proof.
  unfold fit_transform. destruct (fit X) as [sc'|] eqn:Hfit; simpl;
    [| discriminate].
  destruct X as [|x X]; simpl; [discriminate |].
  intros [= <- <-]. now split.
Qed.

Lemma fit_transform_nonempty (X : list Q) :
  X <> [] -> exists sc, fit_transform X = Ok (sc, map (transform1 sc) X).
Proof.
  destruct X as [|x X]; [congruence |]. intros _.
  unfold fit_transform. simpl. eexists. reflexivity.
Qed.

Lemma fit_transform_raise (X : list Q) (e : Exc) :
  fit_transform X = Raise e -> is_library_error e.
Proof.
  destruct X as [|x X]; simpl; [| discriminate].
  intros [= <-]. now eexists.
Qed.

Lemma dated_frame_raise (data : DataFrame) (days : Z) (preds : list Q) (e : Exc) :
  dated_frame data days preds = Raise e -> is_library_error e.
Proof.
  unfold dated_frame, iloc_last, date_range, make_frame.
  destruct (last (map Date data)); simpl; [| raised_by_library].
  destruct (days <? 0); simpl; [raised_by_library |].
  destruct (_ =? _)%nat; [discriminate | raised_by_library].
Qed.

Section AutotrainErrors.

Variable B : Backend.

Lemma autotrain_loop_raise (model : Model B) (window : Z) (n : nat) (e : Exc) :
  forall history preds,
    autotrain_loop B model window n history preds = Raise e ->
    is_library_error e.
Proof.
  induction n as [|n IH]; intros history preds; simpl; [discriminate |].
  unfold reshape_window. destruct (_ || _); simpl;
    [| raised_by_library].
  destruct (keras_predict B model _) as [p|]; simpl;
    [apply IH | raised_by_library].
Qed.

Lemma persist_artifacts_raise (model : Model B) (scaler : MinMaxScaler)
    (t : string) (st st' : Storage B) (e : Exc) :
  persist_artifacts B model scaler t st = (Raise e, st') ->
  is_library_error e.
Proof.
  unfold persist_artifacts, bindM, callM.
  destruct (mkdir B st) as [[[]|m] st1]; simpl;
    [| intros [= <- _]; now eexists].
  destruct (keras_save B _ _ st1) as [[[]|m] st2]; simpl;
    [| intros [= <- _]; now eexists].
  destruct (joblib_dump B _ _ st2) as [[[]|m] st3]; simpl;
    [discriminate | intros [= <- _]; now eexists].
Qed.

(** The errors of [autotrain_predict]: the guard, or a library. *)
Lemma autotrain_predict_raise (data : DataFrame) (days window epochs : Z)
    (learning_rate : Q) (e : Exc) :
  autotrain_predict B data days window epochs learning_rate = Raise e ->
  (e = ValueError not_enough_train_msg
   /\ Z.of_nat (length (Close_values (dropna_Close data))) <= window)
  \/ is_library_error e.
Proof.
  unfold autotrain_predict. cbv zeta.
  destruct (Z.leb_spec (Z.of_nat (length (Close_values (dropna_Close data))))
              window) as [Hle | Hlt].
  { intros [= <-]. now left. }
  intros H. right. revert H.
  destruct (fit_transform _) as [[sc scaled]|] eqn:Hft; simpl;
    [| intros [= <-]; exact (fit_transform_raise _ _ Hft)].
  apply fit_transform_inv in Hft as [_ ->].
  destruct (make_sequences _ window) as [[sequences targets]|] eqn:Hseq; simpl;
    [| intros [= <-]; exact (build_pairs_raise _ _ _ _ _ _ Hseq)].
  destruct sequences as [|s0 sequences].
  { exfalso. eapply make_sequences_nonempty; [| exact Hseq | reflexivity].
    now rewrite length_map. }
  unfold reshape_samples. destruct (_ && _); simpl;
    [| raised_by_library].
  destruct (keras_fit B _ _ _ _ _ _) as [m|]; simpl;
    [| raised_by_library].
  destruct (autotrain_loop B m window _ _ _) as [ps|] eqn:Hloop; simpl;
    [| intros [= <-]; exact (autotrain_loop_raise _ _ _ _ _ _ Hloop)].
  destruct ps; simpl; [raised_by_library | discriminate].
Qed.

(** The errors of [forecast_lstm_autotrain]. *)
Lemma forecast_lstm_autotrain_raise (data : DataFrame) (days window epochs : Z)
    (learning_rate : Q) (ticker : option string) (persist : bool)
    (st : Storage B) (e : Exc) :
  (forecast_lstm_autotrain B data days window epochs learning_rate ticker
     persist st).1 = Raise e ->
  (e = ValueError not_enough_train_msg
   /\ Z.of_nat (length (Close_values (dropna_Close data))) <= window)
  \/ is_library_error e.
Proof.
  unfold forecast_lstm_autotrain, bindM, pureM.
  destruct (autotrain_predict _ _ _ _ _ _) as [[[m sc] ps]|e0] eqn:Hpred.
  2:{ simpl. intros [= <-]. exact (autotrain_predict_raise _ _ _ _ _ _ Hpred). }
  destruct (match ticker with
            | Some t => if persist && truthy ticker
                        then persist_artifacts B m sc t else retM tt
            | None => retM tt
            end st) as [[[]|e1] st1] eqn:Hp; simpl.
  - intros H. right. exact (dated_frame_raise _ _ _ _ H).
  - intros [= <-]. right.
    destruct ticker as [t|]; [| discriminate].
    destruct (persist && truthy (Some t)); [| discriminate].
    exact (persist_artifacts_raise _ _ _ _ _ _ Hp).
Qed.

End AutotrainErrors.

Lemma messages_differ : not_enough_train_msg <> no_sequences_msg.
Proof. discriminate. Qed.

Lemma last_split_lookup {A} (l : list A) (m : nat) (x : A) :
  length l = S m -> l !! m = Some x -> l = firstn m l ++ [x].
Proof.
  intros Hlen Hx. rewrite <- (firstn_skipn m l) at 1. f_equal.
  change (skipn m l) with (drop m l).
  rewrite (drop_S l x m Hx), drop_ge by lia. reflexivity.
Qed.

(** The batch size of the fit: [int(min(32, len(X))) or 1]. *)
Lemma autotrain_fit_failed (B : Backend) (data : DataFrame)
    (days window epochs : Z) (learning_rate : Q) (ticker : option string)
    (persist : bool) (st : Storage B) (sc : MinMaxScaler)
    (closes_scaled : list Q) (sequences : list (list Q)) (targets : list Q)
    (msg : string) :
  let closes := Close_values (dropna_Close data) in
  window < Z.of_nat (length closes) ->
  fit_transform closes = Ok (sc, closes_scaled) ->
  make_sequences closes_scaled window = Ok (sequences, targets) ->
  sequences <> [] ->
  reshape_samples sequences window = Ok sequences ->
  keras_fit B window sequences targets epochs learning_rate
    (let b := Z.min 32 (Z.of_nat (length sequences)) in
     if b =? 0 then 1 else b) = Failed msg ->
  forecast_lstm_autotrain B data days window epochs learning_rate ticker
    persist st = (Raise (LibraryError msg), st).
Proof.
  intros closes Hw Hft Hseq Hne Hre Hfail.
  unfold forecast_lstm_autotrain, bindM, pureM, autotrain_predict.
  fold closes.
  replace (Z.of_nat (length closes) <=? window) with false
    by (symmetry; apply Z.leb_gt; exact Hw).
  rewrite Hft. cbn [bindR]. rewrite Hseq. cbn [bindR].
  destruct sequences as [|s0 ss]; [congruence |].
  rewrite Hre. cbn [bindR]. cbv zeta in Hfail. rewrite Hfail. reflexivity.
Qed.

(** C5. [forecast_lstm_autotrain] raises its not-enough-data error exactly
    when the series has [window] or fewer usable closes.  With more than
    [window] of them the closes are scaled and the loop builds one pair per
    index from [window] on: [len - window] pairs, the k-th made of the
    [window] scaled values from position k and of the scaled value after
    them; with exactly [window + 1] usable closes that is the single pair of
    the first [window] values and the last one.  These pairs are what the
    function fits the network on: when the fit on them fails, the function
    fails with the error of the fit. *)
Theorem autotrain_insufficient_data (B : Backend) (data : DataFrame)
    (days window epochs : Z) (learning_rate : Q) (ticker : option string)
    (persist : bool) (st : Storage B) :
  let closes := Close_values (dropna_Close data) in
  let n := Z.of_nat (length closes) in
  ((forecast_lstm_autotrain B data days window epochs learning_rate ticker
      persist st).1 = Raise (ValueError not_enough_train_msg)
   <-> n <= window)
  /\ (0 <= window < n ->
      exists sc sequences targets,
        let closes_scaled := map (transform1 sc) closes in
        fit_transform closes = Ok (sc, closes_scaled)
        /\ make_sequences closes_scaled window = Ok (sequences, targets)
        /\ Z.of_nat (length sequences) = n - window
        /\ length targets = length sequences
        /\ (forall k, (k < length sequences)%nat ->
              sequences !! k
                = Some (firstn (Z.to_nat window) (skipn k closes_scaled))
              /\ targets !! k = closes_scaled !! (k + Z.to_nat window)%nat)
        /\ (n = window + 1 ->
            exists next_scaled,
              closes_scaled
                = firstn (Z.to_nat window) closes_scaled ++ [next_scaled]
              /\ sequences = [firstn (Z.to_nat window) closes_scaled]
              /\ targets = [next_scaled])
        /\ (0 < window ->
            forall msg,
              keras_fit B window sequences targets epochs learning_rate
                (let b := Z.min 32 (Z.of_nat (length sequences)) in
                 if b =? 0 then 1 else b) = Failed msg ->
              forecast_lstm_autotrain B data days window epochs learning_rate
                ticker persist st = (Raise (LibraryError msg), st))).
Proof.
  intros closes n. split.
  - split.
    + intros H. apply forecast_lstm_autotrain_raise in H as [[_ H] | [m H]];
        [exact H | discriminate].
    + intros H. unfold forecast_lstm_autotrain, bindM, pureM, autotrain_predict.
      fold closes. fold n. apply Z.leb_le in H. now rewrite H.
  - intros Hw.
    destruct (fit_transform_nonempty closes) as [sc Hft].
    { intros E. subst n. rewrite E in Hw. simpl in Hw. lia. }
    set (closes_scaled := map (transform1 sc) closes) in *.
    assert (Hlen : length closes_scaled = length closes)
      by apply length_map.
    assert (Hw' : 0 <= window < Z.of_nat (length closes_scaled))
      by (rewrite Hlen; exact Hw).
    pose proof (make_sequences_spec closes_scaled window Hw') as Hseq.
    rewrite Hlen in Hseq. fold n in Hseq.
    eexists sc, _, _. cbv zeta. fold closes_scaled.
    split; [exact Hft |]. split; [exact Hseq |].
    rewrite !length_map, py_range_length.
    assert (Hk : forall k, (k < Z.to_nat (n - window))%nat ->
              map (fun idx => firstn (Z.to_nat window)
                                (skipn (Z.to_nat (idx - window)) closes_scaled))
                  (py_range window n) !! k
              = Some (firstn (Z.to_nat window) (skipn k closes_scaled))
              /\ map (fun idx => nth (Z.to_nat idx) closes_scaled 0%Q)
                     (py_range window n) !! k
                 = closes_scaled !! (k + Z.to_nat window)%nat).
    { intros k Hk.
      change (map ?f ?l) with (f <$> l).
      rewrite !list_lookup_fmap, py_range_lookup by exact Hk. simpl.
      replace (Z.to_nat (window + Z.of_nat k - window)) with k by lia.
      replace (Z.to_nat (window + Z.of_nat k)) with (k + Z.to_nat window)%nat
        by lia.
      split; [reflexivity |].
      destruct (closes_scaled !! (k + Z.to_nat window)%nat) as [x|] eqn:E.
      - now rewrite (nth_lookup_Some _ _ 0%Q _ E).
      - apply lookup_ge_None in E. lia. }
    split; [lia |]. split; [reflexivity |]. split; [exact Hk |].
    split.
    { intros Hn.
      destruct (Hk 0%nat) as [_ Ht]; [lia |]. simpl in Ht.
      destruct (closes_scaled !! Z.to_nat window) as [x|] eqn:E.
      2:{ apply lookup_ge_None in E. lia. }
      exists x. split; [apply last_split_lookup; [lia | exact E] |].
      replace n with (window + 1) by lia.
      unfold py_range. replace (Z.to_nat (window + 1 - window)) with 1%nat by lia.
      simpl.
      replace (Z.to_nat (window + Z.of_nat 0 - window)) with 0%nat by lia.
      replace (window + Z.of_nat 0) with window by lia. simpl.
      now rewrite (nth_lookup_Some _ _ 0%Q _ E). }
    intros Hpos msg Hfail.
    eapply autotrain_fit_failed;
      [ | exact Hft | exact Hseq | |
        | cbv zeta; rewrite length_map, py_range_length; exact Hfail ].
    + fold closes. fold n. lia.
    + intros E. apply (f_equal (@length (list Q))) in E.
      rewrite length_map, py_range_length in E. simpl in E. lia.
    + unfold reshape_samples.
      replace (0 <? window) with true by (symmetry; apply Z.ltb_lt; exact Hpos).
      cbn [andb].
      match goal with
      | |- (if forallb ?f ?l then _ else _) = _ =>
          replace (forallb f l) with true; [reflexivity |]
      end.
      symmetry. apply forallb_forall. intros sq Hin.
      apply in_map_iff in Hin as (idx & <- & Hidx).
      pose proof (py_range_bounds window n) as Hb.
      rewrite List.Forall_forall in Hb. specialize (Hb idx Hidx).
      apply Z.eqb_eq. rewrite length_firstn, length_skipn. lia.
Qed.

Lemma autotrain_insufficient_data_witness :
  exists sc sequences targets,
    let closes_scaled := map (transform1 sc) [100; 101; 103]%Q in
    fit_transform [100; 101; 103]%Q = Ok (sc, closes_scaled)
    /\ make_sequences closes_scaled 2 = Ok (sequences, targets)
    /\ Z.of_nat (length sequences) = 3 - 2
    /\ length targets = length sequences
    /\ (forall k, (k < length sequences)%nat ->
          sequences !! k = Some (firstn 2 (skipn k closes_scaled))
          /\ targets !! k = closes_scaled !! (k + 2)%nat)
    /\ (3 = 2 + 1 ->
        exists next_scaled,
          closes_scaled = firstn 2 closes_scaled ++ [next_scaled]
          /\ sequences = [firstn 2 closes_scaled]
          /\ targets = [next_scaled])
    /\ (0 < 2 ->
        forall msg,
          keras_fit (replayed_backend (1 # 2)) 2 sequences targets 8
            (5 # 10000)
            (let b := Z.min 32 (Z.of_nat (length sequences)) in
             if b =? 0 then 1 else b) = Failed msg ->
          forecast_lstm_autotrain (replayed_backend (1 # 2))
            (daily 0 [100; 101; 103]%Q) 1 2 8 (5 # 10000) None false []
          = (Raise (LibraryError msg), [])).
Proof.
  apply (autotrain_insufficient_data (replayed_backend (1 # 2))
           (daily 0 [100; 101; 103]%Q) 1 2 8 (5 # 10000) None false []).
  simpl. lia.
Defined.

(** C10. Under the guard that more than [window] scaled values exist the
    sequence-building loop appends at least one window, and
    [forecast_lstm_autotrain] never raises the error of its
    [if not sequences] branch. *)
Theorem no_sequences_error_unreachable (B : Backend) (data : DataFrame)
    (days window epochs : Z) (learning_rate : Q) (ticker : option string)
    (persist : bool) (st : Storage B) :
  (forall closes_scaled sequences targets,
     window < Z.of_nat (length closes_scaled) ->
     make_sequences closes_scaled window = Ok (sequences, targets) ->
     sequences <> [])
  /\ (forecast_lstm_autotrain B data days window epochs learning_rate ticker
        persist st).1 <> Raise (ValueError no_sequences_msg).
Proof.
  split.
  - intros closes_scaled sequences targets.
    apply make_sequences_nonempty.
  - intros H. apply forecast_lstm_autotrain_raise in H as [[H _] | [m H]].
    + exact (messages_differ (eq_sym (f_equal str_exc H))).
    + discriminate.
Qed.

(* ===================================================================== *)
(** * Properties of forecast_linear *)
(* ===================================================================== *)







(** A frame whose rows all lack the close is not empty, so the guard lets
    it through, and the fit is then asked for a line through no point. *)
Example forecast_linear_no_usable_close :
  forecast_linear [{| Date := 0; Close := None |}] 1
  = Raise (LibraryError "expected non-empty vector for x").
Proof. reflexivity. Qed.




(* ===================================================================== *)
(** * Properties of get_forecast *)
(* ===================================================================== *)

Ltac in_tier_traces :=
  unfold tier_traces; simpl; rewrite ?elem_of_cons; auto 10.

Section OrchestratorFacts.

Variable B : Backend.

(** An attempt on the cached model either fails at the lookup, calling
    nothing, or is one call of [forecast_lstm_inference] on the storage root
    as the call finds it; which of the two depends on the catalog only. *)
Lemma cached_attempt_shape (data : DataFrame) (ticker_clean : string)
    (catalog : gmap string CatalogEntry) (days window : Z) :
  (exists e, forall w : World B,
     cached_attempt B data ticker_clean catalog days window w = (Raise e, w))
  \/ (exists mp sp, forall w : World B,
        cached_attempt B data ticker_clean catalog days window w
        = (forecast_lstm_inference B data mp sp days window
             (others B (storage B w)),
           {| storage := others B (storage B w);
              trace := trace B w ++ [TierCached] |})).
Proof.
  unfold cached_attempt.
  destruct (load_lstm_artifacts ticker_clean catalog) as [[mp sp]|e].
  - right. exists mp, sp. reflexivity.
  - left. exists e. reflexivity.
Qed.

Lemma call_autotrain_trace (data : DataFrame) (days window : Z)
    (ticker_clean : string) (w : World B) :
  trace B (call_autotrain B data days window ticker_clean w).2
  = trace B w ++ [TierTrain].
Proof.
  unfold call_autotrain. simpl.
  now destruct (forecast_lstm_autotrain B _ _ _ _ _ _ _ _).
Qed.

(** With the sequence model not preferred the request is the linear
    forecast and nothing else. *)
Lemma get_forecast_linear_only (ticker : string) (days window : Z)
    (r0 : Row) (data0 : DataFrame) (w : World B) :
  get_forecast B ticker days false window (Some (r0 :: data0)) w
  = (match forecast_linear (r0 :: data0) days with
     | Ok df =>
         Ok {| r_ticker := py_upper (py_strip ticker);
               r_source := "linear";
               r_forecast := df;
               r_history := py_tail (r0 :: data0) (Z.max days 120);
               r_note := None |}
     | Raise e => Raise e
     end, logged B TierLinear w).
Proof.
  unfold get_forecast, fallback_block, call_linear.
  cbn -[forecast_linear py_tail py_upper py_strip list_available_models].
  destruct (forecast_linear (r0 :: data0) days); reflexivity.
Qed.

End OrchestratorFacts.



Lemma tier_traces_counts (tr : list Tier) :
  tr ∈ tier_traces ->
  (count_occ Tier_eq_dec tr TierTrain <= 1)%nat
  /\ (count_occ Tier_eq_dec tr TierLinear <= 1)%nat
  /\ (count_occ Tier_eq_dec tr TierCached <= 2)%nat.
Proof.
  unfold tier_traces. rewrite !elem_of_cons, elem_of_nil.
  intros [-> | [-> | [-> | [-> | [-> | [-> | [-> | []]]]]]]]; vm_compute; lia.
Qed.

(** C3, amended.  In one call of [get_forecast] the training tier is called
    at most once and the linear tier at most once, neither again after it
    failed.  The cached tier is called at most twice: when training failed
    and the first call of [forecast_lstm_inference] failed as well, the
    block under [if forecast_df is None] calls it a second time; that call
    reads the storage root afresh, and either answers or fails and leaves
    the request to the linear fallback.  The calls made are one of the seven
    sequences of [tier_traces]. *)
Theorem tier_attempts (B : Backend) (ticker : string) (days : Z)
    (use_lstm : bool) (window : Z) (loaded : option DataFrame) (w : World B) :
  exists tr,
    trace B (get_forecast B ticker days use_lstm window loaded w).2
      = trace B w ++ tr
    /\ tr ∈ tier_traces
    /\ (count_occ Tier_eq_dec tr TierTrain <= 1)%nat
    /\ (count_occ Tier_eq_dec tr TierLinear <= 1)%nat
    /\ (count_occ Tier_eq_dec tr TierCached <= 2)%nat.
Proof.
  assert (Hgoal : exists tr,
            trace B (get_forecast B ticker days use_lstm window loaded w).2
              = trace B w ++ tr /\ tr ∈ tier_traces).
  2:{ destruct Hgoal as (tr & Htr & Hin). exists tr.
      split; [exact Htr |]. split; [exact Hin |].
      exact (tier_traces_counts tr Hin). }
  assert (Hnil : exists tr, trace B w = trace B w ++ tr /\ tr ∈ tier_traces).
  { exists []. rewrite app_nil_r. split; [reflexivity |].
    in_tier_traces. }
  destruct loaded as [[|r0 data0]|]; [exact Hnil | | exact Hnil].
  destruct use_lstm.
  2:{ rewrite get_forecast_linear_only. exists [TierLinear].
      split; [reflexivity |]. in_tier_traces. }
  unfold get_forecast, sequence_block. cbv zeta.
  set (data := r0 :: data0). set (t := py_upper (py_strip ticker)).
  pose proof (call_autotrain_trace B data days window t w) as Htrain.
  destruct (call_autotrain B data days window t w) as [[df|train_exc] w1].
  - (* training succeeded *)
    exists [TierTrain]. simpl in *. split; [exact Htrain |].
    in_tier_traces.
  - simpl in Htrain.
    set (catalog := list_available_models (listing B (storage B w1))).
    clearbody data t catalog.
    destruct (catalog !! t) as [entry|] eqn:Hcat.
    + destruct (cached_attempt_shape B data t catalog days window)
        as [[e0 Hs] | (mp & sp & Hs)].
      * (* the lookup fails, in both blocks: no cached call *)
        rewrite Hs. unfold fallback_block.
        cbn [forecast_df model_catalog andb].
        rewrite Hcat, bool_decide_eq_true_2 by eauto.
        rewrite Hs. cbn [forecast_df]. unfold call_linear.
        exists [TierTrain; TierLinear]. split.
        -- destruct (forecast_linear data days); simpl;
             rewrite Htrain, <- ?app_assoc; reflexivity.
        -- in_tier_traces.
      * rewrite Hs.
        destruct (forecast_lstm_inference B data mp sp days window _)
          as [df|exc].
        -- (* the cached model answered *)
           exists [TierTrain; TierCached]. simpl.
           rewrite Htrain, <- app_assoc. split; [reflexivity |].
           in_tier_traces.
        -- (* the cached model failed: it is called again *)
           unfold fallback_block.
           cbn [forecast_df model_catalog andb].
           rewrite Hcat, bool_decide_eq_true_2 by eauto.
           rewrite Hs. cbn [storage trace].
           destruct (forecast_lstm_inference B data mp sp days window _)
             as [df2|exc2]; cbn [forecast_df].
           ++ (* the second call answered *)
              exists [TierTrain; TierCached; TierCached]. simpl.
              rewrite Htrain, <- !app_assoc. split; [reflexivity |].
              in_tier_traces.
           ++ (* it failed again: the line *)
              unfold call_linear.
              exists [TierTrain; TierCached; TierCached; TierLinear]. split.
              ** destruct (forecast_linear data days); simpl;
                   rewrite Htrain, <- !app_assoc; reflexivity.
              ** in_tier_traces.
    + (* no cached model for the ticker *)
      unfold fallback_block.
      cbn [forecast_df model_catalog andb].
      rewrite Hcat, bool_decide_eq_false_2 by (intros [? ?]; discriminate).
      cbn [forecast_df]. unfold call_linear.
      exists [TierTrain; TierLinear]. split.
      * destruct (forecast_linear data days); simpl; rewrite Htrain,
          <- ?app_assoc; reflexivity.
      * in_tier_traces.
Qed.

(** C3 as stated fails.  One row of history, a window of five and a model
    directory holding a model and a scaler for the ticker: training fails,
    the cached model fails, the cached model is called again, and only then
    the linear forecast is made. *)
Lemma cached_tier_attempted_twice :
  let out :=
    get_forecast (constant_backend (1 # 2) true) "aapl" 1 true 5
      (Some (daily 0 [100]%Q))
      (fresh_world (1 # 2) true ["lstm_AAPL.keras"; "scaler_AAPL.save"]%string) in
  trace _ (out.2) = [TierTrain; TierCached; TierCached; TierLinear]
  /\ ~ (count_occ Tier_eq_dec (trace _ (out.2)) TierCached <= 1)%nat.
Proof.
  cbv zeta.
  assert (E : trace _
    (get_forecast (constant_backend (1 # 2) true) "aapl" 1 true 5
       (Some (daily 0 [100]%Q))
       (fresh_world (1 # 2) true
          ["lstm_AAPL.keras"; "scaler_AAPL.save"]%string)).2
    = [TierTrain; TierCached; TierCached; TierLinear])
    by (vm_compute; reflexivity).
  rewrite E. split; [reflexivity |]. vm_compute. lia.
Qed.

(** The second call of the cached model can answer where the first failed:
    training fails, the scaler file is missing when the cached model is first
    read and back when it is read again. *)
Example cached_tier_retry_answers :
  let out :=
    get_forecast (replayed_backend (1 # 2)) "aapl" 1 true 2
      (Some (daily 0 [100; 101; 103]%Q))
      (Build_World (replayed_backend (1 # 2))
         [["lstm_AAPL.keras"; "scaler_AAPL.save"];
          ["lstm_AAPL.keras"];
          ["lstm_AAPL.keras"; "scaler_AAPL.save"]]%string []) in
  trace _ (out.2) = [TierTrain; TierCached; TierCached]
  /\ exists resp, out.1 = Ok resp /\ r_source resp = "lstm"%string.
Proof.
  split; [vm_compute; reflexivity |].
  eexists. split; [vm_compute; reflexivity | reflexivity].
Qed.

(* ===================================================================== *)
(** * Properties of the model catalog *)
(* ===================================================================== *)

Lemma path_exists_true (names : list string) (p : string) :
  path_exists (Some names) p = true <-> p ∈ names.
Proof. simpl. apply bool_decide_eq_true. Qed.

Lemma find_first {A} (p : A -> bool) (l : list A) (x : A) :
  List.find p l = Some x ->
  exists pre post,
    l = pre ++ x :: post /\ p x = true /\ Forall (fun c => p c = false) pre.
Proof.
  induction l as [|a l IH]; simpl; [discriminate |].
  destruct (p a) eqn:Ha.
  - intros [= <-]. exists [], l. split; [reflexivity |]. split; [exact Ha |].
    constructor.
  - intros H. destruct (IH H) as (pre & post & -> & Hx & Hpre).
    exists (a :: pre), post. split; [reflexivity |]. split; [exact Hx |].
    constructor; assumption.
Qed.

Lemma find_app_first {A} (p : A -> bool) (l1 l2 : list A) :
  List.find p (l1 ++ l2)
  = match List.find p l1 with
    | Some x => Some x
    | None => List.find p l2
    end.
Proof.
  induction l1 as [|a l1 IH]; simpl; [reflexivity |].
  destruct (p a); [reflexivity | exact IH].
Qed.

Lemma _find_scaler_path_find (names : list string) (ticker : string) :
  _find_scaler_path names ticker
  = List.find (path_exists (Some names)) (all_scaler_candidates ticker).
Proof.
  unfold _find_scaler_path, all_scaler_candidates.
  now rewrite find_app_first.
Qed.

(** A found scaler is the first recognised name present in the directory. *)
Lemma _find_scaler_path_Some (names : list string) (ticker sp : string) :
  _find_scaler_path names ticker = Some sp ->
  exists pre post,
    all_scaler_candidates ticker = pre ++ sp :: post
    /\ sp ∈ names
    /\ forall c, c ∈ pre -> c ∉ names.
Proof.
  rewrite _find_scaler_path_find. intros H.
  destruct (find_first _ _ _ H) as (pre & post & E & Hsp & Hpre).
  exists pre, post. split; [exact E |].
  split; [now apply path_exists_true |].
  intros c Hc Hin. rewrite Forall_forall in Hpre.
  apply path_exists_true in Hin. rewrite (Hpre c Hc) in Hin. discriminate.
Qed.


Lemma scan_step_lookup (names : list string)
    (models : gmap string CatalogEntry) (f t : string) (e : CatalogEntry) :
  scan_step names models f !! t = Some e ->
  models !! t = Some e \/ entry_from names [f] t e.
Proof.
  unfold scan_step.
  destruct (_normalise_ticker_from_stem (stem f)) as [t'|] eqn:Hn; [| auto].
  destruct (_find_scaler_path names t') as [sp|] eqn:Hs; [| auto].
  rewrite lookup_insert. case_decide as Ht; [| auto].
  subst t'. intros [= <-]. right. unfold entry_from. simpl.
  split; [apply list_elem_of_singleton; reflexivity | now split].
Qed.

Lemma entry_from_mono (names files files' : list string) (t : string)
    (e : CatalogEntry) :
  files ⊆ files' -> entry_from names files t e -> entry_from names files' t e.
Proof. intros Hsub (H1 & H2 & H3). split; [now apply Hsub | now split]. Qed.

Lemma scan_sound (names files : list string) :
  forall (models : gmap string CatalogEntry) (t : string) (e : CatalogEntry),
    fold_left (scan_step names) files models !! t = Some e ->
    models !! t = Some e \/ entry_from names files t e.
Proof.
  induction files as [|f files IH]; intros models t e; simpl; [auto |].
  intros H. apply IH in H as [H | H].
  - apply scan_step_lookup in H as [H | H]; [now left | right].
    eapply entry_from_mono; [| exact H].
    intros x Hx. apply list_elem_of_singleton in Hx as ->. left.
  - right. eapply entry_from_mono; [| exact H].
    intros x Hx. now right.
Qed.





(** The scan of the example directory: one entry, the scaler being the
    eighth name of the fixed order. *)
Example catalog_scan_example :
  map_to_list
    (list_available_models
       (Some ["lstm_AAPL.keras"; "scaler_AAPL.save"; "MSFT.h5"]%string))
  = [("AAPL"%string,
      {| model := "lstm_AAPL.keras"; scaler := "scaler_AAPL.save" |})].
Proof. vm_compute. reflexivity. Qed.

(* ===================================================================== *)
(** * Further properties of the sequence forecasters *)
(* ===================================================================== *)

Lemma dated_frame_shape (data : DataFrame) (days : Z) (preds : list Q)
    (frame : ForecastFrame) :
  dated_frame data days preds = Ok frame ->
  Z.of_nat (length frame) = days
  /\ map Forecast frame = preds
  /\ exists last_date,
       last (map Date data) = Some last_date
       /\ forall k, (k < length frame)%nat ->
            FDate <$> frame !! k
            = Some (last_date + Timedelta_days (Z.of_nat k + 1)).
Proof.
  intros H. destruct (dated_frame_inv _ _ _ _ H) as (d & Hd & Hdays & Hdates & Hv).
  assert (Hlen : length frame = Z.to_nat days).
  { rewrite <- (length_map FDate frame), Hdates, length_map, py_range_length.
    f_equal. lia. }
  split; [lia |]. split; [exact Hv |].
  exists d. split; [exact Hd |]. intros k Hk.
  change (FDate <$> frame !! k) with (FDate <$> (frame !! k)).
  rewrite <- list_lookup_fmap.
  change (FDate <$> frame) with (map FDate frame). rewrite Hdates.
  change (map ?f ?l) with (f <$> l).
  rewrite list_lookup_fmap, py_range_lookup by lia. simpl.
  f_equal. unfold Timedelta_days. lia.
Qed.

Lemma inverse_transform_inv (sc : MinMaxScaler) (X out : list Q) :
  inverse_transform sc X = Ok out ->
  X <> [] /\ out = map (inverse_transform1 sc) X.
Proof.
  destruct X; simpl; [discriminate |]. intros [= <-]. split; [discriminate | reflexivity].
Qed.

Lemma inverse_transform_f32_inv (sc : MinMaxScaler) (X out : list Q) :
  inverse_transform_f32 sc X = Ok out ->
  X <> [] /\ out = map (inverse_transform1_f32 sc) X.
Proof.
  destruct X; simpl; [discriminate |]. intros [= <-].
  split; [discriminate | reflexivity].
Qed.

Lemma autotrain_frame_shape_aux (B : Backend) (data : DataFrame)
    (days window epochs : Z) (learning_rate : Q) (ticker : option string)
    (persist : bool) (st st' : Storage B) (frame : ForecastFrame) :
  forecast_lstm_autotrain B data days window epochs learning_rate ticker
    persist st = (Ok frame, st') ->
  1 <= days
  /\ Z.of_nat (length frame) = days
  /\ exists last_date,
       last (map Date data) = Some last_date
       /\ forall k, (k < length frame)%nat ->
            FDate <$> frame !! k
            = Some (last_date + Timedelta_days (Z.of_nat k + 1)).
Proof.
  intros Hrun.
  destruct (forecast_lstm_autotrain_inv _ _ _ _ _ _ _ _ _ _ _ Hrun)
    as (m & sc & preds & Hpred & Hframe).
  destruct (autotrain_predict_inv _ _ _ _ _ _ _ _ _ Hpred)
    as (_ & _ & ps & _ & Hlen & ->).
  destruct (dated_frame_shape _ _ _ _ Hframe) as (Hn & Hv & Hd).
  split; [| split; [exact Hn | exact Hd]].
  destruct (Z.le_gt_cases 1 days) as [|Hlt]; [assumption | exfalso].
  assert (length frame = 0)%nat as H0 by lia.
  unfold autotrain_predict in Hpred. cbv zeta in Hpred.
  destruct (_ <=? window); [discriminate |].
  destruct (fit_transform _) as [[sc' scaled]|]; simpl in Hpred; [| discriminate].
  destruct (make_sequences _ _) as [[sq tg]|]; simpl in Hpred; [| discriminate].
  destruct sq; [discriminate |].
  destruct (reshape_samples _ _); simpl in Hpred; [| discriminate].
  destruct (keras_fit B _ _ _ _ _ _); simpl in Hpred; [| discriminate].
  destruct (autotrain_loop B _ _ _ _ _) as [qs|]; simpl in Hpred; [| discriminate].
  destruct (inverse_transform_f32 _ _) as [out|] eqn:Hi; cbn [bindR] in Hpred;
    [| discriminate].
  injection Hpred as _ _ Hp. apply inverse_transform_f32_inv in Hi as [Hne ->].
  apply (f_equal (@length Q)) in Hv. rewrite length_map, H0 in Hv.
  rewrite <- Hp, !length_map in Hv.
  destruct qs; [now apply Hne | discriminate].
Qed.

(** X1. A frame returned by [forecast_lstm_autotrain] has exactly [days]
    rows, [days] is at least 1, and the k-th row is dated k + 1 days after
    the last row of the input frame (whether or not that row has a close). *)
Theorem autotrain_frame_shape (B : Backend) (data : DataFrame)
    (days window epochs : Z) (learning_rate : Q) (ticker : option string)
    (persist : bool) (st st' : Storage B) (frame : ForecastFrame) :
  forecast_lstm_autotrain B data days window epochs learning_rate ticker
    persist st = (Ok frame, st') ->
  1 <= days
  /\ Z.of_nat (length frame) = days
  /\ exists last_date,
       last (map Date data) = Some last_date
       /\ forall k, (k < length frame)%nat ->
            FDate <$> frame !! k
            = Some (last_date + Timedelta_days (Z.of_nat k + 1)).
Proof. apply autotrain_frame_shape_aux. Qed.

Lemma autotrain_frame_shape_witness :
  1 <= 2
  /\ Z.of_nat (length
        [{| FDate := 259200000000000; Forecast := 203 # 2 |};
         {| FDate := 345600000000000; Forecast := 203 # 2 |}]) = 2
  /\ exists last_date,
       last (map Date (daily 0 [100; 101; 103]%Q)) = Some last_date
       /\ forall k,
            (k < length
               [{| FDate := 259200000000000; Forecast := 203 # 2 |};
                {| FDate := 345600000000000; Forecast := 203 # 2 |}])%nat ->
            FDate <$> [{| FDate := 259200000000000; Forecast := 203 # 2 |};
                       {| FDate := 345600000000000; Forecast := 203 # 2 |}] !! k
            = Some (last_date + Timedelta_days (Z.of_nat k + 1)).
Proof.
  apply (autotrain_frame_shape (constant_backend (1 # 2) true)
           (daily 0 [100; 101; 103]%Q) 2 2 8 (5 # 10000) None false [] []).
  vm_compute. reflexivity.
Defined.

(** X2. [forecast_lstm_autotrain] writes nothing to the storage root unless
    persistence is requested with a non-empty ticker and the forecast was
    computed: with the flag off, without a ticker, or when training or
    prediction fails, the storage root is left as it was. *)
Theorem autotrain_writes_only_when_persisting (B : Backend) (data : DataFrame)
    (days window epochs : Z) (learning_rate : Q) (ticker : option string)
    (persist : bool) (st : Storage B) :
  (persist = false \/ truthy ticker = false
   \/ exists e, autotrain_predict B data days window epochs learning_rate
                = Raise e) ->
  (forecast_lstm_autotrain B data days window epochs learning_rate ticker
     persist st).2 = st.
Proof.
  unfold forecast_lstm_autotrain, bindM, pureM, retM.
  intros [-> | [Ht | [e ->]]].
  - destruct (autotrain_predict _ _ _ _ _ _) as [[[m sc] ps]|]; [| reflexivity].
    destruct ticker; reflexivity.
  - destruct (autotrain_predict _ _ _ _ _ _) as [[[m sc] ps]|]; [| reflexivity].
    destruct ticker; [| reflexivity]. rewrite Ht, andb_false_r. reflexivity.
  - reflexivity.
Qed.

Lemma autotrain_writes_only_when_persisting_witness :
  (forecast_lstm_autotrain (constant_backend (1 # 2) true)
     (daily 0 [100]%Q) 1 5 8 (5 # 10000) (Some "AAPL"%string) true []).2 = [].
Proof.
  apply (autotrain_writes_only_when_persisting (constant_backend (1 # 2) true)
           (daily 0 [100]%Q) 1 5 8 (5 # 10000) (Some "AAPL"%string) true []).
  right. right. eexists. reflexivity.
Defined.

Section InferenceFacts.

Variable B : Backend.

Lemma inference_loop_length (model : Model B) (window : Z) (n : nat) :
  forall history preds out,
    inference_loop B model window n history preds = Ok out ->
    length out = (length preds + n)%nat.
Proof.
  induction n as [|n IH]; intros history preds out; simpl.
  - intros [= <-]. lia.
  - destruct (reshape_window _ _) as [ws|]; simpl; [| discriminate].
    destruct (keras_predict B model ws) as [p|]; simpl; [| discriminate].
    intros H. apply IH in H. rewrite length_app in H. simpl in H. lia.
Qed.

Lemma inference_loop_raise (model : Model B) (window : Z) (n : nat) (e : Exc) :
  forall history preds,
    inference_loop B model window n history preds = Raise e ->
    is_library_error e.
Proof.
  induction n as [|n IH]; intros history preds; simpl; [discriminate |].
  unfold reshape_window. destruct (_ || _); simpl; [| raised_by_library].
  destruct (keras_predict B model _) as [p|]; simpl;
    [apply IH | raised_by_library].
Qed.

(** What a successful [forecast_lstm_inference] went through. *)
Lemma forecast_lstm_inference_inv (data : DataFrame)
    (model_path scaler_path : string) (days window : Z) (st : Storage B)
    (frame : ForecastFrame) :
  forecast_lstm_inference B data model_path scaler_path days window st
    = Ok frame ->
  path_exists (listing B st) model_path = true
  /\ path_exists (listing B st) scaler_path = true
  /\ window <= Z.of_nat (length (Close_values (dropna_Close data)))
  /\ exists scaler model preds_scaled,
       joblib_load B scaler_path st = Done scaler
       /\ keras_load_model B model_path st = Done model
       /\ length preds_scaled = Z.to_nat days
       /\ preds_scaled <> []
       /\ dated_frame data days (map (inverse_transform1 scaler) preds_scaled)
          = Ok frame.
Proof.
  unfold forecast_lstm_inference.
  destruct (path_exists _ model_path); simpl; [| discriminate].
  destruct (path_exists _ scaler_path); simpl; [| discriminate].
  destruct (Z.ltb_spec (Z.of_nat (length (Close_values (dropna_Close data))))
              window) as [|Hw]; [discriminate |].
  destruct (joblib_load B scaler_path st) as [sc|]; simpl; [| discriminate].
  destruct (transform sc _) as [scaled|]; simpl; [| discriminate].
  destruct (keras_load_model B model_path st) as [m|]; simpl; [| discriminate].
  destruct (inference_loop B m window _ scaled []) as [ps|] eqn:Hloop; simpl;
    [| discriminate].
  destruct (inverse_transform sc ps) as [out|] eqn:Hi; simpl; [| discriminate].
  apply inverse_transform_inv in Hi as [Hne ->].
  intros H. repeat split; try lia.
  exists sc, m, ps. repeat split; try assumption.
  apply inference_loop_length in Hloop. simpl in Hloop. exact Hloop.
Qed.

(** After its three guards [forecast_lstm_inference] only fails inside a
    library. *)
Lemma forecast_lstm_inference_raise (data : DataFrame)
    (model_path scaler_path : string) (days window : Z) (st : Storage B)
    (e : Exc) :
  forecast_lstm_inference B data model_path scaler_path days window st
    = Raise e ->
  (path_exists (listing B st) model_path = false
   /\ e = FileNotFoundError ("Model file not found: " +:+ model_path))
  \/ (path_exists (listing B st) model_path = true
      /\ path_exists (listing B st) scaler_path = false
      /\ e = FileNotFoundError ("Scaler file not found: " +:+ scaler_path))
  \/ (path_exists (listing B st) model_path = true
      /\ path_exists (listing B st) scaler_path = true
      /\ Z.of_nat (length (Close_values (dropna_Close data))) < window
      /\ e = ValueError not_enough_infer_msg)
  \/ (path_exists (listing B st) model_path = true
      /\ path_exists (listing B st) scaler_path = true
      /\ window <= Z.of_nat (length (Close_values (dropna_Close data)))
      /\ is_library_error e).
Proof.
  unfold forecast_lstm_inference.
  destruct (path_exists _ model_path); simpl;
    [| intros [= <-]; left; now split].
  destruct (path_exists _ scaler_path); simpl;
    [| intros [= <-]; right; left; now repeat split].
  destruct (Z.ltb_spec (Z.of_nat (length (Close_values (dropna_Close data))))
              window) as [Hw|Hw].
  { intros [= <-]. right. right. left. now repeat split. }
  intros H. right. right. right. repeat split; try assumption. revert H.
  destruct (joblib_load B scaler_path st) as [sc|]; simpl;
    [| raised_by_library].
  destruct (transform sc _) as [scaled|] eqn:Ht; simpl.
  2:{ destruct (Close_values _); simpl in Ht; [| discriminate].
      injection Ht as <-. raised_by_library. }
  destruct (keras_load_model B model_path st) as [m|]; simpl;
    [| raised_by_library].
  destruct (inference_loop B m window _ scaled []) as [ps|] eqn:Hloop; simpl;
    [| intros [= <-]; exact (inference_loop_raise _ _ _ _ _ _ Hloop)].
  destruct ps; simpl; [raised_by_library |].
  apply dated_frame_raise.
Qed.

End InferenceFacts.

Lemma inference_frame_shape_aux (B : Backend) (data : DataFrame)
    (model_path scaler_path : string) (days window : Z) (st : Storage B)
    (frame : ForecastFrame) :
  forecast_lstm_inference B data model_path scaler_path days window st
    = Ok frame ->
  1 <= days
  /\ Z.of_nat (length frame) = days
  /\ (exists last_date,
        last (map Date data) = Some last_date
        /\ forall k, (k < length frame)%nat ->
             FDate <$> frame !! k
             = Some (last_date + Timedelta_days (Z.of_nat k + 1)))
  /\ exists scaler preds_scaled,
       joblib_load B scaler_path st = Done scaler
       /\ map Forecast frame = map (inverse_transform1 scaler) preds_scaled.
Proof.
  intros H.
  destruct (forecast_lstm_inference_inv B _ _ _ _ _ _ _ H)
    as (_ & _ & _ & sc & m & ps & Hsc & _ & Hlen & Hne & Hframe).
  destruct (dated_frame_shape _ _ _ _ Hframe) as (Hn & Hv & Hd).
  split.
  { destruct ps; [congruence |]. simpl in Hlen. lia. }
  split; [exact Hn |]. split; [exact Hd |].
  exists sc, ps. split; assumption.
Qed.

(** X3. A frame returned by [forecast_lstm_inference] has exactly [days]
    rows, [days] is at least 1, the k-th row is dated k + 1 days after the
    last row of the input frame, and its values are decoded with the scaler
    loaded from [scaler_path], not with one fitted on the input. *)
Theorem inference_frame_shape (B : Backend) (data : DataFrame)
    (model_path scaler_path : string) (days window : Z) (st : Storage B)
    (frame : ForecastFrame) :
  forecast_lstm_inference B data model_path scaler_path days window st
    = Ok frame ->
  1 <= days
  /\ Z.of_nat (length frame) = days
  /\ (exists last_date,
        last (map Date data) = Some last_date
        /\ forall k, (k < length frame)%nat ->
             FDate <$> frame !! k
             = Some (last_date + Timedelta_days (Z.of_nat k + 1)))
  /\ exists scaler preds_scaled,
       joblib_load B scaler_path st = Done scaler
       /\ map Forecast frame = map (inverse_transform1 scaler) preds_scaled.
Proof. apply inference_frame_shape_aux. Qed.

Lemma inference_frame_shape_witness :
  exists frame,
    forecast_lstm_inference (constant_backend (1 # 2) true)
      (daily 0 [100; 101; 103]%Q) "lstm_AAPL.keras" "scaler_AAPL.save" 2 2
      ["lstm_AAPL.keras"; "scaler_AAPL.save"]%string = Ok frame
    /\ Z.of_nat (length frame) = 2.
Proof.
  eexists. split; [vm_compute; reflexivity |].
  apply (inference_frame_shape (constant_backend (1 # 2) true)
           (daily 0 [100; 101; 103]%Q) "lstm_AAPL.keras" "scaler_AAPL.save" 2 2
           ["lstm_AAPL.keras"; "scaler_AAPL.save"]%string).
  vm_compute. reflexivity.
Defined.

(** X4. [forecast_lstm_inference] checks the model file first, then the
    scaler file, then the length of the series: it raises its model-not-found
    error exactly when the model path does not exist, its scaler-not-found
    error exactly when the model exists and the scaler path does not, and
    its not-enough-data error exactly when both exist and the series has
    fewer than [window] usable closes. *)
Theorem inference_guard_errors (B : Backend) (data : DataFrame)
    (model_path scaler_path : string) (days window : Z) (st : Storage B) :
  let run :=
    forecast_lstm_inference B data model_path scaler_path days window st in
  let n := Z.of_nat (length (Close_values (dropna_Close data))) in
  (run = Raise (FileNotFoundError ("Model file not found: " +:+ model_path))
   <-> path_exists (listing B st) model_path = false)
  /\ (run = Raise (FileNotFoundError ("Scaler file not found: " +:+ scaler_path))
      <-> path_exists (listing B st) model_path = true
          /\ path_exists (listing B st) scaler_path = false)
  /\ (run = Raise (ValueError not_enough_infer_msg)
      <-> path_exists (listing B st) model_path = true
          /\ path_exists (listing B st) scaler_path = true
          /\ n < window).
Proof.
  cbv zeta. split; [| split]; split.
  - intros H.
    apply forecast_lstm_inference_raise in H
      as [[H _] | [(_ & _ & H) | [(_ & _ & _ & H) | (_ & _ & _ & [m H])]]];
      [exact H | | | ]; discriminate.
  - intros H. unfold forecast_lstm_inference. now rewrite H.
  - intros H.
    apply forecast_lstm_inference_raise in H
      as [[_ H] | [(H1 & H2 & _) | [(_ & _ & _ & H) | (_ & _ & _ & [m H])]]];
      [discriminate | now split | discriminate | discriminate].
  - intros [H1 H2]. unfold forecast_lstm_inference. now rewrite H1, H2.
  - intros H.
    apply forecast_lstm_inference_raise in H
      as [[_ H] | [(_ & _ & H) | [(H1 & H2 & H3 & _) | (_ & _ & _ & [m H])]]];
      [discriminate | discriminate | now repeat split | discriminate].
  - intros (H1 & H2 & H3). unfold forecast_lstm_inference.
    rewrite H1, H2. simpl. apply Z.ltb_lt in H3. now rewrite H3.
Qed.

(* ===================================================================== *)
(** * Strings *)
(* ===================================================================== *)

Lemma filter_string_forallb (p : ascii -> bool) (s : string) :
  string_forallb p (filter_string p s) = true.
Proof.
  induction s as [|c s IH]; simpl; [reflexivity |].
  destruct (p c) eqn:E; simpl; [now rewrite E | exact IH].
Qed.

Lemma filter_string_id (p : ascii -> bool) (s : string) :
  string_forallb p s = true -> filter_string p s = s.
Proof.
  induction s as [|c s IH]; simpl; [reflexivity |].
  intros H. apply andb_true_iff in H as [Hc Hs]. now rewrite Hc, IH.
Qed.

Lemma ascii_upper_AZ09 (c : ascii) : is_AZ09 c = true -> ascii_upper c = c.
Proof.
  destruct c as [[] [] [] [] [] [] [] []]; vm_compute;
    intros H; try reflexivity; discriminate H.
Qed.

Lemma py_upper_AZ09 (s : string) :
  string_forallb is_AZ09 s = true -> py_upper s = s.
Proof.
  induction s as [|c s IH]; simpl; [reflexivity |].
  intros H. apply andb_true_iff in H as [Hc Hs].
  unfold py_upper in *. simpl. now rewrite (ascii_upper_AZ09 c Hc), IH.
Qed.


Lemma prefix_forallb (q : ascii -> bool) (p s : string) :
  String.prefix p s = true ->
  string_forallb q s = true -> string_forallb q p = true.
Proof.
  revert s. induction p as [|c p IH]; intros s; [reflexivity |].
  destruct s as [|d s]; simpl; [discriminate |].
  destruct (ascii_dec c d) as [<- |]; [| discriminate].
  intros Hp H. apply andb_true_iff in H as [Hc Hs].
  rewrite Hc. simpl. exact (IH s Hp Hs).
Qed.





Lemma list_ascii_of_string_app (a b : string) :
  list_ascii_of_string (a +:+ b)
  = list_ascii_of_string a ++ list_ascii_of_string b.
Proof. induction a as [|c a IH]; simpl; [reflexivity | now rewrite IH]. Qed.

Lemma string_of_list_ascii_app (l1 l2 : list ascii) :
  string_of_list_ascii (l1 ++ l2)
  = string_of_list_ascii l1 +:+ string_of_list_ascii l2.
Proof. induction l1 as [|c l1 IH]; simpl; [reflexivity | now rewrite IH]. Qed.

Lemma string_rev_app (a b : string) :
  string_rev (a +:+ b) = string_rev b +:+ string_rev a.
Proof.
  unfold string_rev.
  now rewrite list_ascii_of_string_app, rev_app_distr, string_of_list_ascii_app.
Qed.





(* ===================================================================== *)
(** * Further properties of the model catalog *)
(* ===================================================================== *)

Lemma _normalise_ticker_from_stem_key (s t : string) :
  _normalise_ticker_from_stem s = Some t -> catalog_key t.
Proof.
  unfold _normalise_ticker_from_stem, catalog_key.
  set (cleaned := fold_left _ _ _).
  pose proof (filter_string_forallb is_AZ09 cleaned) as H.
  destruct (filter_string is_AZ09 cleaned) eqn:E; [discriminate |].
  intros [= <-]. split; [discriminate | exact H].
Qed.

Lemma no_prefix_of_key (p t : string) :
  string_forallb is_AZ09 p = false ->
  string_forallb is_AZ09 t = true ->
  startswith p t = false.
Proof.
  intros Hp Ht. unfold startswith.
  destruct (String.prefix p t) eqn:E; [| reflexivity].
  rewrite (prefix_forallb is_AZ09 p t E Ht) in Hp. discriminate.
Qed.

Lemma _normalise_ticker_from_stem_fixed (t : string) :
  catalog_key t -> _normalise_ticker_from_stem t = Some t.
Proof.
  intros [Hne Ht]. unfold _normalise_ticker_from_stem.
  rewrite (py_upper_AZ09 t Ht). simpl.
  rewrite !(no_prefix_of_key _ t) by (reflexivity || exact Ht).
  rewrite (filter_string_id _ _ Ht).
  destruct t; [congruence | reflexivity].
Qed.

(** X6. [_normalise_ticker_from_stem] returns exactly the non-empty strings
    of capitals and digits, and returns each of them unchanged: a result is
    such a string, and on such a string the function is the identity. *)
Theorem normalised_tickers (t : string) :
  ((exists s, _normalise_ticker_from_stem s = Some t) <-> catalog_key t)
  /\ (catalog_key t <-> _normalise_ticker_from_stem t = Some t).
Proof.
  split; split.
  - intros [s H]. exact (_normalise_ticker_from_stem_key s t H).
  - intros H. exists t. exact (_normalise_ticker_from_stem_fixed t H).
  - exact (_normalise_ticker_from_stem_fixed t).
  - exact (_normalise_ticker_from_stem_key t t).
Qed.

Lemma elem_of_model_files (names : list string) (f : string) :
  f ∈ model_files names
  <-> f ∈ names /\ (endswith ".keras" f = true \/ endswith ".h5" f = true).
Proof.
  unfold model_files, glob_suffix.
  rewrite elem_of_app, !list_elem_of_In, !filter_In. tauto.
Qed.

Lemma catalog_entries_usable_aux (names : list string) (t : string)
    (e : CatalogEntry) :
  list_available_models (Some names) !! t = Some e ->
  catalog_key t
  /\ model e ∈ names
  /\ (endswith ".keras" (model e) = true \/ endswith ".h5" (model e) = true)
  /\ _normalise_ticker_from_stem (stem (model e)) = Some t
  /\ scaler e ∈ names
  /\ scaler e ∈ all_scaler_candidates t.
Proof.
  simpl. intros H.
  apply scan_sound in H as [H | (Hm & Hn & Hs)].
  { rewrite lookup_empty in H. discriminate. }
  apply elem_of_model_files in Hm as [Hm Hsuf].
  destruct (_find_scaler_path_Some _ _ _ Hs) as (pre & post & Hc & Hin & _).
  split; [exact (_normalise_ticker_from_stem_key _ _ Hn) |].
  repeat split; try assumption.
  rewrite Hc. apply elem_of_app. right. left.
Qed.

(** X7. Every entry of the catalog is usable: its key is a non-empty string
    of capitals and digits; its model is a file of the directory that ends in
    .keras or .h5 and whose stem normalises to the key; its scaler is a file
    of the directory and one of the recognised scaler names of the key.  A
    storage root that is not a directory gives the empty catalog. *)
Theorem catalog_entries_usable (names : list string) (t : string)
    (e : CatalogEntry) :
  list_available_models None = ∅
  /\ (list_available_models (Some names) !! t = Some e ->
      catalog_key t
      /\ model e ∈ names
      /\ (endswith ".keras" (model e) = true \/ endswith ".h5" (model e) = true)
      /\ _normalise_ticker_from_stem (stem (model e)) = Some t
      /\ scaler e ∈ names
      /\ scaler e ∈ all_scaler_candidates t).
Proof. split; [reflexivity | apply catalog_entries_usable_aux]. Qed.

(* ===================================================================== *)
(** * The paths through get_forecast *)
(* ===================================================================== *)

Section ForecastPaths.

Variable B : Backend.
Variables (ticker : string) (days window : Z) (r0 : Row) (data0 : DataFrame).
Variable w : World B.

Local Abbreviation data := (r0 :: data0).
Local Abbreviation t := (py_upper (py_strip ticker)).
Local Abbreviation train :=
  (forecast_lstm_autotrain B data days window 8 (5 # 10000) (Some t) true
     (storage B w)).
Local Abbreviation run :=
  (get_forecast B ticker days true window (Some data) w).

Ltac enter_sequence_block Htrain :=
  unfold get_forecast, sequence_block, call_autotrain, logged;
  cbn [storage trace]; rewrite Htrain; cbv zeta; cbn [storage trace].

(** Training succeeded. *)
Lemma get_forecast_trained (df : ForecastFrame) (st1 : Storage B) :
  train = (Ok df, st1) ->
  run = (Ok (response ticker days data "lstm" df None),
         Build_World B st1 (trace B w ++ [TierTrain])).
Proof.
  intros Htrain. enter_sequence_block Htrain. reflexivity.
Qed.

(** Training failed and the re-scanned catalog has no entry for the
    ticker. *)
Lemma get_forecast_no_entry (e : Exc) (st1 : Storage B) :
  train = (Raise e, st1) ->
  list_available_models (listing B st1) !! t = None ->
  run = (linear_response ticker days data
           (fallback_note (str_exc e)
              (Some ("LSTM training unavailable: " +:+ str_exc e)%string)),
         Build_World B st1 (trace B w ++ [TierTrain; TierLinear])).
Proof.
  intros Htrain Hcat. enter_sequence_block Htrain. rewrite Hcat.
  unfold fallback_block. cbn [forecast_df model_catalog andb train_error note].
  rewrite Hcat, bool_decide_eq_false_2 by (intros [? ?]; discriminate).
  cbn [forecast_df]. unfold call_linear, linear_response, logged.
  cbn [storage trace]. rewrite <- app_assoc. unfold fallback_note.
  destruct (forecast_linear data days); destruct (str_exc e); reflexivity.
Qed.

(** Training failed, the catalog has an entry and the cached model
    answered. *)
Lemma get_forecast_cached (e : Exc) (st1 : Storage B) (entry : CatalogEntry)
    (mp sp : string) (df : ForecastFrame) :
  train = (Raise e, st1) ->
  list_available_models (listing B st1) !! t = Some entry ->
  load_lstm_artifacts t (list_available_models (listing B st1)) = Ok (mp, sp) ->
  forecast_lstm_inference B data mp sp days window (others B st1) = Ok df ->
  run = (Ok (response ticker days data "lstm" df
               (Some ("Used cached LSTM due to training fallback: "
                      +:+ str_exc e)%string)),
         Build_World B (others B st1) (trace B w ++ [TierTrain; TierCached])).
Proof.
  intros Htrain Hcat Hload Hinf. enter_sequence_block Htrain. rewrite Hcat.
  unfold cached_attempt, call_inference, logged. rewrite Hload.
  cbn [storage trace]. rewrite Hinf.
  unfold fallback_block. cbn [forecast_df]. rewrite <- app_assoc.
  reflexivity.
Qed.

(** Training failed, the catalog has an entry, the cached model failed and
    answered when called again. *)
Lemma get_forecast_cached_retry (e : Exc) (st1 : Storage B)
    (entry : CatalogEntry) (mp sp : string) (exc : Exc) (df : ForecastFrame) :
  train = (Raise e, st1) ->
  list_available_models (listing B st1) !! t = Some entry ->
  load_lstm_artifacts t (list_available_models (listing B st1)) = Ok (mp, sp) ->
  forecast_lstm_inference B data mp sp days window (others B st1) = Raise exc ->
  forecast_lstm_inference B data mp sp days window (others B (others B st1))
    = Ok df ->
  run = (Ok (response ticker days data "lstm" df None),
         Build_World B (others B (others B st1))
           (trace B w ++ [TierTrain; TierCached; TierCached])).
Proof.
  intros Htrain Hcat Hload Hinf Hinf'. enter_sequence_block Htrain. rewrite Hcat.
  unfold cached_attempt, call_inference, logged. rewrite Hload.
  cbn [storage trace]. rewrite Hinf.
  unfold fallback_block. cbn [forecast_df model_catalog andb train_error note].
  rewrite Hcat, bool_decide_eq_true_2 by eauto.
  unfold cached_attempt, call_inference, logged.
  rewrite Hload. cbn [storage trace]. rewrite Hinf'.
  cbn [forecast_df source note]. rewrite <- !app_assoc. reflexivity.
Qed.

(** Training failed, the catalog has an entry and the cached model failed
    twice: the linear tier runs. *)
Lemma get_forecast_cached_failed (e : Exc) (st1 : Storage B)
    (entry : CatalogEntry) (mp sp : string) (exc exc' : Exc) :
  train = (Raise e, st1) ->
  list_available_models (listing B st1) !! t = Some entry ->
  load_lstm_artifacts t (list_available_models (listing B st1)) = Ok (mp, sp) ->
  forecast_lstm_inference B data mp sp days window (others B st1) = Raise exc ->
  forecast_lstm_inference B data mp sp days window (others B (others B st1))
    = Raise exc' ->
  run = (linear_response ticker days data
           (fallback_note (twice_failed_text e exc exc') None),
         Build_World B (others B (others B st1))
           (trace B w ++ [TierTrain; TierCached; TierCached; TierLinear])).
Proof.
  intros Htrain Hcat Hload Hinf Hinf'. enter_sequence_block Htrain. rewrite Hcat.
  unfold cached_attempt, call_inference, logged. rewrite Hload.
  cbn [storage trace]. rewrite Hinf.
  unfold fallback_block. cbn [forecast_df model_catalog andb train_error note].
  rewrite Hcat, bool_decide_eq_true_2 by eauto.
  unfold cached_attempt, call_inference, logged.
  rewrite Hload. cbn [storage trace]. rewrite Hinf'.
  cbn [forecast_df train_error note]. unfold call_linear, linear_response, logged.
  cbn [storage trace]. rewrite <- !app_assoc.
  unfold fallback_note, twice_failed_text.
  match goal with
  | |- context [py_strip_chars ?cs ?x] => generalize (py_strip_chars cs x)
  end.
  intros te. destruct (forecast_linear data days); destruct te; reflexivity.
Qed.

(** Training failed, the catalog has an entry under the ticker, and the
    lookup of the ticker cleaned once more finds none: no cached call. *)
Lemma get_forecast_lookup_failed (e : Exc) (st1 : Storage B)
    (entry : CatalogEntry) (exc : Exc) :
  train = (Raise e, st1) ->
  list_available_models (listing B st1) !! t = Some entry ->
  load_lstm_artifacts t (list_available_models (listing B st1)) = Raise exc ->
  run = (linear_response ticker days data
           (fallback_note (twice_failed_text e exc exc) None),
         Build_World B st1 (trace B w ++ [TierTrain; TierLinear])).
Proof.
  intros Htrain Hcat Hload. enter_sequence_block Htrain. rewrite Hcat.
  unfold cached_attempt. rewrite Hload.
  unfold fallback_block. cbn [forecast_df model_catalog andb train_error note].
  rewrite Hcat, bool_decide_eq_true_2 by eauto.
  unfold cached_attempt. rewrite Hload.
  cbn [forecast_df train_error note]. unfold call_linear, linear_response, logged.
  cbn [storage trace]. rewrite <- !app_assoc.
  unfold fallback_note, twice_failed_text.
  match goal with
  | |- context [py_strip_chars ?cs ?x] => generalize (py_strip_chars cs x)
  end.
  intros te. destruct (forecast_linear data days); destruct te; reflexivity.
Qed.

End ForecastPaths.

Ltac forecast_paths B ticker days window r0 data0 w :=
  let df := fresh "df" in
  let e := fresh "e" in
  let st1 := fresh "st1" in
  let Htrain := fresh "Htrain" in
  let entry := fresh "entry" in
  let Hcat := fresh "Hcat" in
  let mp := fresh "mp" in
  let sp := fresh "sp" in
  let exc := fresh "exc" in
  let exc' := fresh "exc'" in
  let Hload := fresh "Hload" in
  let Hinf := fresh "Hinf" in
  let Hinf' := fresh "Hinf'" in
  destruct (forecast_lstm_autotrain B (r0 :: data0) days window 8 (5 # 10000)
              (Some (py_upper (py_strip ticker))) true (storage B w))
    as [[df|e] st1] eqn:Htrain;
  [ rewrite (get_forecast_trained B ticker days window r0 data0 w df st1 Htrain)
  | destruct (list_available_models (listing B st1)
                !! py_upper (py_strip ticker)) as [entry|] eqn:Hcat;
    [ destruct (load_lstm_artifacts (py_upper (py_strip ticker))
                  (list_available_models (listing B st1)))
        as [[mp sp]|exc] eqn:Hload;
      [ destruct (forecast_lstm_inference B (r0 :: data0) mp sp days window
                    (others B st1))
          as [df|exc] eqn:Hinf;
        [ rewrite (get_forecast_cached B ticker days window r0 data0 w
                     e st1 entry mp sp df Htrain Hcat Hload Hinf)
        | destruct (forecast_lstm_inference B (r0 :: data0) mp sp days window
                      (others B (others B st1)))
            as [df|exc'] eqn:Hinf';
          [ rewrite (get_forecast_cached_retry B ticker days window r0 data0 w
                       e st1 entry mp sp exc df Htrain Hcat Hload Hinf Hinf')
          | rewrite (get_forecast_cached_failed B ticker days window r0 data0 w
                       e st1 entry mp sp exc exc' Htrain Hcat Hload Hinf
                       Hinf') ] ]
      | rewrite (get_forecast_lookup_failed B ticker days window r0 data0 w
                   e st1 entry exc Htrain Hcat Hload) ]
    | rewrite (get_forecast_no_entry B ticker days window r0 data0 w
                 e st1 Htrain Hcat) ] ].


Lemma linear_only_response (B : Backend) (ticker : string) (days window : Z)
    (r0 : Row) (data0 : DataFrame) (w : World B) :
  get_forecast B ticker days false window (Some (r0 :: data0)) w
  = (linear_response ticker days (r0 :: data0) None, logged B TierLinear w).
Proof. rewrite get_forecast_linear_only. reflexivity. Qed.

Lemma linear_response_Ok (ticker : string) (days : Z) (data : DataFrame)
    (nt : option string) (resp : ForecastResponse) :
  linear_response ticker days data nt = Ok resp ->
  exists df, forecast_linear data days = Ok df
             /\ resp = response ticker days data "linear" df nt.
Proof.
  unfold linear_response. destruct (forecast_linear data days) as [df|];
    [| discriminate].
  intros [= <-]. now exists df.
Qed.

Lemma forecast_linear_length (data : DataFrame) (days : Z)
    (frame : ForecastFrame) :
  forecast_linear data days = Ok frame -> Z.of_nat (length frame) = days.
Proof.
  unfold forecast_linear. destruct data as [|r0 data0]; [discriminate |].
  destruct (match Close_values _ with [c] => _ | _ => _ end) as [[sl ic]|];
    simpl; [| discriminate].
  destruct (iloc_last _) as [d|]; simpl; [| discriminate].
  unfold date_range. destruct (Z.ltb_spec days 0) as [|Hd]; simpl;
    [discriminate |].
  intros H. apply make_frame_inv in H as [H _].
  apply (f_equal (@length Z)) in H.
  rewrite !length_map, py_range_length in H. lia.
Qed.


(* ===================================================================== *)
(** * Further properties of get_forecast *)
(* ===================================================================== *)

Lemma forecast_origin (B : Backend) (ticker : string) (days : Z)
    (use_lstm : bool) (window : Z) (loaded : option DataFrame) (w : World B)
    (resp : ForecastResponse) :
  (get_forecast B ticker days use_lstm window loaded w).1 = Ok resp ->
  exists data,
    loaded = Some data
    /\ ((r_source resp = "linear"%string
         /\ last (trace B (get_forecast B ticker days use_lstm window loaded w).2)
            = Some TierLinear
         /\ forecast_linear data days = Ok (r_forecast resp))
        \/ (r_source resp = "lstm"%string
            /\ last (trace B
                       (get_forecast B ticker days use_lstm window loaded w).2)
               = Some TierTrain
            /\ (forecast_lstm_autotrain B data days window 8 (5 # 10000)
                  (Some (py_upper (py_strip ticker))) true (storage B w)).1
               = Ok (r_forecast resp))
        \/ (r_source resp = "lstm"%string
            /\ last (trace B
                       (get_forecast B ticker days use_lstm window loaded w).2)
               = Some TierCached
            /\ exists mp sp,
                 forecast_lstm_inference B data mp sp days window
                   (storage B
                      (get_forecast B ticker days use_lstm window loaded w).2)
                 = Ok (r_forecast resp))).
Proof.
  destruct loaded as [[|r0 data0]|]; [discriminate | | discriminate].
  intros H. exists (r0 :: data0). split; [reflexivity |]. revert H.
  destruct use_lstm.
  2:{ rewrite linear_only_response. cbn [fst snd logged trace].
      intros H. apply linear_response_Ok in H as (df & Hdf & ->).
      left. rewrite last_snoc. now repeat split. }
  forecast_paths B ticker days window r0 data0 w; cbn [fst snd trace storage].
  - intros [= <-]. right. left. rewrite last_snoc. now repeat split.
  - intros [= <-]. right. right.
    rewrite (last_app _ [TierTrain; TierCached]). split; [reflexivity |].
    split; [reflexivity |]. now exists mp, sp.
  - intros [= <-]. right. right.
    rewrite (last_app _ [TierTrain; TierCached; TierCached]).
    split; [reflexivity |]. split; [reflexivity |]. now exists mp, sp.
  - intros H. apply linear_response_Ok in H as (df & Hdf & ->).
    left. rewrite (last_app _ [TierTrain; TierCached; TierCached; TierLinear]).
    now repeat split.
  - intros H. apply linear_response_Ok in H as (df & Hdf & ->).
    left. rewrite (last_app _ [TierTrain; TierLinear]). now repeat split.
  - intros H. apply linear_response_Ok in H as (df & Hdf & ->).
    left. rewrite (last_app _ [TierTrain; TierLinear]). now repeat split.
Qed.

(** X8. The source of a response names the tier that produced its forecast.
    "linear": the last tier called is [forecast_linear] and the forecast is
    its result.  "lstm": the last tier called is either training, and the
    forecast is what [forecast_lstm_autotrain] returned, or the cached model,
    and the forecast is what [forecast_lstm_inference] returned on the
    storage root as its last call found it. *)
Theorem source_names_the_tier (B : Backend) (ticker : string) (days : Z)
    (use_lstm : bool) (window : Z) (loaded : option DataFrame) (w : World B)
    (resp : ForecastResponse) :
  (get_forecast B ticker days use_lstm window loaded w).1 = Ok resp ->
  exists data,
    loaded = Some data
    /\ ((r_source resp = "linear"%string
         /\ last (trace B (get_forecast B ticker days use_lstm window loaded w).2)
            = Some TierLinear
         /\ forecast_linear data days = Ok (r_forecast resp))
        \/ (r_source resp = "lstm"%string
            /\ last (trace B
                       (get_forecast B ticker days use_lstm window loaded w).2)
               = Some TierTrain
            /\ (forecast_lstm_autotrain B data days window 8 (5 # 10000)
                  (Some (py_upper (py_strip ticker))) true (storage B w)).1
               = Ok (r_forecast resp))
        \/ (r_source resp = "lstm"%string
            /\ last (trace B
                       (get_forecast B ticker days use_lstm window loaded w).2)
               = Some TierCached
            /\ exists mp sp,
                 forecast_lstm_inference B data mp sp days window
                   (storage B
                      (get_forecast B ticker days use_lstm window loaded w).2)
                 = Ok (r_forecast resp))).
Proof. apply forecast_origin. Qed.

Lemma source_names_the_tier_witness :
  exists resp data,
    (get_forecast (constant_backend (1 # 2) true) "aapl" 2 true 2
       (Some (daily 0 [100; 101; 103]%Q)) (fresh_world (1 # 2) true [])).1
      = Ok resp
    /\ Some (daily 0 [100; 101; 103]%Q) = Some data
    /\ r_source resp = "lstm"%string.
Proof.
  eexists. 
  destruct (source_names_the_tier (constant_backend (1 # 2) true) "aapl" 2 true 2
              (Some (daily 0 [100; 101; 103]%Q)) (fresh_world (1 # 2) true [])
              _ ltac:(vm_compute; reflexivity)) as (data & Hd & _).
  exists data. split; [vm_compute; reflexivity |].
  split; [exact Hd | reflexivity].
Defined.



Lemma string_forallb_app (p : ascii -> bool) (a b : string) :
  string_forallb p (a +:+ b) = string_forallb p a && string_forallb p b.
Proof.
  induction a as [|c a IH]; simpl; [reflexivity |].
  now rewrite IH, andb_assoc.
Qed.

Lemma string_rev_cons (c : ascii) (s : string) :
  string_rev (String c s) = string_rev s +:+ String c EmptyString.
Proof. exact (string_rev_app (String c EmptyString) s). Qed.

Lemma string_forallb_rev (p : ascii -> bool) (s : string) :
  string_forallb p (string_rev s) = string_forallb p s.
Proof.
  induction s as [|c s IH]; [reflexivity |].
  rewrite string_rev_cons, string_forallb_app, IH. simpl.
  rewrite andb_true_r. apply andb_comm.
Qed.

Lemma string_rev_empty (s : string) : string_rev s = EmptyString -> s = EmptyString.
Proof.
  destruct s as [|c s]; [reflexivity |].
  rewrite string_rev_cons. destruct (string_rev s); discriminate.
Qed.

Lemma lstrip_with_empty (p : ascii -> bool) (s : string) :
  lstrip_with p s = EmptyString -> string_forallb p s = true.
Proof.
  induction s as [|c s IH]; simpl; [reflexivity |].
  destruct (p c); [exact IH | discriminate].
Qed.

Lemma lstrip_with_forallb (p : ascii -> bool) (s : string) :
  string_forallb p (lstrip_with p s) = true -> string_forallb p s = true.
Proof.
  induction s as [|c s IH]; simpl; [reflexivity |].
  destruct (p c) eqn:E; simpl; [exact IH |].
  rewrite E. discriminate.
Qed.

(** Stripping leaves something of a string that holds a character outside
    the stripped set. *)
Lemma strip_with_nonempty (p : ascii -> bool) (s : string) :
  string_forallb p s = false -> strip_with p s <> EmptyString.
Proof.
  intros H E. unfold strip_with in E.
  apply string_rev_empty, lstrip_with_empty in E.
  rewrite string_forallb_rev in E. apply lstrip_with_forallb in E.
  congruence.
Qed.

Lemma twice_failed_text_truthy (train_exc exc exc' : Exc) :
  truthy (Some (twice_failed_text train_exc exc exc')) = true.
Proof.
  unfold twice_failed_text, py_strip_chars.
  match goal with
  | |- truthy (Some (strip_with ?p ?s)) = true =>
      pose proof (strip_with_nonempty p s) as H;
      destruct (strip_with p s); [| reflexivity]
  end.
  exfalso. apply H; [| reflexivity].
  rewrite !string_forallb_app.
  match goal with
  | |- _ && (?b && _) = false => replace b with false by (vm_compute; reflexivity)
  end.
  now rewrite andb_false_r.
Qed.

(** X10. The note of a response is absent in exactly three cases: the
    sequence model was not requested; training succeeded; or training
    failed, the first call of the cached model failed and the second call
    answered.  Every other response after a failed training, from the first
    call of the cached model or from the linear fallback, carries a note. *)
Theorem note_absent_exactly (B : Backend) (ticker : string)
    (days : Z) (use_lstm : bool) (window : Z) (data : DataFrame) (w : World B)
    (resp : ForecastResponse) :
  (get_forecast B ticker days use_lstm window (Some data) w).1 = Ok resp ->
  (r_note resp = None
   <-> use_lstm = false
       \/ (exists df,
             (forecast_lstm_autotrain B data days window 8 (5 # 10000)
                (Some (py_upper (py_strip ticker))) true (storage B w)).1
             = Ok df)
       \/ trace B (get_forecast B ticker days use_lstm window (Some data) w).2
          = trace B w ++ [TierTrain; TierCached; TierCached]).
Proof.
  destruct data as [|r0 data0]; [discriminate |].
  destruct use_lstm.
  2:{ rewrite linear_only_response. cbn [fst].
      intros H. apply linear_response_Ok in H as (df & _ & ->). simpl.
      split; auto. }
  assert (Hno : forall (P : Prop) (e : Exc) (tr : list Tier),
            tr <> [TierTrain; TierCached; TierCached] ->
            (true = false
             \/ (exists df : ForecastFrame, (@Raise ForecastFrame e) = Ok df)
             \/ trace B w ++ tr
                = trace B w ++ [TierTrain; TierCached; TierCached])
            -> P).
  { intros P e0 tr Htr [H | [[df H] | H]]; try discriminate.
    apply app_inv_head in H. contradiction. }
  forecast_paths B ticker days window r0 data0 w; cbn [fst snd trace].
  - intros [= <-]. simpl. split; eauto.
  - intros [= <-]. simpl.
    split; [discriminate | apply (Hno _ e); discriminate].
  - intros [= <-]. simpl. split; auto.
  - intros H. apply linear_response_Ok in H as (df & _ & ->). simpl.
    unfold fallback_note. rewrite twice_failed_text_truthy.
    split; [discriminate | apply (Hno _ e); discriminate].
  - intros H. apply linear_response_Ok in H as (df & _ & ->). simpl.
    unfold fallback_note. rewrite twice_failed_text_truthy.
    split; [discriminate | apply (Hno _ e); discriminate].
  - intros H. apply linear_response_Ok in H as (df & _ & ->). simpl.
    unfold fallback_note.
    destruct (truthy (Some (str_exc e)));
      (split; [discriminate | apply (Hno _ e); discriminate]).
Qed.

Lemma note_absent_exactly_witness :
  let out :=
    get_forecast (replayed_backend (1 # 2)) "aapl" 1 true 2
      (Some (daily 0 [100; 101; 103]%Q))
      (Build_World (replayed_backend (1 # 2))
         [["lstm_AAPL.keras"; "scaler_AAPL.save"];
          ["lstm_AAPL.keras"];
          ["lstm_AAPL.keras"; "scaler_AAPL.save"]]%string []) in
  exists resp,
    out.1 = Ok resp
    /\ r_source resp = "lstm"%string
    /\ r_note resp = None
    /\ trace _ (out.2) = [TierTrain; TierCached; TierCached].
Proof.
  cbv zeta. eexists. split; [vm_compute; reflexivity |].
  split; [reflexivity |]. split; [| vm_compute; reflexivity].
  apply (note_absent_exactly (replayed_backend (1 # 2)) "aapl" 1 true 2
           (daily 0 [100; 101; 103]%Q)
           (Build_World (replayed_backend (1 # 2))
              [["lstm_AAPL.keras"; "scaler_AAPL.save"];
               ["lstm_AAPL.keras"];
               ["lstm_AAPL.keras"; "scaler_AAPL.save"]]%string [])).
  - vm_compute. reflexivity.
  - right. right. vm_compute. reflexivity.
Defined.

(** X11. Every response of [get_forecast] carries the cleaned ticker,
    exactly [days] forecast rows, whichever tier made them, and as history
    the last max(days, 120) rows of the loaded data (all of them when there
    are fewer). *)
Theorem response_shape (B : Backend) (ticker : string) (days : Z)
    (use_lstm : bool) (window : Z) (data : DataFrame) (w : World B)
    (resp : ForecastResponse) :
  (get_forecast B ticker days use_lstm window (Some data) w).1 = Ok resp ->
  r_ticker resp = py_upper (py_strip ticker)
  /\ Z.of_nat (length (r_forecast resp)) = days
  /\ r_history resp = skipn (length data - Z.to_nat (Z.max days 120)) data
  /\ length (r_history resp)
     = Nat.min (length data) (Z.to_nat (Z.max days 120)).
Proof.
  intros H.
  assert (Hh : length (py_tail data (Z.max days 120))
               = Nat.min (length data) (Z.to_nat (Z.max days 120))).
  { unfold py_tail. rewrite length_skipn. lia. }
  destruct (forecast_origin B ticker days use_lstm window (Some data) w
              resp H) as (data' & [= <-] & Hsrc).
  assert (Hlen : Z.of_nat (length (r_forecast resp)) = days).
  { destruct Hsrc as [(_ & _ & Hl) | [(_ & _ & Ht) | (_ & _ & mp & sp & Hi)]].
    - exact (forecast_linear_length _ _ _ Hl).
    - destruct (forecast_lstm_autotrain B data days window 8 (5 # 10000) _ true
                  (storage B w)) as [r st1] eqn:E. simpl in Ht. subst r.
      exact (proj1 (proj2 (autotrain_frame_shape_aux B _ _ _ _ _ _ _ _ _ _ E))).
    - exact (proj1 (proj2 (inference_frame_shape_aux B _ _ _ _ _ _ _ Hi))). }
  clear Hsrc. revert H.
  destruct data as [|r0 data0]; [discriminate |].
  assert (Hresp : forall src df nt,
            Ok (response ticker days (r0 :: data0) src df nt) = Ok resp ->
            r_ticker resp = py_upper (py_strip ticker)
            /\ r_history resp
               = skipn (length (r0 :: data0) - Z.to_nat (Z.max days 120))
                   (r0 :: data0)).
  { intros src df nt [= <-]. split; reflexivity. }
  assert (Hlinr : forall nt,
            linear_response ticker days (r0 :: data0) nt = Ok resp ->
            r_ticker resp = py_upper (py_strip ticker)
            /\ r_history resp
               = skipn (length (r0 :: data0) - Z.to_nat (Z.max days 120))
                   (r0 :: data0)).
  { intros nt Hl. apply linear_response_Ok in Hl as (df & _ & ->).
    split; reflexivity. }
  intros H.
  assert (Hth : r_ticker resp = py_upper (py_strip ticker)
                /\ r_history resp
                   = skipn (length (r0 :: data0) - Z.to_nat (Z.max days 120))
                       (r0 :: data0)).
  { revert H. destruct use_lstm.
    2:{ rewrite linear_only_response. apply Hlinr. }
    forecast_paths B ticker days window r0 data0 w; cbn [fst];
      (apply Hresp || apply Hlinr). }
  destruct Hth as [Ht Hhist].
  split; [exact Ht |]. split; [exact Hlen |]. split; [exact Hhist |].
  rewrite Hhist. exact Hh.
Qed.

Lemma response_shape_witness :
  exists resp,
    (get_forecast (constant_backend (1 # 2) true) "aapl" 2 true 2
       (Some (daily 0 [100; 101; 103]%Q)) (fresh_world (1 # 2) true [])).1
      = Ok resp
    /\ Z.of_nat (length (r_forecast resp)) = 2.
Proof.
  eexists. split; [vm_compute; reflexivity |].
  refine (proj1 (proj2 (response_shape (constant_backend (1 # 2) true) "aapl"
                          2 true 2 (daily 0 [100; 101; 103]%Q)
                          (fresh_world (1 # 2) true []) _ _))).
  vm_compute. reflexivity.
Defined.

Lemma catalog_lookup_key (dir : option (list string)) (t : string)
    (e : CatalogEntry) :
  list_available_models dir !! t = Some e -> catalog_key t.
Proof.
  destruct dir as [names|]; simpl.
  - intros H. apply scan_sound in H as [H | (_ & Hn & _)].
    + rewrite lookup_empty in H. discriminate.
    + exact (_normalise_ticker_from_stem_key _ _ Hn).
  - rewrite lookup_empty. discriminate.
Qed.

(** X12. The catalog only has keys of capitals and digits, while
    [get_forecast] looks the ticker up as typed, stripped and upper-cased.
    For a ticker that keeps any other character (a dash, a dot, a caret)
    the lookup finds nothing, whatever the model directory holds, and
    [get_forecast] never calls [forecast_lstm_inference]. *)
Theorem punctuated_ticker_never_cached (B : Backend) (ticker : string)
    (days : Z) (use_lstm : bool) (window : Z) (loaded : option DataFrame)
    (w : World B) :
  string_forallb is_AZ09 (py_upper (py_strip ticker)) = false ->
  (forall dir, list_available_models dir !! py_upper (py_strip ticker) = None)
  /\ exists tr,
       trace B (get_forecast B ticker days use_lstm window loaded w).2
         = trace B w ++ tr
       /\ TierCached ∉ tr.
Proof.
  intros Hbad.
  assert (Hnone : forall dir,
            list_available_models dir !! py_upper (py_strip ticker) = None).
  { intros dir. destruct (_ !! _) as [e|] eqn:E; [| reflexivity].
    apply catalog_lookup_key in E as [_ E]. congruence. }
  split; [exact Hnone |].
  assert (Hnil : exists tr, trace B w = trace B w ++ tr /\ TierCached ∉ tr).
  { exists []. rewrite app_nil_r. split; [reflexivity | apply not_elem_of_nil]. }
  destruct loaded as [[|r0 data0]|]; [exact Hnil | | exact Hnil].
  destruct use_lstm.
  2:{ rewrite linear_only_response. exists [TierLinear].
      split; [reflexivity |]. intros H.
      apply list_elem_of_singleton in H. discriminate. }
  forecast_paths B ticker days window r0 data0 w;
    try (rewrite Hnone in Hcat; discriminate); cbn [snd trace].
  - exists [TierTrain]. split; [reflexivity |]. intros H.
    apply list_elem_of_singleton in H. discriminate.
  - exists [TierTrain; TierLinear]. split; [reflexivity |].
    rewrite !elem_of_cons, elem_of_nil. intros [H | [H | []]]; discriminate.
Qed.

Lemma punctuated_ticker_never_cached_witness :
  (forall dir, list_available_models dir !! py_upper (py_strip "brk-b") = None)
  /\ exists tr,
       trace _ (get_forecast (constant_backend (1 # 2) true) "brk-b" 1 true 5
                  (Some (daily 0 [100; 101; 102; 103; 104; 105; 106]%Q))
                  (fresh_world (1 # 2) true ["lstm_BRK-B.keras"%string])).2
         = [] ++ tr
       /\ TierCached ∉ tr.
Proof.
  exact (punctuated_ticker_never_cached (constant_backend (1 # 2) true)
           "brk-b" 1 true 5
           (Some (daily 0 [100; 101; 102; 103; 104; 105; 106]%Q))
           (fresh_world (1 # 2) true ["lstm_BRK-B.keras"%string]) eq_refl).
Defined.

(** What [forecast_lstm_autotrain] writes for a ticker whose cleaned form has
    a dash is read back by the scan under another key. *)
Example dashed_ticker_scanned_under_other_key :
  map_to_list
    (list_available_models
       (Some ["lstm_BRK-B.keras"; "scaler_BRK-B.save"; "scaler_BRKB.save"]%string))
  = [("BRKB"%string,
      {| model := "lstm_BRK-B.keras"; scaler := "scaler_BRKB.save" |})].
Proof. vm_compute. reflexivity. Qed.

Lemma catalog_key_clean (t : string) :
  catalog_key t -> py_upper t = t.
Proof. intros [_ H]. exact (py_upper_AZ09 t H). Qed.




(** X14. [load_lstm_artifacts] raises its no-saved-model error, naming the
    cleaned ticker, exactly when the catalog has no entry for it.  The paths
    it returns from a scan of the storage root exist there, so
    [forecast_lstm_inference] called with them on that storage root never
    raises a file-not-found error. *)
Theorem catalogued_artifacts_exist (B : Backend) (ticker : string)
    (data : DataFrame) (days window : Z) (st : Storage B) :
  let catalog := list_available_models (listing B st) in
  let t := py_upper (py_strip ticker) in
  (load_lstm_artifacts ticker catalog
     = Raise (FileNotFoundError ("No saved LSTM model for " +:+ t))
   <-> catalog !! t = None)
  /\ (forall mp sp,
        load_lstm_artifacts ticker catalog = Ok (mp, sp) ->
        path_exists (listing B st) mp = true
        /\ path_exists (listing B st) sp = true
        /\ forall msg,
             forecast_lstm_inference B data mp sp days window st
             <> Raise (FileNotFoundError msg)).
Proof.
  cbv zeta. unfold load_lstm_artifacts. split.
  - destruct (_ !! _) as [e|]; split; try discriminate; reflexivity.
  - intros mp sp.
    destruct (_ !! _) as [e|] eqn:E; [| discriminate]. intros [= <- <-].
    assert (Hex : path_exists (listing B st) (model e) = true
                  /\ path_exists (listing B st) (scaler e) = true).
    { destruct (listing B st) as [names|]; simpl in E.
      - destruct (catalog_entries_usable_aux names _ e E)
          as (_ & Hm & _ & _ & Hs & _).
        split; apply path_exists_true; assumption.
      - rewrite lookup_empty in E. discriminate. }
    destruct Hex as [Hm Hs]. split; [exact Hm |]. split; [exact Hs |].
    intros msg H.
    apply forecast_lstm_inference_raise in H
      as [[H _] | [(_ & H & _) | [(_ & _ & _ & H) | (_ & _ & _ & [m H])]]];
      congruence.
Qed.

(* ===================================================================== *)
(** * Further properties of forecast_linear *)
(* ===================================================================== *)

Lemma dropna_Close_idemp (data : DataFrame) :
  dropna_Close (dropna_Close data) = dropna_Close data.
Proof.
  unfold dropna_Close. induction data as [|r data IH]; [reflexivity |].
  destruct (decide (is_Some (Close r))) as [Hr | Hr].
  - rewrite !filter_cons_True by exact Hr. now rewrite IH.
  - rewrite filter_cons_False by exact Hr. exact IH.
Qed.

(** X15. Rows without a close do not influence [forecast_linear]: as long
    as one row has a close, the result on a frame is the result on the frame
    with the rows that lack the close removed. *)
Theorem forecast_linear_ignores_missing (data : DataFrame) (days : Z) :
  dropna_Close data <> [] ->
  forecast_linear data days = forecast_linear (dropna_Close data) days.
Proof.
  intros Hne. unfold forecast_linear. rewrite dropna_Close_idemp.
  destruct data as [|r0 data0]; [now destruct Hne |].
  destruct (dropna_Close (r0 :: data0)) as [|r1 rest]; [now destruct Hne |].
  reflexivity.
Qed.

Lemma forecast_linear_ignores_missing_witness :
  forecast_linear
    [{| Date := 0; Close := Some 100%Q |}; {| Date := 86400000000000; Close := None |}]
    2
  = forecast_linear
      (dropna_Close
         [{| Date := 0; Close := Some 100%Q |};
          {| Date := 86400000000000; Close := None |}]) 2.
Proof.
  apply (forecast_linear_ignores_missing
           [{| Date := 0; Close := Some 100%Q |};
            {| Date := 86400000000000; Close := None |}] 2).
  vm_compute. discriminate.
Defined.

(* ===================================================================== *)
(** * Properties of the request window *)
(* ===================================================================== *)

Lemma _validate_interval_option (interval : string) :
  _validate_interval interval ∈ INTERVAL_OPTIONS.
Proof.
  unfold _validate_interval. case_bool_decide as H; [exact H |].
  unfold INTERVAL_OPTIONS. rewrite !elem_of_cons. auto 10.
Qed.

(** X18. [_validate_interval] always returns one of [INTERVAL_OPTIONS], so
    the span limits [load_data] looks up are: 7 days for 1m, 60 days for 5m,
    15m and 30m, 730 days for 1h, none for 1d, 1wk and 1mo.  The entries of
    [MAX_INTERVAL_SPAN_DAYS] for 2m, 60m and 90m are never consulted. *)
Theorem interval_span_limits (interval : string) :
  let interval_clean := _validate_interval interval in
  interval_clean ∈ INTERVAL_OPTIONS
  /\ (interval_clean ∉ ["2m"; "60m"; "90m"]%string)
  /\ MAX_INTERVAL_SPAN_DAYS !! interval_clean
     = (if bool_decide (interval_clean = "1m"%string) then Some 7
        else if bool_decide (interval_clean ∈ ["5m"; "15m"; "30m"]%string)
             then Some 60
        else if bool_decide (interval_clean = "1h"%string) then Some 730
        else None).
Proof.
  intros iv. pose proof (_validate_interval_option interval) as H.
  fold iv in H. split; [exact H |]. clearbody iv.
  unfold INTERVAL_OPTIONS in H. rewrite !elem_of_cons, elem_of_nil in H.
  destruct H as [-> | [-> | [-> | [-> | [-> | [-> | [-> | [-> | []]]]]]]]];
    (split; [rewrite !elem_of_cons, elem_of_nil; intros [H | [H | [H | []]]];
             discriminate H
            | vm_compute; reflexivity]).
Qed.

Section RequestWindowFacts.

Variable timedelta_of_days : Z -> Outcome Z.
Variable datetime_sub : Z -> Z -> Outcome Z.
Hypothesis Htd : exact_timedelta timedelta_of_days.
Hypothesis Hsub : exact_datetime_sub datetime_sub.

Lemma _resolve_date_range_inv (today : Z) (start end_ : option Z)
    (default_days s e : Z) :
  _resolve_date_range timedelta_of_days datetime_sub today start end_
    default_days = Ok (s, e) ->
  s < e
  /\ e = default today end_
  /\ s = default (e - default_days * day_us) start.
Proof.
  unfold _resolve_date_range.
  destruct start as [s0|]; cbn [bindR default].
  - destruct (Z.leb_spec (default today end_) s0) as [Hle | Hlt];
      destruct end_; cbn [default] in *;
      destruct (_ <=? _) eqn:E; try discriminate; intros [= <- <-];
      apply Z.leb_gt in E; auto.
  - destruct (timedelta_of_days default_days) as [t|] eqn:Et; [| discriminate].
    cbn [lift bindR].
    destruct (datetime_sub _ t) as [r|] eqn:Er; [| discriminate].
    cbn [lift bindR]. apply Htd in Et. apply Hsub in Er. subst t.
    destruct (_ <=? _) eqn:E; [discriminate |]. intros [= <- <-].
    apply Z.leb_gt in E. destruct end_; cbn [default] in *; auto.
Qed.

Lemma _resolve_date_range_default (today : Z) (end_ : option Z)
    (default_days : Z) (msg : string) :
  1 <= default_days ->
  _resolve_date_range timedelta_of_days datetime_sub today None end_
    default_days <> Raise (ValueError msg).
Proof.
  intros Hd. unfold _resolve_date_range.
  destruct (timedelta_of_days default_days) as [t|] eqn:Et; [| discriminate].
  cbn [lift bindR].
  destruct (datetime_sub _ t) as [r|] eqn:Er; [| discriminate].
  cbn [lift bindR]. apply Htd in Et. apply Hsub in Er. subst t r.
  destruct (_ <=? _) eqn:E; [| discriminate].
  apply Z.leb_le in E. unfold day_us in E. lia.
Qed.

Lemma load_data_request_inv (today : Z) (ticker : string)
    (start end_ : option Z) (interval : string) (req : Download) :
  load_data_request timedelta_of_days datetime_sub today ticker start end_
    interval = Ok req ->
  let e := default today end_ in
  let s := default (e - 180 * day_us) start in
  dl_ticker req = py_upper (py_strip ticker)
  /\ dl_interval req = _validate_interval interval
  /\ dl_end req = strftime_Ymd e
  /\ dl_start req
     = strftime_Ymd
         match MAX_INTERVAL_SPAN_DAYS !! _validate_interval interval with
         | Some c => if c * day_us <? e - s then e - c * day_us else s
         | None => s
         end.
Proof.
  intros H e s. unfold load_data_request in H.
  assert (He : match end_ with Some e => e | None => today end = e)
    by (destruct end_; reflexivity).
  rewrite He in H. clear He.
  destruct (match start with Some s => Ok s | None => _ end) as [s1|] eqn:Es;
    [| discriminate].
  cbn [bindR] in H.
  assert (Hs1 : s1 = s).
  { subst s. destruct start as [s0|]; cbn [default].
    - now injection Es as <-.
    - change (default 180 (PRESET_MAP !! "6M"%string)) with 180 in Es.
      destruct (timedelta_of_days 180) as [t|] eqn:Et; [| discriminate].
      cbn [lift bindR] in Es.
      destruct (datetime_sub e t) as [r|] eqn:Er; [| discriminate].
      apply Htd in Et. apply Hsub in Er. injection Es as <-. lia. }
  subst s1. clear Es.
  destruct (MAX_INTERVAL_SPAN_DAYS !! _validate_interval interval) as [c|].
  - destruct (timedelta_of_days c) as [t|] eqn:Et; [| discriminate].
    cbn [lift bindR] in H. apply Htd in Et. subst t.
    destruct (c * day_us <? e - s).
    + destruct (datetime_sub e _) as [r|] eqn:Er; [| discriminate].
      cbn [lift bindR] in H. apply Hsub in Er. subst r.
      injection H as <-. cbn. auto.
    + injection H as <-. cbn. auto.
  - injection H as <-. cbn. auto.
Qed.

End RequestWindowFacts.

Lemma strftime_Ymd_span (s e c : Z) :
  e - s <= c * day_us -> strftime_Ymd e - strftime_Ymd s <= c.
Proof.
  intros H. unfold strftime_Ymd.
  assert (e / day_us <= (s + c * day_us) / day_us)
    by (apply Z.div_le_mono; [reflexivity | lia]).
  rewrite Z.div_add in H0 by discriminate. lia.
Qed.

Lemma PRESET_MAP_positive (preset : string) (n : Z) :
  PRESET_MAP !! preset = Some n -> 30 <= n.
Proof.
  intros H. apply elem_of_list_to_map_2 in H.
  rewrite !elem_of_cons, elem_of_nil in H.
  destruct H as [H | [H | [H | [H | [H | [H | []]]]]]];
    injection H as _ ->; lia.
Qed.

Lemma MAX_INTERVAL_SPAN_DAYS_positive (interval : string) (c : Z) :
  MAX_INTERVAL_SPAN_DAYS !! interval = Some c -> 7 <= c.
Proof.
  intros H. apply elem_of_list_to_map_2 in H.
  rewrite !elem_of_cons, elem_of_nil in H.
  destruct H as [H | [H | [H | [H | [H | [H | [H | [H | []]]]]]]]];
    injection H as _ ->; lia.
Qed.

(** X19. The window handed to [yf.download] when an endpoint passes the
    range of [_resolve_date_range] on to [load_data]: its end is the
    resolved end, its start is on or before its end and not before the
    resolved start, it spans at most the limit of the validated interval,
    and for an interval without a limit its start is the resolved start. *)
Theorem download_window (timedelta_of_days : Z -> Outcome Z)
    (datetime_sub : Z -> Z -> Outcome Z) (today : Z) (ticker : string)
    (start end_ : option Z) (default_days : Z) (interval : string)
    (s e : Z) (req : Download) :
  exact_timedelta timedelta_of_days ->
  exact_datetime_sub datetime_sub ->
  _resolve_date_range timedelta_of_days datetime_sub today start end_
    default_days = Ok (s, e) ->
  load_data_request timedelta_of_days datetime_sub today ticker (Some s)
    (Some e) interval = Ok req ->
  dl_end req = strftime_Ymd e
  /\ strftime_Ymd s <= dl_start req <= dl_end req
  /\ match MAX_INTERVAL_SPAN_DAYS !! dl_interval req with
     | Some c => dl_end req - dl_start req <= c
     | None => dl_start req = strftime_Ymd s
     end.
Proof.
  intros Htd Hsub Hr Hl.
  apply (_resolve_date_range_inv _ _ Htd Hsub) in Hr as (Hlt & _ & _).
  apply (load_data_request_inv _ _ Htd Hsub) in Hl as (_ & Hi & He & Hs).
  cbn [default from_option id] in *. rewrite Hs, He, Hi. clear Hs He Hi.
  split; [reflexivity |]. unfold strftime_Ymd.
  assert (Hday : 0 < day_us) by reflexivity.
  assert (Hspan : forall a b c, b - a <= c * day_us ->
                    b / day_us - a / day_us <= c)
    by exact strftime_Ymd_span.
  generalize dependent day_us. intros d Hday Hspan.
  destruct (MAX_INTERVAL_SPAN_DAYS !! _) as [c|] eqn:Ec.
  - apply MAX_INTERVAL_SPAN_DAYS_positive in Ec.
    destruct (Z.ltb_spec (c * d) (e - s)) as [Hc | Hc].
    + repeat split.
      * apply Z.div_le_mono; [exact Hday | lia].
      * apply Z.div_le_mono; [exact Hday | nia].
      * apply Hspan. lia.
    + repeat split.
      * lia.
      * apply Z.div_le_mono; [exact Hday | lia].
      * now apply Hspan.
  - repeat split; [lia |].
    apply Z.div_le_mono; [exact Hday | lia].
Qed.

Lemma download_window_witness :
  let req := {| dl_ticker := "AAPL"; dl_start := 993; dl_end := 1000;
                dl_interval := "1m" |} in
  dl_end req = strftime_Ymd (1000 * day_us)
  /\ strftime_Ymd (820 * day_us) <= dl_start req <= dl_end req
  /\ match MAX_INTERVAL_SPAN_DAYS !! dl_interval req with
     | Some c => dl_end req - dl_start req <= c
     | None => dl_start req = strftime_Ymd (820 * day_us)
     end.
Proof.
  apply (download_window example_timedelta example_datetime_sub
           (1000 * day_us) " aapl" None None 180 "1m").
  - intros n t. unfold example_timedelta.
    destruct (_ <=? _); [now intros [= <-] | discriminate].
  - intros d t r. unfold example_datetime_sub.
    destruct (_ && _); [now intros [= <-] | discriminate].
  - vm_compute. reflexivity.
  - vm_compute. reflexivity.
Defined.

(** X20. A request that names no start date is never rejected for its date
    order: with the default span of [get_overview] (a preset of
    [PRESET_MAP], 180 days otherwise) or of [get_forecast]
    (max(days * 3, 180)), [_resolve_date_range] does not raise the
    ValueError that the endpoints turn into a 400 response. *)
Theorem default_range_never_rejected (timedelta_of_days : Z -> Outcome Z)
    (datetime_sub : Z -> Z -> Outcome Z) (today : Z) (end_ : option Z)
    (default_days : Z) (msg : string) :
  exact_timedelta timedelta_of_days ->
  exact_datetime_sub datetime_sub ->
  ((exists preset, default_days = overview_default_days preset)
   \/ exists days, default_days = forecast_default_days days) ->
  _resolve_date_range timedelta_of_days datetime_sub today None end_
    default_days <> Raise (ValueError msg).
Proof.
  intros Htd Hsub Hd. apply (_resolve_date_range_default _ _ Htd Hsub).
  destruct Hd as [[preset ->] | [days ->]].
  - unfold overview_default_days.
    destruct (PRESET_MAP !! _) as [n|] eqn:E; cbn [default from_option id];
      [| lia].
    apply PRESET_MAP_positive in E. lia.
  - unfold forecast_default_days. lia.
Qed.

Lemma default_range_never_rejected_witness :
  _resolve_date_range example_timedelta example_datetime_sub (10 * day_us)
    None None 180
  <> Raise (ValueError "start_date must be earlier than end_date").
Proof.
  apply (default_range_never_rejected example_timedelta example_datetime_sub).
  - intros n t. unfold example_timedelta.
    destruct (_ <=? _); [now intros [= <-] | discriminate].
  - intros d t r. unfold example_datetime_sub.
    destruct (_ && _); [now intros [= <-] | discriminate].
  - right. exists 30. reflexivity.
Defined.

(* ===================================================================== *)
(** * Properties of the headline sentiment *)
(* ===================================================================== *)

Lemma labelled_fits (c : Q) : label_fits (labelled c).
Proof.
  unfold labelled, label_fits.
  destruct (Qle_bool (5 # 100) c) eqn:E1.
  - left. split; [reflexivity |]. now apply Qle_bool_iff.
  - destruct (Qle_bool c (- (5 # 100))) eqn:E2.
    + right. left. split; [reflexivity |]. now apply Qle_bool_iff.
    + right. right. split; [reflexivity |]. cbn [snd].
      split; apply Qnot_le_lt; intros H; apply Qle_bool_iff in H; congruence.
Qed.

Lemma neutral_fits : label_fits ("Neutral"%string, 0%Q).
Proof. right. right. cbn. repeat split; reflexivity. Qed.

Lemma _analyze_headline_sentiment_fits
    (analyzer : option (string -> gmap string Q))
    (headline summary : option string) :
  label_fits (_analyze_headline_sentiment analyzer headline summary).
Proof.
  unfold _analyze_headline_sentiment.
  destruct (negb (truthy headline) && negb (truthy summary));
    [apply neutral_fits |].
  match goal with |- label_fits (match ?l with _ => _ end) =>
    destruct l; [apply neutral_fits |] end.
  destruct analyzer; [apply labelled_fits |].
  match goal with |- label_fits (match ?l with _ => _ end) =>
    destruct l; [apply neutral_fits | apply labelled_fits] end.
Qed.

(** X21. The label [_analyze_headline_sentiment] returns always agrees with
    the score it returns, on every path and for every analyzer: Positive
    exactly from 0.05 up, Negative exactly from -0.05 down, Neutral strictly
    between. *)
Theorem sentiment_label_agrees_with_score
    (analyzer : option (string -> gmap string Q))
    (headline summary : option string) :
  let r := _analyze_headline_sentiment analyzer headline summary in
  (r.1 = "Positive"%string <-> (5 # 100 <= r.2)%Q)
  /\ (r.1 = "Negative"%string <-> (r.2 <= - (5 # 100))%Q)
  /\ (r.1 = "Neutral"%string <-> (- (5 # 100) < r.2 < 5 # 100)%Q).
Proof.
  intros r.
  destruct (_analyze_headline_sentiment_fits analyzer headline summary)
    as [[Hl Hs] | [[Hl Hs] | [Hl Hs]]]; fold r in Hl, Hs; rewrite Hl;
    repeat split; try discriminate; try tauto; intros; exfalso; lra.
Qed.

Lemma filter_disjoint_length {A} (P Q : A -> Prop)
    `{!forall x, Decision (P x)} `{!forall x, Decision (Q x)} (l : list A) :
  (forall x, P x -> Q x -> False) ->
  (length (filter P l) + length (filter Q l) <= length l)%nat.
Proof.
  intros Hd. induction l as [|x l IH]; [reflexivity |].
  destruct (decide (P x)) as [Hp | Hp], (decide (Q x)) as [Hq | Hq].
  - destruct (Hd x Hp Hq).
  - rewrite (filter_cons_True P) by exact Hp.
    rewrite (filter_cons_False Q) by exact Hq. simpl. lia.
  - rewrite (filter_cons_False P) by exact Hp.
    rewrite (filter_cons_True Q) by exact Hq. simpl. lia.
  - rewrite (filter_cons_False P) by exact Hp.
    rewrite (filter_cons_False Q) by exact Hq. simpl. lia.
Qed.

Lemma word_sets_disjoint (w : string) :
  w ∈ _POSITIVE_WORDS -> w ∈ _NEGATIVE_WORDS -> False.
Proof.
  unfold _POSITIVE_WORDS, _NEGATIVE_WORDS.
  rewrite !elem_of_list_to_set. revert w.
  match goal with |- forall w, w ∈ ?p -> w ∈ ?n -> False =>
    apply (proj1 (Forall_forall (fun w => w ∉ n) p)) end.
  apply (bool_decide_unpack _). vm_compute. reflexivity.
Qed.

Lemma lexicon_compound_ratio (tokens : list string) :
  let pos_hits :=
    Z.of_nat (length (filter (fun token => token ∈ _POSITIVE_WORDS) tokens)) in
  let neg_hits :=
    Z.of_nat (length (filter (fun token => token ∈ _NEGATIVE_WORDS) tokens)) in
  let ratio :=
    (inject_Z (pos_hits - neg_hits)
     / inject_Z (Z.max (Z.of_nat (length tokens)) 1))%Q in
  (lexicon_compound tokens == ratio /\ - (1) <= ratio <= 1)%Q.
Proof.
  intros pos_hits neg_hits ratio.
  pose proof (filter_disjoint_length
                (fun token => token ∈ _POSITIVE_WORDS)
                (fun token => token ∈ _NEGATIVE_WORDS) tokens
                word_sets_disjoint) as Hlen.
  assert (Hb : (- (1) <= ratio <= 1)%Q).
  { subst ratio. set (n := Z.max (Z.of_nat (length tokens)) 1).
    assert (Hn : (0 < inject_Z n)%Q).
    { change 0%Q with (inject_Z 0). rewrite <- Zlt_Qlt. lia. }
    split.
    - apply Qle_shift_div_l; [exact Hn |].
      change (- (1))%Q with (inject_Z (-1)).
      rewrite <- inject_Z_mult, <- Zle_Qle. lia.
    - apply Qle_shift_div_r; [exact Hn |].
      change 1%Q with (inject_Z 1).
      rewrite <- inject_Z_mult, <- Zle_Qle. lia. }
  split; [| exact Hb].
  unfold lexicon_compound. fold pos_hits neg_hits. fold ratio.
  destruct Hb as [Hlo Hhi].
  rewrite (proj2 (Q.min_l_iff ratio 1) Hhi).
  apply Q.max_l_iff. exact Hlo.
Qed.

Lemma labelled_score (c : Q) : (labelled c).2 = c.
Proof.
  unfold labelled. destruct (Qle_bool _ _); [reflexivity |].
  destruct (Qle_bool _ _); reflexivity.
Qed.

Lemma has_text_truthy (s : option string) :
  has_text s = true -> truthy s = true.
Proof.
  destruct s as [t|]; [| discriminate]. unfold has_text.
  now intros [H _]%andb_prop.
Qed.

Lemma analyze_without_analyzer (headline summary : option string) :
  _analyze_headline_sentiment None headline summary
  = match lexicon_tokens headline summary with
    | [] => ("Neutral"%string, 0%Q)
    | tokens => labelled (lexicon_compound tokens)
    end.
Proof.
  unfold _analyze_headline_sentiment, lexicon_tokens.
  destruct (has_text headline) eqn:Hh, (has_text summary) eqn:Hs.
  - rewrite (has_text_truthy _ Hh). cbn [negb andb].
    destruct headline as [h|]; [| discriminate].
    destruct summary as [s|]; [| discriminate].
    cbn [app map concat]. rewrite app_nil_r.
    destruct (_ ++ _); reflexivity.
  - rewrite (has_text_truthy _ Hh). cbn [negb andb].
    destruct headline as [h|]; [| discriminate].
    destruct summary as [s|]; cbn [app map concat]; rewrite !app_nil_r;
      destruct (re_findall_words _); reflexivity.
  - destruct summary as [s|]; [| discriminate].
    rewrite (has_text_truthy _ Hs), andb_false_r.
    destruct headline as [h|]; cbn [app map concat];
      rewrite ?app_nil_r; destruct (re_findall_words _); reflexivity.
  - destruct (negb (truthy headline) && negb (truthy summary));
      destruct headline, summary; reflexivity.
Qed.

(** X22. Without an analyzer the score is the plain ratio
    (positive hits - negative hits) / number of tokens: no word is in both
    word sets, so the ratio already lies in [-1, 1] and the clamp that
    follows never changes it.  This is the score
    [_analyze_headline_sentiment] returns, the tokens being the words of the
    texts that are not blank (and the ratio 0 when there is none). *)
Theorem lexicon_score_is_the_ratio (tokens : list string) :
  let pos_hits :=
    Z.of_nat (length (filter (fun token => token ∈ _POSITIVE_WORDS) tokens)) in
  let neg_hits :=
    Z.of_nat (length (filter (fun token => token ∈ _NEGATIVE_WORDS) tokens)) in
  let ratio :=
    (inject_Z (pos_hits - neg_hits)
     / inject_Z (Z.max (Z.of_nat (length tokens)) 1))%Q in
  (lexicon_compound tokens == ratio /\ - (1) <= ratio <= 1)%Q
  /\ forall headline summary,
       tokens = lexicon_tokens headline summary ->
       (_analyze_headline_sentiment None headline summary).2 == ratio.
Proof.
  intros pos_hits neg_hits ratio.
  pose proof (lexicon_compound_ratio tokens) as H. cbv zeta in H.
  fold pos_hits neg_hits in H. fold ratio in H.
  split; [exact H |]. intros headline summary E.
  rewrite analyze_without_analyzer, <- E.
  destruct tokens as [|tk tokens].
  - reflexivity.
  - rewrite labelled_score. exact (proj1 H).
Qed.

(* ===================================================================== *)
(** * Properties of the sentiment summary *)
(* ===================================================================== *)

Lemma scored_row_label (row : string * Q) :
  scored_row row ->
  row.1 = "Positive"%string \/ row.1 = "Neutral"%string
  \/ row.1 = "Negative"%string.
Proof.
  intros (an & h & s & ->).
  destruct (_analyze_headline_sentiment_fits an h s)
    as [[H _] | [[H _] | [H _]]]; auto.
Qed.

Lemma group_size_cons (row : string * Q) (news_df : list (string * Q))
    (label : string) :
  group_size (row :: news_df) label
  = (if bool_decide (row.1 = label) then 1 else 0) + group_size news_df label.
Proof.
  unfold group_size. case_bool_decide as H.
  - rewrite filter_cons_True by exact H. cbn [length]. lia.
  - rewrite filter_cons_False by exact H. lia.
Qed.

Lemma group_sizes_total (news_df : list (string * Q)) :
  Forall scored_row news_df ->
  group_size news_df "Positive" + group_size news_df "Neutral"
  + group_size news_df "Negative" = Z.of_nat (length news_df).
Proof.
  induction 1 as [|row news_df Hrow _ IH]; [reflexivity |].
  rewrite !group_size_cons. cbn [length]. rewrite Nat2Z.inj_succ.
  destruct (scored_row_label row Hrow) as [-> | [-> | ->]];
    cbn [bool_decide]; vm_compute bool_decide; lia.
Qed.

(** X24. The summary of [get_sentiment] over rows scored by
    [_analyze_headline_sentiment]: the three counts add up to the total,
    which is the number of rows, and the dominant sentiment is a label with
    the largest count, Positive winning a tie with either other label and
    Neutral a tie with Negative. *)
Theorem summary_counts_every_row (news_df : list (string * Q)) :
  Forall scored_row news_df ->
  news_df <> [] ->
  let sm := sentiment_summary news_df in
  s_total sm = Z.of_nat (length news_df)
  /\ s_positive sm + s_neutral sm + s_negative sm = s_total sm
  /\ s_dominant_sentiment sm
     = Some (if (s_neutral sm <=? s_positive sm)
                && (s_negative sm <=? s_positive sm) then "Positive"%string
             else if s_negative sm <=? s_neutral sm then "Neutral"%string
             else "Negative"%string).
Proof.
  intros Hrows Hne sm. pose proof (group_sizes_total news_df Hrows) as Htot.
  subst sm. unfold sentiment_summary.
  destruct news_df as [|row rest]; [congruence |].
  set (df := row :: rest) in *.
  cbn [s_total s_positive s_neutral s_negative s_dominant_sentiment
       map snd fold_right].
  set (p := group_size df "Positive") in *.
  set (n := group_size df "Neutral") in *.
  set (g := group_size df "Negative") in *.
  assert (Hlen : 0 < Z.of_nat (length df)) by (subst df; cbn [length]; lia).
  split; [lia |]. split; [lia |].
  destruct (Z.eqb_spec (p + (n + (g + 0))) 0) as [E | _]; [lia |].
  unfold idxmax. cbn [fold_left snd fst].
  destruct (Z.ltb_spec p n), (Z.leb_spec n p); try lia; cbn [snd fst andb].
  - destruct (Z.ltb_spec n g), (Z.leb_spec g n); try lia; reflexivity.
  - destruct (Z.ltb_spec p g), (Z.leb_spec g p); try lia; cbn [andb];
      [| reflexivity].
    destruct (Z.leb_spec g n); [lia | reflexivity].
Qed.

Lemma summary_counts_every_row_witness :
  let sm :=
    sentiment_summary
      [_analyze_headline_sentiment None (Some "Shares surge on record profit"%string) None;
       _analyze_headline_sentiment None (Some "Lawsuit risk weighs on stock"%string) None] in
  s_total sm = 2
  /\ s_positive sm + s_neutral sm + s_negative sm = s_total sm
  /\ s_dominant_sentiment sm
     = Some (if (s_neutral sm <=? s_positive sm)
                && (s_negative sm <=? s_positive sm) then "Positive"%string
             else if s_negative sm <=? s_neutral sm then "Neutral"%string
             else "Negative"%string).
Proof.
  apply (summary_counts_every_row
           [_analyze_headline_sentiment None (Some "Shares surge on record profit"%string) None;
            _analyze_headline_sentiment None (Some "Lawsuit risk weighs on stock"%string) None]).
  - repeat constructor; unfold scored_row; eauto.
  - discriminate.
Defined.

(* ===================================================================== *)
(** * Properties of pretrain_models.py *)
(* ===================================================================== *)

(** X25. [pretrain_ticker] trains nothing on a short history: when
    [load_data] fails, returns nothing, or returns at most 20 usable closes
    (the window it trains with), the result is False and the model directory
    is left as it was. *)
Theorem pretrain_skips_short_history (B : Backend)
    (loaded : Result (option DataFrame)) (ticker : string) (st : Storage B) :
  (forall data, loaded = Ok (Some data) ->
     (length (Close_values (dropna_Close data)) <= 20)%nat) ->
  pretrain_ticker B loaded ticker st = (false, st).
Proof.
  intros H. unfold pretrain_ticker.
  destruct loaded as [[[|row data]|]|]; try reflexivity.
  specialize (H _ eq_refl).
  unfold forecast_lstm_autotrain, bindM, pureM, autotrain_predict.
  destruct (Z.leb_spec (Z.of_nat (length (Close_values (dropna_Close (row :: data))))) 20)
    as [_ | Hgt]; [reflexivity | lia].
Qed.

Lemma pretrain_skips_short_history_witness :
  pretrain_ticker (constant_backend (1 # 2) true)
    (Ok (Some (daily 0 [100; 101; 102]%Q))) "AAPL" []
  = (false, []).
Proof.
  apply (pretrain_skips_short_history (constant_backend (1 # 2) true)).
  intros data [= <-]. vm_compute. lia.
Defined.
